(** * Face-recognition attendance: the recognition and attendance decision pipeline

    A shallow embedding of the JavaScript sources
    - [FaceRecognitionEngine]  (quality scoring, enrollment validation, matching),
    - [AttendanceSystem]       (cooldown gate, best-match selection, recording),
    - [UserManagement]         (enrollment sample collection and completion),
    - [enhanced-script.js]     (the retry budget of [checkAttendance]),
    - [MockDatabaseManager]    (the store that the database module exports).

    Conventions.
    - A JavaScript number is idealised as an exact rational ([Q]) or [NaN];
      rounding of IEEE doubles and the infinities are not modelled.  Equality of
      results is therefore stated with [==] on the rational payload.
    - A property that may be [undefined] is an [option]; reading a property of
      [undefined] throws, which the [result] monad below records.
    - An [async] method runs up to an [await], and other handlers may run
      before it resumes.  [captureEnrollmentSample] and [checkAttendance]
      read a field before their [await] and write it after: they are cut
      there ([captureBegin], [captureResume], [checkAttendanceBegin],
      [checkAttendanceResume]), and [play] runs the schedules in which their
      calls overlap.  [step] and [run] are the calls that nothing else runs
      during; statements about one call are made on those.
    - Calls that only touch the DOM, the console or the camera are left out or
      recorded as events where a statement talks about them. *)

From Stdlib Require Import ZArith QArith Qround Qminmax Lia Lqa List String Bool.
From Stdlib Require Import Decimal DecimalString DecimalZ.
From Stdlib Require Import Sorted Permutation DecimalPos.
Import ListNotations.

(* ===================================================================== *)
(** ** JavaScript values and exceptions *)
(* ===================================================================== *)

Module Js.

(** A thrown value: the message of the [Error]. *)
Inductive exn : Type :=
| TypeError (msg : string)
| Error (msg : string).

(** The outcome of running a block: a value, or a thrown exception. *)
Inductive result (A : Type) : Type :=
| Ok (a : A)
| Throw (e : exn).
Arguments Ok {A} a.
Arguments Throw {A} e.

Definition bind {A B : Type} (m : result A) (k : A -> result B) : result B :=
  match m with
  | Ok a => k a
  | Throw e => Throw e
  end.

(** [try { body } catch (error) { handler }] *)
Definition tryCatch {A : Type} (body : result A) (handler : exn -> result A) : result A :=
  match body with
  | Ok a => Ok a
  | Throw e => handler e
  end.

(** [o.p] where [o] may be [undefined]: the object, or a [TypeError]. *)
Definition deref {A : Type} (o : option A) : result A :=
  match o with
  | Some a => Ok a
  | None => Throw (TypeError "Cannot read properties of undefined")
  end.

(** Numbers. *)
Inductive jsnum : Type :=
| Num (q : Q)
| NaN.

(** [ToNumber] of a numeric property that may be [undefined]. *)
Definition toNum (o : option Q) : jsnum :=
  match o with
  | Some q => Num q
  | None => NaN
  end.

(** [x || 0] for a numeric property: [undefined] (and [0]) give [0]. *)
Definition orZero (o : option Q) : Q :=
  match o with
  | Some q => q
  | None => 0
  end.

Definition lift2 (f : Q -> Q -> Q) (a b : jsnum) : jsnum :=
  match a, b with
  | Num x, Num y => Num (f x y)
  | _, _ => NaN
  end.

Definition add : jsnum -> jsnum -> jsnum := lift2 Qplus.
Definition mul : jsnum -> jsnum -> jsnum := lift2 Qmult.
(** Division is only ever applied to a non-zero constant divisor. *)
Definition div : jsnum -> jsnum -> jsnum := lift2 Qdiv.
(** [Math.min] and [Math.max]: [NaN] as soon as one argument is [NaN]. *)
Definition min : jsnum -> jsnum -> jsnum := lift2 Qmin.
Definition max : jsnum -> jsnum -> jsnum := lift2 Qmax.

(** [a >= b] and [a < b]: every comparison with [NaN] is false. *)
Definition geb (a b : jsnum) : bool :=
  match a, b with
  | Num x, Num y => Qle_bool y x
  | _, _ => false
  end.

Definition ltb (a b : jsnum) : bool :=
  match a, b with
  | Num x, Num y => negb (Qle_bool y x)
  | _, _ => false
  end.

(** Stable sorting, as [Array.prototype.sort(compare)]: [a] is placed before
    [b] when [compare(a, b) < 0], after it when [compare(a, b) > 0], and
    elements that compare equal keep their order. *)
Section Sort.
Context {A : Type} (compare : A -> A -> Q).

Fixpoint insert (x : A) (l : list A) : list A :=
  match l with
  | [] => [x]
  | y :: l' => if Qle_bool (compare x y) 0 then x :: y :: l' else y :: insert x l'
  end.

Fixpoint sort (l : list A) : list A :=
  match l with
  | [] => []
  | x :: l' => insert x (sort l')
  end.
End Sort.

(** Code that runs against a mutable store [S] and may throw: the store after
    the block is kept also when the block throws. *)
Definition M (S A : Type) : Type := S -> result A * S.

Section Monad.
Context {S : Type}.

Definition ret {A : Type} (a : A) : M S A := fun s => (Ok a, s).
Definition throw {A : Type} (e : exn) : M S A := fun s => (Throw e, s).
Definition mbind {A B : Type} (m : M S A) (k : A -> M S B) : M S B :=
  fun s => match m s with
           | (Ok a, s') => k a s'
           | (Throw e, s') => (Throw e, s')
           end.
Definition get : M S S := fun s => (Ok s, s).
Definition gets {A : Type} (f : S -> A) : M S A := fun s => (Ok (f s), s).
Definition modify (f : S -> S) : M S unit := fun s => (Ok tt, f s).
Definition lift {A : Type} (r : result A) : M S A := fun s => (r, s).
(** [try { body } catch (error) { handler }] *)
Definition tryCatchM {A : Type} (body : M S A) (handler : exn -> M S A) : M S A :=
  fun s => match body s with
           | (Ok a, s') => (Ok a, s')
           | (Throw e, s') => handler e s'
           end.
End Monad.

(** Running a block written against a component [T] of the store [S]. *)
Definition zoom {S T A : Type} (proj : S -> T) (upd : T -> S -> S) (m : M T A) : M S A :=
  fun s => let (r, t') := m (proj s) in (r, upd t' s).

(** [error.message] *)
Definition message (e : exn) : string :=
  match e with
  | TypeError msg => msg
  | Error msg => msg
  end.

End Js.

Declare Scope js_scope.
Delimit Scope js_scope with js.
Notation "x <- m ;; k" := (Js.bind m (fun x => k))
  (at level 61, m at next level, right associativity) : js_scope.
Declare Scope jsm_scope.
Delimit Scope jsm_scope with jsm.
Notation "x <~ m ;; k" := (Js.mbind m (fun x => k))
  (at level 61, m at next level, right associativity) : jsm_scope.
Notation "m ;;; k" := (Js.mbind m (fun _ => k))
  (at level 61, right associativity) : jsm_scope.

(* ===================================================================== *)
(** ** The database manager *)
(* ===================================================================== *)

(** The stores are the arrays of [MockDatabaseManager], the instance that
    the module exports.  Its operations do not look at [isInitialized], which
    its constructor sets to true and nothing changes; they do not throw,
    [deleteUser] apart.  Creation and update timestamps of rows are not
    kept. *)
Module Db.
Import Js.
Local Open Scope Z_scope.
Local Open Scope jsm_scope.

Record UserData : Type := mkUserData {
  userName : string;
  userEmail : string;
  userDepartment : string;
  userRole : string
}.

Record User : Type := mkUser {
  id : Z;
  name : string;
  email : string;
  department : string;
  role : string;
  totalAttendance : Z;
  lastSeen : option string
}.

Record FaceData : Type := mkFaceData {
  faceId : Z;
  faceUserId : Z;
  faceDescriptor : list Q;
  faceQuality : jsnum;
  faceTimestamp : string
}.

(** [userId] is [null] or a non-number when the label did not parse. *)
Record AttendanceRecord : Type := mkAttendanceRecord {
  attendanceId : Z;
  userId : option Z;
  confidence : Q;
  quality : jsnum;
  detectionCount : nat;
  timestamp : string
}.

Record State : Type := mkState {
  isInitialized : bool;
  users : list User;
  faceDescriptors : list FaceData;
  attendanceRecords : list AttendanceRecord;
  systemLogs : list (string * string);
  nextUserId : Z;
  nextFaceDescriptorId : Z;
  nextAttendanceId : Z
}.

Definition set_users (f : list User -> list User) (s : State) : State :=
  mkState (isInitialized s) (f (users s)) (faceDescriptors s) (attendanceRecords s)
          (systemLogs s) (nextUserId s) (nextFaceDescriptorId s) (nextAttendanceId s).
Definition set_faceDescriptors (f : list FaceData -> list FaceData) (s : State) : State :=
  mkState (isInitialized s) (users s) (f (faceDescriptors s)) (attendanceRecords s)
          (systemLogs s) (nextUserId s) (nextFaceDescriptorId s) (nextAttendanceId s).
Definition set_attendanceRecords (f : list AttendanceRecord -> list AttendanceRecord)
    (s : State) : State :=
  mkState (isInitialized s) (users s) (faceDescriptors s) (f (attendanceRecords s))
          (systemLogs s) (nextUserId s) (nextFaceDescriptorId s) (nextAttendanceId s).
Definition set_systemLogs (f : list (string * string) -> list (string * string))
    (s : State) : State :=
  mkState (isInitialized s) (users s) (faceDescriptors s) (attendanceRecords s)
          (f (systemLogs s)) (nextUserId s) (nextFaceDescriptorId s) (nextAttendanceId s).
Definition set_nextUserId (n : Z) (s : State) : State :=
  mkState (isInitialized s) (users s) (faceDescriptors s) (attendanceRecords s)
          (systemLogs s) n (nextFaceDescriptorId s) (nextAttendanceId s).
Definition set_nextFaceDescriptorId (n : Z) (s : State) : State :=
  mkState (isInitialized s) (users s) (faceDescriptors s) (attendanceRecords s)
          (systemLogs s) (nextUserId s) n (nextAttendanceId s).
Definition set_nextAttendanceId (n : Z) (s : State) : State :=
  mkState (isInitialized s) (users s) (faceDescriptors s) (attendanceRecords s)
          (systemLogs s) (nextUserId s) (nextFaceDescriptorId s) n.

(** [new MockDatabaseManager()] *)
Definition new : State := mkState true [] [] [] [] 1 1 1.

(** [logActivity(level, message)]: [this.systemLogs.push(logEntry)]. *)
Definition logActivity (level message : string) : M State unit :=
  modify (set_systemLogs (fun l => l ++ [(level, message)])).

(** [getAllUsers()] *)
Definition getAllUsers : M State (list User) :=
  gets users.

(** [addUser(userData)]: the new user's id. *)
Definition addUser (userData : UserData) : M State Z :=
  uid <~ gets nextUserId ;;
  modify (set_nextUserId (uid + 1)) ;;;
  let user := mkUser uid (userName userData) (userEmail userData)
                     (userDepartment userData) (userRole userData) 0 None in
  modify (set_users (fun l => l ++ [user])) ;;;
  logActivity "info" "User added" ;;;
  ret uid.

(** [addFaceDescriptor(userId, descriptor, metadata)]: the new row's id. *)
Definition addFaceDescriptor (userId : Z) (descriptor : list Q)
    (quality : jsnum) (timestamp : string) : M State Z :=
  fid <~ gets nextFaceDescriptorId ;;
  modify (set_nextFaceDescriptorId (fid + 1)) ;;;
  modify (set_faceDescriptors
            (fun l => l ++ [mkFaceData fid userId descriptor quality timestamp])) ;;;
  logActivity "info" "Face descriptor added" ;;;
  ret fid.

(** [getFaceDescriptors()] *)
Definition getFaceDescriptors : M State (list FaceData) :=
  gets faceDescriptors.

(** [userId === user.id] *)
Definition idEq (userId : option Z) (u : User) : bool :=
  match userId with
  | Some n => n =? id u
  | None => false
  end.

(** The update of [lastSeen] and [totalAttendance] on the user that
    [users.find] returns: the first one with that id. *)
Fixpoint touch (userId : option Z) (now : string) (l : list User) : list User :=
  match l with
  | [] => []
  | u :: l' =>
      if idEq userId u
      then mkUser (id u) (name u) (email u) (department u) (role u)
                  (totalAttendance u + 1) (Some now) :: l'
      else u :: touch userId now l'
  end.

(** [addAttendanceRecord(userId, confidence, metadata)]: the record's id. *)
Definition addAttendanceRecord (userId : option Z) (confidence : Q)
    (quality : jsnum) (detectionCount : nat) (now : string) : M State Z :=
  aid <~ gets nextAttendanceId ;;
  modify (set_nextAttendanceId (aid + 1)) ;;;
  modify (set_attendanceRecords
            (fun l => l ++ [mkAttendanceRecord aid userId confidence quality
                                               detectionCount now])) ;;;
  modify (set_users (touch userId now)) ;;;
  logActivity "info" "Attendance recorded" ;;;
  ret aid.

End Db.

(* ===================================================================== *)
(** ** FaceRecognitionEngine: detections and the quality score *)
(* ===================================================================== *)

Module Engine.
Import Js.
Local Open Scope Q_scope.
Local Open Scope js_scope.

(** [detection.detection.box] *)
Record Box : Type := mkBox {
  width : option Q;
  height : option Q
}.

(** [detection.detection]: the detector's box and score. *)
Record FaceDetection : Type := mkFaceDetection {
  box : option Box;
  score : option Q
}.

(** [detection.expressions] *)
Record Expressions : Type := mkExpressions {
  neutral : option Q;
  happy : option Q
}.

(** A descriptor: the 128 numbers of the embedding. *)
Definition Descriptor : Type := list Q.

(** One element of what [detectAllFaces(...)...] yields.  [landmarks] is only
    ever tested for truthiness, so it is kept as its presence. *)
Record Detection : Type := mkDetection {
  detection : option FaceDetection;
  landmarks : bool;
  expressions : option Expressions;
  descriptor : Descriptor
}.

(** The body of the [try] block of [calculateFaceQuality]. *)
Definition qualityBody (d : Detection) : result jsnum :=
  let landmarks := landmarks d in
  let expressions := expressions d in
  fd <- deref (detection d) ;;
  let faceBox := box fd in
  b <- deref faceBox ;;
  let faceArea := mul (toNum (width b)) (toNum (height b)) in
  let sizeQuality := min (div faceArea (Num 40000)) (Num 1) in
  let landmarkQuality := if landmarks then Num 0.8 else Num 0.3 in
  let expressionQuality :=
    match expressions with
    | Some e =>
        let neutral := orZero (neutral e) in
        let happy := orZero (happy e) in
        max (Num neutral) (mul (Num happy) (Num 0.8))
    | None => Num 0.5
    end in
  let confidenceQuality := toNum (score fd) in
  let overallQuality :=
    add (add (add (mul sizeQuality (Num 0.3)) (mul landmarkQuality (Num 0.2)))
             (mul expressionQuality (Num 0.2)))
        (mul confidenceQuality (Num 0.3)) in
  Ok (min (max overallQuality (Num 0)) (Num 1)).

(** [calculateFaceQuality(detection)]: the body, with the [catch] returning
    the default quality. *)
Definition calculateFaceQuality (d : Detection) : result jsnum :=
  tryCatch (qualityBody d) (fun _ => Ok (Num 0.5)).

(** The object [validateEnrollmentQuality] returns. *)
Record Validation : Type := mkValidation {
  isValid : bool;
  validationQuality : jsnum;
  issues : list string
}.

(** [issues.push(msg)] under [if (c)] *)
Definition pushIf (c : bool) (msg : string) (l : list string) : list string :=
  if c then l ++ [msg] else l.

(** [validateEnrollmentQuality(detection)], for the engine's [qualityThreshold]. *)
Definition validateEnrollmentQuality (qualityThreshold : Q) (d : Detection)
    : result Validation :=
  quality <- calculateFaceQuality d ;;
  let valid := geb quality (Num qualityThreshold) in
  if ltb quality (Num qualityThreshold) then
    fd <- deref (detection d) ;;
    let issues := pushIf (ltb (toNum (score fd)) (Num 0.8))
                         "Low face detection confidence" [] in
    faceBox <- deref (box fd) ;;
    let issues := pushIf (ltb (toNum (width faceBox)) (Num 100)
                          || ltb (toNum (height faceBox)) (Num 100))
                         "Face too small - move closer to camera" issues in
    let issues := pushIf (negb (landmarks d))
                         "Face landmarks not detected clearly" issues in
    let issues :=
      match expressions d with
      | Some e => pushIf (ltb (Num (orZero (neutral e))) (Num 0.3))
                         "Please maintain a neutral expression" issues
      | None => issues
      end in
    Ok (mkValidation valid quality issues)
  else Ok (mkValidation valid quality []).

(** [faceapi.LabeledFaceDescriptors] *)
Record LabeledFaceDescriptors : Type := mkLabeled {
  label : string;
  descriptors : list Descriptor
}.

(** [faceapi.FaceMatch] *)
Record FaceMatch : Type := mkFaceMatch {
  matchLabel : string;
  distance : Q
}.

(** One element of what [recognizeFaces] returns. *)
Record RecognitionResult : Type := mkResult {
  resDetection : Detection;
  resMatch : FaceMatch;
  confidence : Q;
  isMatch : bool;
  userId : option Z;
  quality : jsnum;
  timestamp : string
}.

(** The fields of the engine. *)
Record State : Type := mkState {
  isInitialized : bool;
  labeledDescriptors : list LabeledFaceDescriptors;
  recognitionThreshold : Q;
  qualityThreshold : Q
}.

(** [new FaceRecognitionEngine()] *)
Definition new : State := mkState false [] 0.6 0.7.

Definition set_labeledDescriptors (l : list LabeledFaceDescriptors) (s : State) : State :=
  mkState (isInitialized s) l (recognitionThreshold s) (qualityThreshold s).

(** The engine together with the database module it imports. *)
Record Env : Type := mkEnv {
  db : Db.State;
  engine : State
}.

Definition set_db (d : Db.State) (e : Env) : Env := mkEnv d (engine e).
Definition set_engine (f : State -> State) (e : Env) : Env := mkEnv (db e) (f (engine e)).

(** A call [await db.op(...)] from the engine. *)
Definition onDb {A : Type} (m : M Db.State A) : M Env A := zoom db set_db m.

(** [user.id.toString()] and [Number.parseInt(label)]; labels are only ever
    produced by the former, so only decimal numerals are parsed. *)
Definition toString (n : Z) : string := NilZero.string_of_int (Z.to_int n).
Definition parseInt (s : string) : option Z :=
  option_map Z.of_int (NilZero.int_of_string s).

Local Open Scope jsm_scope.

(** [if (!this.isInitialized) throw new Error(...)] *)
Definition requireInitialized : M Env unit :=
  init <~ gets (fun e => isInitialized (engine e)) ;;
  if init then ret tt else throw (Error "Face recognition engine not initialized").

(** The labeled descriptors of [loadFaceDescriptors]: one entry per user that
    has at least one stored descriptor, in the order of the users. *)
Fixpoint labelUsers (descriptors : list Db.FaceData) (users : list Db.User)
    : list LabeledFaceDescriptors :=
  match users with
  | [] => []
  | user :: rest =>
      let userDescriptors :=
        filter (fun d => Z.eqb (Db.faceUserId d) (Db.id user)) descriptors in
      if (0 <? List.length userDescriptors)%nat
      then mkLabeled (toString (Db.id user)) (map Db.faceDescriptor userDescriptors)
             :: labelUsers descriptors rest
      else labelUsers descriptors rest
  end.

(** [loadFaceDescriptors()] *)
Definition loadFaceDescriptors : M Env unit :=
  tryCatchM
    (descriptors <~ onDb Db.getFaceDescriptors ;;
     users <~ onDb Db.getAllUsers ;;
     modify (set_engine (set_labeledDescriptors (labelUsers descriptors users))))
    (fun error => throw error).

(** [if (options.minQuality)]: a threshold that is given and not zero. *)
Definition truthy (minQuality : option Q) : option Q :=
  match minQuality with
  | Some m => if Qeq_bool m 0 then None else Some m
  | None => None
  end.

(** [detectFaces(input, options)]: [frame] is what the detector chain of
    face-api.js yields on the input, [minQuality] is [options.minQuality]. *)
Definition detectFaces (frame : result (list Detection)) (minQuality : option Q)
    : M Env (list Detection) :=
  requireInitialized ;;;
  tryCatchM
    (detections <~ lift frame ;;
     match truthy minQuality with
     | Some m =>
         ret (filter (fun d => match calculateFaceQuality d with
                               | Ok q => geb q (Num m)
                               | Throw _ => false
                               end) detections)
     | None => ret detections
     end)
    (fun error => onDb (Db.logActivity "error" "Face detection failed") ;;; throw error).

(** [enrollFace(userId, faceDescriptor, metadata)] *)
Definition enrollFace (userId : Z) (faceDescriptor : Descriptor)
    (quality : jsnum) (timestamp : string) : M Env Z :=
  requireInitialized ;;;
  tryCatchM
    (( if negb (List.length faceDescriptor =? 128)%nat
       then throw (Error "Invalid face descriptor") else ret tt ) ;;;
     descriptorId <~ onDb (Db.addFaceDescriptor userId faceDescriptor quality timestamp) ;;
     loadFaceDescriptors ;;;
     onDb (Db.logActivity "info" "Face enrolled") ;;;
     ret descriptorId)
    (fun error => onDb (Db.logActivity "error" "Face enrollment failed") ;;; throw error).

Section Matcher.
(** [new faceapi.FaceMatcher(labeled, threshold).findBestMatch(descriptor)]:
    the matcher of face-api.js, which is not part of these sources. *)
Variable findBestMatch :
  list LabeledFaceDescriptors -> Q -> Descriptor -> result FaceMatch.

(** The body of the loop of [recognizeFaces], for one detection. *)
Definition recognizeOne (s : State) (now : string) (d : Detection)
    : result RecognitionResult :=
  (m <- findBestMatch (labeledDescriptors s) (recognitionThreshold s) (descriptor d) ;;
   q <- calculateFaceQuality d ;;
   let known := negb (String.eqb (matchLabel m) "unknown") in
   Ok (mkResult d m (1 - distance m) known
                (if known then parseInt (matchLabel m) else None) q now))%js.

(** The loop of [recognizeFaces]. *)
Fixpoint recognizeAll (s : State) (now : string) (ds : list Detection)
    : result (list RecognitionResult) :=
  match ds with
  | [] => Ok []
  | d :: ds' =>
      (r <- recognizeOne s now d ;;
       rs <- recognizeAll s now ds' ;;
       Ok (r :: rs))%js
  end.

(** [recognizeFaces(detections)] *)
Definition recognizeFaces (now : string) (detections : list Detection)
    : M Env (list RecognitionResult) :=
  requireInitialized ;;;
  s <~ gets engine ;;
  if (List.length (labeledDescriptors s) =? 0)%nat then ret []
  else
    tryCatchM
      (results <~ lift (recognizeAll s now detections) ;;
       ret (sort (fun a b => confidence b - confidence a) results))
      (fun error =>
         onDb (Db.logActivity "error" "Face recognition failed") ;;; throw error).
End Matcher.

End Engine.

(* ===================================================================== *)
(** ** What the user is shown *)
(* ===================================================================== *)

(** Every [showToast(message, type)] of the two classes, with the values
    interpolated into the message. *)
Module Ui.

Inductive Toast : Type :=
(* AttendanceSystem *)
| NoFacesDetected
| PleaseWait (remaining : Z)
| NoFacesProcessed
| WelcomeBack (name : string)
| FaceNotRecognized
| CaptureFailed
(* UserManagement *)
| EnrollmentStarted
| EnrollmentStartFailed (message : string)
| NoFaceDetected
| MultipleFacesDetected
| SampleQualityTooLow (issues : list string)
| SampleCaptured (count required : Z)
| SampleCaptureFailed
| NeedMoreSamples (missing : Z)
| UserEnrolled (name : string)
| EnrollmentFailed (message : string)
| LoadUsersFailed.

(** A component of the page: the engine and the database it shares with the
    other components, its own fields, and the toasts shown so far. *)
Record World (S : Type) : Type := mkWorld {
  env : Engine.Env;
  self : S;
  toasts : list Toast
}.
Arguments mkWorld {S} env self toasts.
Arguments env {S} w.
Arguments self {S} w.
Arguments toasts {S} w.

Section World.
Context {S : Type}.

Definition set_env (e : Engine.Env) (w : World S) : World S :=
  mkWorld e (self w) (toasts w).
Definition set_self (f : S -> S) (w : World S) : World S :=
  mkWorld (env w) (f (self w)) (toasts w).

(** [this.showToast(...)] *)
Definition showToast (t : Toast) : Js.M (World S) unit :=
  Js.modify (fun w => mkWorld (env w) (self w) (toasts w ++ [t])).

(** A call [await this.faceEngine.method(...)]. *)
Definition onEngine {A : Type} (m : Js.M Engine.Env A) : Js.M (World S) A :=
  Js.zoom env set_env m.

(** A call [await this.db.method(...)]. *)
Definition onDb {A : Type} (m : Js.M Db.State A) : Js.M (World S) A :=
  onEngine (Engine.onDb m).
End World.

End Ui.

(* ===================================================================== *)
(** ** AttendanceSystem *)
(* ===================================================================== *)

Module Attendance.
Import Js Ui.
Local Open Scope Z_scope.
Local Open Scope jsm_scope.

Record State : Type := mkState {
  isActive : bool;
  currentDetections : list Engine.Detection;
  lastRecognitionTime : Z;
  recognitionCooldown : Z
}.

(** [new AttendanceSystem(db, faceEngine, showToast)] *)
Definition new : State := mkState false [] 0 3000.

Definition set_lastRecognitionTime (t : Z) (s : State) : State :=
  mkState (isActive s) (currentDetections s) t (recognitionCooldown s).

(** The answer of the cooldown check of [captureAttendance]. *)
Inductive Gate : Type :=
| Granted
| Denied (remaining : Z).

(** [Math.ceil((cooldown - (now - last)) / 1000)] *)
Definition remainingSeconds (cooldown now last : Z) : Z :=
  Qceiling (inject_Z (cooldown - (now - last)) / 1000).

(** The cooldown check: [now - this.lastRecognitionTime < this.recognitionCooldown]. *)
Definition cooldownGate (s : State) (now : Z) : Gate :=
  if now - lastRecognitionTime s <? recognitionCooldown s
  then Denied (remainingSeconds (recognitionCooldown s) now (lastRecognitionTime s))
  else Granted.

(** [result.isMatch && result.confidence >= threshold] *)
Definition qualifies (threshold : Q) (r : Engine.RecognitionResult) : bool :=
  Engine.isMatch r && Qle_bool threshold (Engine.confidence r).

(** [(a, b) => b.confidence - a.confidence] *)
Definition byConfidence (a b : Engine.RecognitionResult) : Q :=
  (Engine.confidence b - Engine.confidence a)%Q.

(** [recognitionResults.filter(...).sort(...)[0]] *)
Definition bestMatch (threshold : Q) (recognitionResults : list Engine.RecognitionResult)
    : option Engine.RecognitionResult :=
  hd_error (sort byConfidence (filter (qualifies threshold) recognitionResults)).

(** [users.find((u) => u.id === bestMatch.userId)] *)
Definition findUser (userId : option Z) (users : list Db.User) : option Db.User :=
  find (Db.idEq userId) users.

Section Capture.
Variable findBestMatch :
  list Engine.LabeledFaceDescriptors -> Q -> Engine.Descriptor -> result Engine.FaceMatch.

(** The part of the [try] block that follows recognition: the choice of the
    best match and what is done with it.  [showRecognitionResult],
    [updateSystemStatus] and [updateAttendanceFeed] only touch the page; the
    last one is not awaited, so a failure inside it does not reach the
    [catch]. *)
Definition decide (now : Z) (iso : string) (users : list Db.User)
    (recognitionResults : list Engine.RecognitionResult) : M (World State) bool :=
  threshold <~ gets (fun w => Engine.recognitionThreshold (Engine.engine (env w))) ;;
  match bestMatch threshold recognitionResults with
  | Some best =>
      onDb (Db.addAttendanceRecord (Engine.userId best) (Engine.confidence best)
              (Engine.quality best) (List.length recognitionResults) iso) ;;;
      let user := findUser (Engine.userId best) users in
      u <~ lift (deref user) ;;
      showToast (WelcomeBack (Db.name u)) ;;;
      modify (set_self (set_lastRecognitionTime now)) ;;;
      ret true
  | None =>
      showToast FaceNotRecognized ;;;
      ret false
  end.

(** [captureAttendance()]; [now] is [Date.now()] and [iso] is
    [new Date().toISOString()]. *)
Definition captureAttendance (now : Z) (iso : string) : M (World State) bool :=
  s <~ gets self ;;
  if negb (isActive s) || (List.length (currentDetections s) =? 0)%nat then
    showToast NoFacesDetected ;;; ret false
  else
    match cooldownGate s now with
    | Denied remaining => showToast (PleaseWait remaining) ;;; ret false
    | Granted =>
        tryCatchM
          (users <~ onDb Db.getAllUsers ;;
           recognitionResults <~
             onEngine (Engine.recognizeFaces findBestMatch iso (currentDetections s)) ;;
           if (List.length recognitionResults =? 0)%nat then
             showToast NoFacesProcessed ;;; ret false
           else decide now iso users recognitionResults)
          (fun error =>
             onDb (Db.logActivity "error" "Attendance capture failed") ;;;
             showToast CaptureFailed ;;;
             ret false)
    end.
End Capture.

End Attendance.

(* ===================================================================== *)
(** ** UserManagement: the enrollment session *)
(* ===================================================================== *)

Module Enrollment.
Import Js Ui.
Local Open Scope Z_scope.
Local Open Scope jsm_scope.

(** An element of [enrollmentSamples]. *)
Record Sample : Type := mkSample {
  descriptor : Engine.Descriptor;
  quality : jsnum;
  timestamp : string
}.

Record State : Type := mkState {
  enrollmentSamples : list Sample;
  isEnrolling : bool;
  requiredSamples : Z
}.

(** [new UserManagement(db, faceEngine, showToast, switchMode)] *)
Definition new : State := mkState [] false 5.

Definition set_enrollmentSamples (f : list Sample -> list Sample) (s : State) : State :=
  mkState (f (enrollmentSamples s)) (isEnrolling s) (requiredSamples s).
Definition set_isEnrolling (b : bool) (s : State) : State :=
  mkState (enrollmentSamples s) b (requiredSamples s).

(** [this.enrollmentSamples.length] *)
Definition sampleCount (s : State) : Z := Z.of_nat (List.length (enrollmentSamples s)).

(** [startEnrollment()]; [formValid] is [form.checkValidity()] and [camera]
    is the outcome of acquiring the camera stream. *)
Definition startEnrollment (formValid : bool) (camera : result unit)
    : M (World State) bool :=
  tryCatchM
    (init <~ gets (fun w => Engine.isInitialized (Engine.engine (env w))) ;;
     ( if negb init then throw (Error "Face recognition engine not initialized")
       else ret tt ) ;;;
     if negb formValid then ret false
     else
       lift camera ;;;
       modify (set_self (set_isEnrolling true)) ;;;
       modify (set_self (set_enrollmentSamples (fun _ => []))) ;;;
       showToast EnrollmentStarted ;;;
       ret true)
    (fun error => showToast (EnrollmentStartFailed (message error)) ;;; ret false).

(** [captureEnrollmentSample()] is cut where it first waits.  Up to
    [await this.faceEngine.detectFaces(...)] it only reads the session: the
    result tells whether the call goes on to the detector or returns false
    at once. *)
Definition captureBegin : M (World State) bool :=
  s <~ gets self ;;
  if negb (isEnrolling s) || (requiredSamples s <=? sampleCount s) then ret false
  else ret true.

(** The rest of the call, from the answer of the detector on; [frame] is what
    the detector yields on the enrollment video and [iso] is
    [new Date().toISOString()].  [detectFaces] reads the flag of the engine
    when it is called and [validateEnrollmentQuality], the second [await],
    the threshold: no operation of the session writes either, so both are
    read here.  The session is not looked at again before the sample is
    pushed.  When the last required sample is stored, [completeEnrollment] is
    scheduled by a timer; it then runs as a step of its own. *)
Definition captureResume (frame : result (list Engine.Detection))
    (iso : string) : M (World State) bool :=
  tryCatchM
    (detections <~ onEngine (Engine.detectFaces frame None) ;;
     match detections with
     | [] => showToast NoFaceDetected ;;; ret false
     | _ :: _ :: _ => showToast MultipleFacesDetected ;;; ret false
     | [detection] =>
         threshold <~ gets (fun w => Engine.qualityThreshold (Engine.engine (env w))) ;;
         validation <~ lift (Engine.validateEnrollmentQuality threshold detection) ;;
         if negb (Engine.isValid validation) then
           showToast (SampleQualityTooLow (Engine.issues validation)) ;;; ret false
         else
           modify (set_self (set_enrollmentSamples (fun l =>
             l ++ [mkSample (Engine.descriptor detection)
                            (Engine.validationQuality validation) iso]))) ;;;
           s' <~ gets self ;;
           showToast (SampleCaptured (sampleCount s') (requiredSamples s')) ;;;
           ret true
     end)
    (fun error => showToast SampleCaptureFailed ;;; ret false).

(** A call of [captureEnrollmentSample()] that nothing else runs during. *)
Definition captureEnrollmentSample (frame : result (list Engine.Detection))
    (iso : string) : M (World State) bool :=
  go <~ captureBegin ;;
  if go then captureResume frame iso else ret false.

(** [stopEnrollment()] *)
Definition stopEnrollment : M (World State) unit :=
  modify (set_self (set_isEnrolling false)) ;;;
  modify (set_self (set_enrollmentSamples (fun _ => []))).

(** [loadUserTable()]: only the page is updated; a failure is reported by a toast. *)
Definition loadUserTable : M (World State) unit :=
  tryCatchM (onDb Db.getAllUsers ;;; ret tt) (fun error => showToast LoadUsersFailed).

(** The loop [for (const sample of this.enrollmentSamples) await enrollFace(...)]. *)
Fixpoint enrollSamples (userId : Z) (samples : list Sample) : M (World State) unit :=
  match samples with
  | [] => ret tt
  | sample :: rest =>
      onEngine (Engine.enrollFace userId (descriptor sample) (quality sample)
                  (timestamp sample)) ;;;
      enrollSamples userId rest
  end.

(** [completeEnrollment()]; [form] is the content of the user form.
    [clearEnrollmentForm], [updateStats] and the later switch of mode only
    touch the page. *)
Definition completeEnrollment (form : Db.UserData) : M (World State) bool :=
  s <~ gets self ;;
  if sampleCount s <? requiredSamples s then
    showToast (NeedMoreSamples (requiredSamples s - sampleCount s)) ;;; ret false
  else
    tryCatchM
      (let userData :=
         Db.mkUserData (Db.userName form) (Db.userEmail form) (Db.userDepartment form)
           (if String.eqb (Db.userRole form) "" then "Employee" else Db.userRole form) in
       existingUsers <~ onDb Db.getAllUsers ;;
       ( if existsb (fun user => String.eqb (Db.email user) (Db.userEmail userData))
                    existingUsers
         then throw (Error "Email already exists in the system") else ret tt ) ;;;
       userId <~ onDb (Db.addUser userData) ;;
       enrollSamples userId (enrollmentSamples s) ;;;
       stopEnrollment ;;;
       loadUserTable ;;;
       showToast (UserEnrolled (Db.userName userData)) ;;;
       ret true)
      (fun error =>
         onDb (Db.logActivity "error" "Enrollment failed") ;;;
         showToast (EnrollmentFailed (message error)) ;;;
         ret false).

(** What can happen to an enrollment session. *)
Inductive Op : Type :=
| StartEnrollment (formValid : bool) (camera : result unit)
| CaptureEnrollmentSample (frame : result (list Engine.Detection)) (iso : string)
| CompleteEnrollment (form : Db.UserData)
| StopEnrollment.

(** Running one operation: the world after it. *)
Definition step (op : Op) (w : World State) : World State :=
  match op with
  | StartEnrollment formValid camera => snd (startEnrollment formValid camera w)
  | CaptureEnrollmentSample frame iso => snd (captureEnrollmentSample frame iso w)
  | CompleteEnrollment form => snd (completeEnrollment form w)
  | StopEnrollment => snd (stopEnrollment w)
  end.

(** Running a sequence of operations, the first one first. *)
Definition run (ops : list Op) (w : World State) : World State :=
  fold_left (fun w op => step op w) ops w.

(** The component when its calls may overlap: next to its state, the number
    of captures that passed their guard and wait for the detector. *)
Record Page : Type := mkPage {
  world : World State;
  inFlight : nat
}.

(** What can happen then: an operation that runs with nothing in between, a
    press on the capture button, the answer of the detector to a capture in
    flight. *)
Inductive Event : Type :=
| Call (op : Op)
| CaptureBegins
| CaptureResumes (frame : result (list Engine.Detection)) (iso : string).

Definition react (ev : Event) (p : Page) : Page :=
  match ev with
  | Call op => mkPage (step op (world p)) (inFlight p)
  | CaptureBegins =>
      match captureBegin (world p) with
      | (Ok true, w) => mkPage w (S (inFlight p))
      | (_, w) => mkPage w (inFlight p)
      end
  | CaptureResumes frame iso =>
      match inFlight p with
      | O => p
      | S n => mkPage (snd (captureResume frame iso (world p))) n
      end
  end.

(** The events of a schedule, the first one first. *)
Definition play (evs : list Event) (p : Page) : Page :=
  fold_left (fun p ev => react ev p) evs p.

(** The schedule lets nothing overlap: an operation or a capture only starts
    when no capture is in flight. *)
Fixpoint serial (evs : list Event) (p : Page) : bool :=
  match evs with
  | [] => true
  | ev :: rest =>
      match ev with
      | CaptureResumes _ _ => true
      | _ => (inFlight p =? 0)%nat
      end && serial rest (react ev p)
  end.

End Enrollment.

(* ===================================================================== *)
(** ** enhanced-script.js: capture, then check attendance with retries *)
(* ===================================================================== *)

Module EnhancedScript.
Import Js.
Local Open Scope Z_scope.
Local Open Scope jsm_scope.

(** An entry of [userDatabase]. *)
Record DemoUser : Type := mkDemoUser {
  id : Z;
  name : string;
  lastSeen : option string;
  attendanceCount : Z
}.

Inductive Toast : Type :=
| PleaseStartCamera
| CameraStarted
| CameraError
| CameraStopped
| ScanningCancelled
| ImageCaptured
| PleaseCaptureFirst
| Processing (attempt maxAttempts : Z)
| WelcomeBack (name : string) (checkIns : Z)
| FaceNotRecognized
| MaximumAttemptsReached (maxAttempts : Z)
| RecognitionFailed (attemptsRemaining : Z).

(** The global variables of the script, and the toasts shown so far. *)
Record State : Type := mkState {
  videoStream : bool;
  isScanning : bool;
  capturedImage : option string;
  recognitionAttempts : Z;
  userDatabase : list DemoUser;
  toasts : list Toast
}.

Definition MAX_ATTEMPTS : Z := 3.

(** The globals when the script is loaded. *)
Definition initial : State :=
  mkState false false None 0
    [ mkDemoUser 1 "Alice Johnson" None 0;
      mkDemoUser 2 "Bob Smith" None 0;
      mkDemoUser 3 "Carol Davis" None 0;
      mkDemoUser 4 "David Wilson" None 0 ]
    [].

Definition set_videoStream (b : bool) (s : State) : State :=
  mkState b (isScanning s) (capturedImage s) (recognitionAttempts s)
          (userDatabase s) (toasts s).
Definition set_isScanning (b : bool) (s : State) : State :=
  mkState (videoStream s) b (capturedImage s) (recognitionAttempts s)
          (userDatabase s) (toasts s).
Definition set_capturedImage (i : option string) (s : State) : State :=
  mkState (videoStream s) (isScanning s) i (recognitionAttempts s)
          (userDatabase s) (toasts s).
Definition set_recognitionAttempts (n : Z) (s : State) : State :=
  mkState (videoStream s) (isScanning s) (capturedImage s) n
          (userDatabase s) (toasts s).
Definition set_userDatabase (l : list DemoUser) (s : State) : State :=
  mkState (videoStream s) (isScanning s) (capturedImage s) (recognitionAttempts s)
          l (toasts s).

Definition showToast (t : Toast) : M State unit :=
  modify (fun s => mkState (videoStream s) (isScanning s) (capturedImage s)
                           (recognitionAttempts s) (userDatabase s) (toasts s ++ [t])).

(** [array[i]] for a number [i]: [undefined] outside the array. *)
Definition index {A : Type} (l : list A) (i : Z) : option A :=
  if i <? 0 then None else nth_error l (Z.to_nat i).

(** The array after [array[i].lastSeen = iso; array[i].attendanceCount++]. *)
Fixpoint checkIn (l : list DemoUser) (i : nat) (iso : string) : list DemoUser :=
  match l, i with
  | [], _ => []
  | u :: l', O => mkDemoUser (id u) (name u) (Some iso) (attendanceCount u + 1) :: l'
  | u :: l', S i' => u :: checkIn l' i' iso
  end.

(** [startCamera()]; [granted] tells whether a camera stream was obtained. *)
Definition startCamera (granted : bool) : M State unit :=
  if granted then modify (set_videoStream true) ;;; showToast CameraStarted
  else showToast CameraError.

(** [stopCamera()] *)
Definition stopCamera : M State unit :=
  s <~ get ;;
  if videoStream s then modify (set_videoStream false) ;;; showToast CameraStopped
  else ret tt.

(** [startCountdown()], up to the timers it sets. *)
Definition startCountdown : M State unit :=
  s <~ get ;;
  if isScanning s then ret tt else modify (set_isScanning true).

(** [captureImage()] *)
Definition captureImage : M State unit :=
  s <~ get ;;
  if negb (videoStream s) then showToast PleaseStartCamera
  else
    modify (set_recognitionAttempts 0) ;;;
    startCountdown.

(** [cancelScanning()] *)
Definition cancelScanning : M State unit :=
  s <~ get ;;
  if isScanning s then modify (set_isScanning false) ;;; showToast ScanningCancelled
  else ret tt.

(** [performCapture()]; [image] is the data URL read from the canvas. *)
Definition performCapture (image : string) : M State unit :=
  modify (set_capturedImage (Some image)) ;;;
  showToast ImageCaptured.

(** The timer at the end of the countdown. *)
Definition countdownElapsed (image : string) : M State unit :=
  s <~ get ;;
  if isScanning s then performCapture image ;;; modify (set_isScanning false)
  else ret tt.

(** [Math.max(0.3, baseSuccessRate - attemptPenalty)] *)
Definition successRate (attempts : Z) : Q :=
  let baseSuccessRate := 0.7%Q in
  let attemptPenalty := (inject_Z (attempts - 1) * 0.1)%Q in
  Qmax 0.3 (baseSuccessRate - attemptPenalty).

(** [checkAttendance()] is cut where it waits.  Up to
    [await simulateProcessing(2000)] it counts the attempt and announces it;
    the result tells whether the call goes on or returns at once. *)
Definition checkAttendanceBegin : M State bool :=
  s <~ get ;;
  match capturedImage s with
  | None => showToast PleaseCaptureFirst ;;; ret false
  | Some _ =>
      modify (set_recognitionAttempts (recognitionAttempts s + 1)) ;;;
      attempts <~ gets recognitionAttempts ;;
      showToast (Processing attempts MAX_ATTEMPTS) ;;;
      ret true
  end.

(** The rest of the call, once the processing is over; [r1] and [r2] are the
    two values of [Math.random()] and [iso] is [new Date().toISOString()].
    [recognitionAttempts] is the global variable, read again here. *)
Definition checkAttendanceResume (r1 r2 : Q) (iso : string) : M State unit :=
  attempts <~ gets recognitionAttempts ;;
  let isRecognized := negb (Qle_bool (successRate attempts) r1) in
  if isRecognized then
    users <~ gets userDatabase ;;
    let i := Qfloor (r2 * inject_Z (Z.of_nat (List.length users))) in
    user <~ lift (deref (index users i)) ;;
    modify (set_userDatabase (checkIn users (Z.to_nat i) iso)) ;;;
    showToast (WelcomeBack (name user) (attendanceCount user + 1)) ;;;
    modify (set_capturedImage None) ;;;
    modify (set_recognitionAttempts 0)
  else
    showToast FaceNotRecognized ;;;
    attempts <~ gets recognitionAttempts ;;
    if MAX_ATTEMPTS <=? attempts then
      showToast (MaximumAttemptsReached MAX_ATTEMPTS) ;;;
      modify (set_capturedImage None) ;;;
      modify (set_recognitionAttempts 0)
    else
      showToast (RecognitionFailed (MAX_ATTEMPTS - attempts)).

(** A call of [checkAttendance()] that nothing else runs during. *)
Definition checkAttendance (r1 r2 : Q) (iso : string) : M State unit :=
  go <~ checkAttendanceBegin ;;
  if go then checkAttendanceResume r1 r2 iso else ret tt.

(** What can happen on the page. *)
Inductive Op : Type :=
| StartCamera (granted : bool)
| StopCamera
| CaptureImage
| CancelScanning
| CountdownElapsed (image : string)
| CheckAttendance (r1 r2 : Q) (iso : string).

Definition step (op : Op) (s : State) : State :=
  match op with
  | StartCamera granted => snd (startCamera granted s)
  | StopCamera => snd (stopCamera s)
  | CaptureImage => snd (captureImage s)
  | CancelScanning => snd (cancelScanning s)
  | CountdownElapsed image => snd (countdownElapsed image s)
  | CheckAttendance r1 r2 iso => snd (checkAttendance r1 r2 iso s)
  end.

(** Running a sequence of operations, the first one first. *)
Definition run (ops : list Op) (s : State) : State :=
  fold_left (fun s op => step op s) ops s.

(** The page when calls of [checkAttendance] may overlap: next to the
    globals, the number of calls that wait for the processing to end. *)
Record Page : Type := mkPage {
  globals : State;
  processing : nat
}.

(** What can happen then: an operation that runs with nothing in between, a
    press on A or on the button, the end of the processing of a call. *)
Inductive Event : Type :=
| Call (op : Op)
| AttendanceBegins
| ProcessingEnds (r1 r2 : Q) (iso : string).

Definition react (ev : Event) (p : Page) : Page :=
  match ev with
  | Call op => mkPage (step op (globals p)) (processing p)
  | AttendanceBegins =>
      match checkAttendanceBegin (globals p) with
      | (Ok true, s) => mkPage s (S (processing p))
      | (_, s) => mkPage s (processing p)
      end
  | ProcessingEnds r1 r2 iso =>
      match processing p with
      | O => p
      | S n => mkPage (snd (checkAttendanceResume r1 r2 iso (globals p))) n
      end
  end.

(** The events of a schedule, the first one first. *)
Definition play (evs : list Event) (p : Page) : Page :=
  fold_left (fun p ev => react ev p) evs p.

End EnhancedScript.

(* ===================================================================== *)
(** ** Vocabulary of the statements, and sample data *)
(* ===================================================================== *)

Module QualityNotions.
Import Js Engine.
Local Open Scope Q_scope.

(** [r] is a number denoting [q]. *)
Definition yields (r : result jsnum) (q : Q) : Prop :=
  exists x, r = Ok (Num x) /\ x == q.

(** A detection carrying every field. *)
Definition fullDetection (w h s : Q) (landmarks : bool) (e : option Expressions)
    (descriptor : Descriptor) : Detection :=
  mkDetection (Some (mkFaceDetection (Some (mkBox (Some w) (Some h))) (Some s)))
              landmarks e descriptor.

End QualityNotions.

Module MatcherNotions.
Import Js Engine.
Local Open Scope Q_scope.

(** A matcher that never finds anybody, and one that always finds user 1 at
    distance 0.3. *)
Definition nobody (_ : list LabeledFaceDescriptors) (_ : Q) (_ : Descriptor)
    : result FaceMatch :=
  Ok (mkFaceMatch "unknown" 1).
Definition alwaysUserOne (_ : list LabeledFaceDescriptors) (_ : Q) (_ : Descriptor)
    : result FaceMatch :=
  Ok (mkFaceMatch (toString 1) 0.3).

(** An initialized engine with an empty gallery, and one that knows user 1. *)
Definition emptyGallery : Env := mkEnv Db.new (mkState true [] 0.6 0.7).
Definition oneUser : Env :=
  mkEnv (Db.mkState true [Db.mkUser 1 "Ada" "ada@example.org" "R&D" "Employee" 0 None]
           [] [] [] 2 1 1)
        (mkState true [mkLabeled (toString 1) [[]]] 0.6 0.7).

(** A detection to recognize: a 200 x 200 face, found with certainty. *)
Definition someFace : Detection :=
  mkDetection (Some (mkFaceDetection (Some (mkBox (Some 200) (Some 200))) (Some 1)))
              true None [].

End MatcherNotions.

Module DecisionNotions.
Import Js.
Local Open Scope Q_scope.

(** [l] splits around its first element of greatest confidence. *)
Definition firstGreatest (l : list Engine.RecognitionResult)
    (best : Engine.RecognitionResult) : Prop :=
  exists pre post,
    l = pre ++ best :: post /\
    (forall x, In x pre -> Engine.confidence x < Engine.confidence best) /\
    (forall x, In x post -> Engine.confidence x <= Engine.confidence best).

(** A matched candidate at the given distance; two candidates with
    confidences 0.55 and 0.62. *)
Definition candidate (userId : Z) (distance : Q) : Engine.RecognitionResult :=
  Engine.mkResult MatcherNotions.someFace
    (Engine.mkFaceMatch (Engine.toString userId) distance)
    (1 - distance) true (Some userId) (Num 0.96) "".
Definition twoCandidates : list Engine.RecognitionResult :=
  [candidate 1 0.45; candidate 2 0.38].

End DecisionNotions.

Module CooldownNotions.
Import Js Ui Attendance.
Local Open Scope Z_scope.

(** An active session looking at one face, last successful at [last]. *)
Definition watching (last : Z) : State :=
  mkState true [MatcherNotions.someFace] last 3000.

(** That session next to an engine that knows user 1. *)
Definition kiosk (last : Z) : World State :=
  mkWorld MatcherNotions.oneUser (watching last) [].

End CooldownNotions.

Module EnrollmentNotions.
Import Js Ui Enrollment.
Local Open Scope Z_scope.

(** Sessions with [n] accepted samples, next to an initialized engine. *)
Definition sample : Sample := mkSample [] (Num 0.8) "".
Definition session (n : nat) : World State :=
  mkWorld MatcherNotions.emptyGallery (mkState (repeat sample n) true 5) [].

(** The session may take another sample. *)
Definition collecting (s : State) : bool :=
  isEnrolling s && (sampleCount s <? requiredSamples s).

(** The bound on the sample list, for the required count [required]. *)
Definition bounded (required : Z) (s : State) : Prop :=
  requiredSamples s = required /\ sampleCount s <= required.

End EnrollmentNotions.

Module RetryNotions.
Import Js EnhancedScript.
Local Open Scope Z_scope.

(** The attempt is not recognized: [Math.random() < successRate] is false. *)
Definition missed (attempt : Z) (r1 : Q) : Prop := (successRate attempt <= r1)%Q.

(** [Math.random()] returns a number of [0, 1). *)
Definition unit_interval (r : Q) : Prop := (0 <= r)%Q /\ (r < 1)%Q.

Definition wellFormed (op : Op) : Prop :=
  match op with
  | CheckAttendance r1 r2 iso => unit_interval r1 /\ unit_interval r2
  | _ => True
  end.

(** The attempt number announced by a toast is within the budget. *)
Definition withinBudget (t : Toast) : Prop :=
  match t with
  | Processing attempt maxAttempts => 1 <= attempt <= MAX_ATTEMPTS
  | _ => True
  end.

(** Between two operations: fewer than [MAX_ATTEMPTS] attempts are counted,
    the user database is not empty, and no toast announced an attempt beyond
    the budget. *)
Definition invariant (s : State) : Prop :=
  0 <= recognitionAttempts s < MAX_ATTEMPTS /\
  userDatabase s <> [] /\
  Forall withinBudget (toasts s).

(** A state right after a capture. *)
Definition captured (image : string) : State :=
  mkState true false (Some image) 0 (userDatabase initial) [].

End RetryNotions.

(* ===================================================================== *)
(** ** Further operations of the same classes *)
(* ===================================================================== *)

(** The lists of recent entries that [updateAttendanceFeed] and
    [addToAttendanceHistory] keep on the page: the children of the list
    element, first child first. *)
Module Recent.

(** [while (list.children.length > 10) list.removeChild(list.lastChild)];
    [fuel] bounds the number of rounds. *)
Fixpoint trim {A : Type} (fuel : nat) (children : list A) : list A :=
  match fuel with
  | O => children
  | S fuel' =>
      if (10 <? List.length children)%nat
      then trim fuel' (removelast children)
      else children
  end.

(** [list.insertBefore(item, list.firstChild)], then the loop; the loop
    runs at most once per child. *)
Definition insertRecent {A : Type} (item : A) (children : list A) : list A :=
  trim (S (List.length children)) (item :: children).

End Recent.

(** [getUser] and [deleteUser] of [MockDatabaseManager]. *)
Module DbOps.
Import Js Db.
Local Open Scope Z_scope.
Local Open Scope jsm_scope.

(** [(user) => user.id === id] *)
Definition hasId (userId : Z) (user : User) : bool := id user =? userId.

(** [getUser(id)] *)
Definition getUser (userId : Z) : M State (option User) :=
  gets (fun s => find (hasId userId) (users s)).

(** [this.users.splice(userIndex, 1)] at the index of the first user with
    that id. *)
Fixpoint removeUser (userId : Z) (l : list User) : list User :=
  match l with
  | [] => []
  | user :: l' => if hasId userId user then l' else user :: removeUser userId l'
  end.

(** [ar.userId !== id] *)
Definition otherUser (userId : Z) (recordUser : option Z) : bool :=
  match recordUser with
  | Some n => negb (n =? userId)
  | None => true
  end.

(** [deleteUser(id)] *)
Definition deleteUser (userId : Z) : M State bool :=
  us <~ gets users ;;
  match find (hasId userId) us with
  | None => throw (Error "User not found")
  | Some user =>
      modify (set_users (removeUser userId)) ;;;
      modify (set_faceDescriptors
                (filter (fun fd => negb (faceUserId fd =? userId)))) ;;;
      modify (set_attendanceRecords
                (filter (fun ar => otherUser userId (Db.userId ar)))) ;;;
      logActivity "info" "User deleted" ;;;
      ret true
  end.

End DbOps.

(** [initialize], [detectAndDisplayFaces] and [stop] of [AttendanceSystem]. *)
Module AttendanceOps.
Import Js Ui Attendance.
Local Open Scope Z_scope.
Local Open Scope jsm_scope.

Definition set_isActive (b : bool) (s : State) : State :=
  mkState b (currentDetections s) (lastRecognitionTime s) (recognitionCooldown s).
Definition set_currentDetections (l : list Engine.Detection) (s : State) : State :=
  mkState (isActive s) l (lastRecognitionTime s) (recognitionCooldown s).

(** [initialize()]; [elements] tells whether the video and the canvas were
    found, [camera] is the outcome of [startCamera()]. *)
Definition initialize (elements : bool) (camera : result unit) : M (World State) bool :=
  tryCatchM
    (( if negb elements then throw (Error "Required DOM elements not found")
       else ret tt ) ;;;
     lift camera ;;;
     modify (set_self (set_isActive true)) ;;;
     onDb (Db.logActivity "info" "Attendance system initialized") ;;;
     ret true)
    (fun error =>
       onDb (Db.logActivity "error" "Attendance system initialization failed") ;;;
       throw error).

(** [detectAndDisplayFaces()]; [videoReady] tells whether the video has a
    size, [frame] is what the detector yields on it.  The updates of the
    counters, of the canvas and of the status only touch the page. *)
Definition detectAndDisplayFaces (videoReady : bool)
    (frame : result (list Engine.Detection)) : M (World State) unit :=
  if negb videoReady then ret tt
  else
    tryCatchM
      (detections <~ onEngine (Engine.detectFaces frame (Some 0.3%Q)) ;;
       modify (set_self (set_currentDetections detections)))
      (fun error => ret tt).

(** [stop()] *)
Definition stop : M (World State) unit :=
  tryCatchM
    (modify (set_self (set_isActive false)) ;;;
     onDb (Db.logActivity "info" "Attendance system stopped"))
    (fun error => onDb (Db.logActivity "error" "Error stopping system")).

Section Session.
Variable findBestMatch :
  list Engine.LabeledFaceDescriptors -> Q -> Engine.Descriptor -> result Engine.FaceMatch.

(** What can happen to the attendance system: its start, a tick of the
    detection loop, a press on the capture button, its stop. *)
Inductive Op : Type :=
| Initialize (elements : bool) (camera : result unit)
| Detect (videoReady : bool) (frame : result (list Engine.Detection))
| Capture (now : Z) (iso : string)
| Stop.

Definition step (op : Op) (w : World State) : World State :=
  match op with
  | Initialize elements camera => snd (initialize elements camera w)
  | Detect videoReady frame => snd (detectAndDisplayFaces videoReady frame w)
  | Capture now iso => snd (captureAttendance findBestMatch now iso w)
  | Stop => snd (stop w)
  end.

(** Running a sequence of operations, the first one first. *)
Definition run (ops : list Op) (w : World State) : World State :=
  fold_left (fun w op => step op w) ops w.
End Session.

End AttendanceOps.

(** [deleteUser] of [UserManagement]. *)
Module ManagementOps.
Import Js.
Local Open Scope Z_scope.
Local Open Scope jsm_scope.

Inductive Notice : Type :=
| UserNotFound
| UserDeleted
| DeleteUserFailed
| LoadUsersFailed.

(** The engine and the database, and the toasts shown so far. *)
Record Page : Type := mkPage {
  env : Engine.Env;
  notices : list Notice
}.

Definition set_env (e : Engine.Env) (p : Page) : Page := mkPage e (notices p).

Definition showToast (n : Notice) : M Page unit :=
  modify (fun p => mkPage (env p) (notices p ++ [n])).
Definition onEngine {A : Type} (m : M Engine.Env A) : M Page A := zoom env set_env m.
Definition onDb {A : Type} (m : M Db.State A) : M Page A := onEngine (Engine.onDb m).

(** [loadUserTable()] *)
Definition loadUserTable : M Page unit :=
  tryCatchM (onDb Db.getAllUsers ;;; ret tt) (fun error => showToast LoadUsersFailed).

(** [deleteUser(userId)]; [confirmed] is the answer to [confirm(...)].
    [updateStats] only touches the page. *)
Definition deleteUser (userId : Z) (confirmed : bool) : M Page unit :=
  tryCatchM
    (user <~ onDb (DbOps.getUser userId) ;;
     match user with
     | None => showToast UserNotFound
     | Some _ =>
         if confirmed then
           onDb (DbOps.deleteUser userId) ;;;
           loadUserTable ;;;
           onEngine Engine.loadFaceDescriptors ;;;
           showToast UserDeleted
         else ret tt
     end)
    (fun error => showToast DeleteUserFailed).

End ManagementOps.

(* ===================================================================== *)
(** ** Vocabulary of the further statements *)
(* ===================================================================== *)

Module MoreNotions.
Import Js.
Local Open Scope Z_scope.

(** The block [m] keeps the observation [f] of the store, however it ends. *)
Definition preserves {S T A : Type} (f : S -> T) (m : M S A) : Prop :=
  forall s, f (snd (m s)) = f s.

(** The initialization flag and the thresholds of the engine, and the same
    seen from the enrollment page. *)
Definition settings (e : Engine.Env) : bool * Q * Q :=
  (Engine.isInitialized (Engine.engine e),
   Engine.recognitionThreshold (Engine.engine e),
   Engine.qualityThreshold (Engine.engine e)).
Definition pageSettings (w : Ui.World Enrollment.State) : bool * Q * Q :=
  settings (Ui.env w).

(** Every stored sample was validated against the quality threshold. *)
Definition validated (w : Ui.World Enrollment.State) : Prop :=
  Forall (fun s => geb (Enrollment.quality s)
                       (Num (Engine.qualityThreshold (Engine.engine (Ui.env w)))) = true)
         (Enrollment.enrollmentSamples (Ui.self w)).

(** A session that is not enrolling holds no sample. *)
Definition idleIsEmpty (s : Enrollment.State) : Prop :=
  Enrollment.isEnrolling s = false -> Enrollment.enrollmentSamples s = [].

(** Every id in use is below the next id to hand out. *)
Definition idsBelowNext (s : Db.State) : Prop :=
  Forall (fun u => Db.id u < Db.nextUserId s) (Db.users s).

(** The stored descriptors of a user. *)
Definition rowsOf (rows : list Db.FaceData) (user : Db.User) : list Db.FaceData :=
  filter (fun d => Db.faceUserId d =? Db.id user) rows.

(** The quality of [d] is a number of at least [m]. *)
Definition qualityAtLeast (m : Q) (d : Engine.Detection) : Prop :=
  exists q, Engine.calculateFaceQuality d = Ok (Num q) /\ (m <= q)%Q.


(** A matcher that fails on every descriptor. *)
Definition brokenMatcher (_ : list Engine.LabeledFaceDescriptors) (_ : Q)
    (_ : Engine.Descriptor) : result Engine.FaceMatch :=
  Throw (Error "matcher failed").


(** The rows [enrollSamples] stores for [samples], numbered from [first]. *)
Fixpoint rowsFor (userId first : Z) (samples : list Enrollment.Sample)
    : list Db.FaceData :=
  match samples with
  | [] => []
  | sample :: rest =>
      Db.mkFaceData first userId (Enrollment.descriptor sample)
        (Enrollment.quality sample) (Enrollment.timestamp sample)
      :: rowsFor userId (first + 1) rest
  end.

(** The sum of the check-ins of the users, and the number of welcomes among
    the toasts. *)
Definition totalCheckIns (l : list EnhancedScript.DemoUser) : Z :=
  fold_right (fun u n => EnhancedScript.attendanceCount u + n) 0 l.
Definition welcomes (l : list EnhancedScript.Toast) : Z :=
  fold_right (fun t n => match t with
                         | EnhancedScript.WelcomeBack _ _ => 1 + n
                         | _ => n
                         end) 0 l.

(** The page between two events of a schedule that lets nothing overlap: the
    session is within its bound and holds nothing when it is not enrolling,
    and a capture in flight, if there is one, is the only one and has room
    for its sample. *)
Definition orderly (required : Z) (p : Enrollment.Page) : Prop :=
  let s := Ui.self (Enrollment.world p) in
  EnrollmentNotions.bounded required s /\
  idleIsEmpty s /\
  (Enrollment.inFlight p = 0%nat \/
   (Enrollment.inFlight p = 1%nat /\ Enrollment.isEnrolling s = true /\
    Enrollment.sampleCount s < required)).

(** Whether the database is open, and its users. *)
Definition roster (d : Db.State) : bool * list Db.User :=
  (Db.isInitialized d, Db.users d).
Definition engineRoster (e : Engine.Env) : bool * list Db.User := roster (Engine.db e).
Definition pageRoster {S : Type} (w : Ui.World S) : bool * list Db.User :=
  engineRoster (Ui.env w).

(** A descriptor of the length the engine accepts. *)
Definition descriptor128 : Engine.Descriptor := repeat 0%Q 128.

(** A face that passes none of the quality gates by much: 100 x 100, found
    with confidence 0.8, neutral at 0.3. *)
Definition smallFace : Engine.Detection :=
  QualityNotions.fullDetection 100 100 0.8 true
    (Some (Engine.mkExpressions (Some 0.3%Q) None)) descriptor128.

(** A well lit face with a descriptor. *)
Definition goodFace : Engine.Detection :=
  QualityNotions.fullDetection 200 200 1 true None descriptor128.

End MoreNotions.

(* ===================================================================== *)
(** * Properties *)
(* ===================================================================== *)

(** ** Running monadic blocks *)

Module MonadFacts.
Import Js.

Lemma mbind_run {S A B : Type} (m : M S A) (k : A -> M S B) (s : S) :
  mbind m k s =
  match m s with
  | (Ok a, s') => k a s'
  | (Throw e, s') => (Throw e, s')
  end.
Proof. reflexivity. Qed.

Lemma tryCatchM_run {S A : Type} (body : M S A) (handler : exn -> M S A) (s : S) :
  tryCatchM body handler s =
  match body s with
  | (Ok a, s') => (Ok a, s')
  | (Throw e, s') => handler e s'
  end.
Proof. reflexivity. Qed.

End MonadFacts.

Ltac frame_done := repeat split; intros; first [discriminate | reflexivity].

(** ** The quality score *)

Module EngineFacts.
Import Js Engine QualityNotions.
Local Open Scope Q_scope.

(** Replaces every [Qmin] and [Qmax] by a variable constrained by its
    specification. *)
Ltac abstract_min a b :=
  let x := fresh "m" in
  pose proof (Q.min_spec a b); set (x := Qmin a b) in *; clearbody x.
Ltac abstract_max a b :=
  let x := fresh "m" in
  pose proof (Q.max_spec a b); set (x := Qmax a b) in *; clearbody x.
Ltac minmax_specs :=
  repeat match goal with
         | |- context [Qmin ?a ?b] => abstract_min a b
         | |- context [Qmax ?a ?b] => abstract_max a b
         | _ : context [Qmin ?a ?b] |- _ => abstract_min a b
         | _ : context [Qmax ?a ?b] |- _ => abstract_max a b
         end.

Lemma div_reference_area (a : Q) : a / 40000 == a * (1 # 40000).
Proof. field. Qed.

(** The size signal of a box that reaches the reference area. *)
Lemma sizeQuality_saturates (a : Q) : 40000 <= a -> Qmin (a / 40000) 1 == 1.
Proof.
  intros Ha. apply Q.min_r. rewrite div_reference_area. lra.
Qed.

(** The score, whenever the box and the detector score are there. *)
Lemma quality_full (w h s : Q) (l : bool) (e : option Expressions) (desc : Descriptor) :
  calculateFaceQuality (fullDetection w h s l e desc) =
  Ok (Num (Qmin (Qmax
    (Qmin (w * h / 40000) 1 * 0.3
     + (if l then 0.8 else 0.3) * 0.2
     + match e with
       | Some e => Qmax (orZero (neutral e)) (orZero (happy e) * 0.8)
       | None => 0.5
       end * 0.2
     + s * 0.3) 0) 1)).
Proof.
  unfold calculateFaceQuality, qualityBody, fullDetection; simpl.
  destruct l, e; reflexivity.
Qed.

(** The catch of [calculateFaceQuality] answers every failure of the body. *)
Lemma quality_total (d : Detection) : exists v, calculateFaceQuality d = Ok v.
Proof.
  unfold calculateFaceQuality, tryCatch.
  destruct (qualityBody d); eauto.
Qed.

(** C1, as stated, fails: a 200 x 200 box with detector confidence 1,
    landmarks and a fully neutral expression scores 0.96, not 1. *)
Lemma ideal_detection_scores_096 :
  match calculateFaceQuality
          (fullDetection 200 200 1 true (Some (mkExpressions (Some 1) (Some 0))) []) with
  | Ok (Num q) => 40000 <= 200 * 200 /\ q == 0.96 /\ ~ q == 1
  | _ => False
  end.
Proof.
  vm_compute. repeat split; intros; discriminate.
Qed.

(** C1, amended: with detector confidence 1, a box of at least the reference
    area, landmarks present, neutral score 1 and a happy score of at most 1,
    [calculateFaceQuality] returns 0.96 (= 0.3 + 0.2 * 0.8 + 0.2 + 0.3), the
    largest score the landmark signal of 0.8 allows. *)
Theorem quality_of_ideal_detection
    (w h s n : Q) (hp : option Q) (desc : Descriptor) :
  40000 <= w * h -> s == 1 -> n == 1 -> orZero hp <= 1 ->
  yields (calculateFaceQuality
            (fullDetection w h s true (Some (mkExpressions (Some n) hp)) desc)) 0.96.
Proof.
  intros Harea Hs Hn Hh.
  rewrite quality_full. eexists; split; [reflexivity|]. simpl.
  rewrite (sizeQuality_saturates _ Harea), Hs.
  generalize dependent (orZero hp); intros y Hy.
  minmax_specs. lra.
Qed.

Lemma quality_of_ideal_detection_witness :
  yields (calculateFaceQuality
            (fullDetection 250 160 1 true
               (Some (mkExpressions (Some 1) (Some (1 # 2)))) [])) 0.96.
Proof.
  apply (quality_of_ideal_detection 250 160 1 1 (Some (1 # 2)) []).
  - vm_compute; discriminate.
  - reflexivity.
  - reflexivity.
  - vm_compute; discriminate.
Defined.

(** C2, as stated, fails: a 200 x 200 box with detector confidence 1, no
    landmarks and no expression scores gets 0.76, not the fallback 0.5. *)
Lemma bare_detection_scores_076 :
  match calculateFaceQuality (fullDetection 200 200 1 false None []) with
  | Ok (Num q) => q == 0.76 /\ ~ q == 0.5
  | _ => False
  end.
Proof.
  vm_compute. repeat split; intros; discriminate.
Qed.

(** C2, amended: for a detection without landmarks and without expression
    scores, [calculateFaceQuality] never throws; it returns the fallback 0.5
    when the detector result or its box is missing, and with a box and a score
    it returns the weighted sum with the landmark signal 0.3 and the
    expression signal 0.5, clamped to [0,1]. *)
Theorem quality_without_optional_fields (d : Detection) :
  landmarks d = false -> expressions d = None ->
  (exists v, calculateFaceQuality d = Ok v) /\
  (detection d = None -> calculateFaceQuality d = Ok (Num 0.5)) /\
  (forall fd, detection d = Some fd -> box fd = None ->
     calculateFaceQuality d = Ok (Num 0.5)) /\
  (forall fd w h s, detection d = Some fd ->
     box fd = Some (mkBox (Some w) (Some h)) -> score fd = Some s ->
     yields (calculateFaceQuality d)
       (Qmin (Qmax (Qmin (w * h / 40000) 1 * 0.3 + 0.3 * 0.2 + 0.5 * 0.2 + s * 0.3) 0) 1)).
Proof.
  intros Hl He. split; [apply quality_total|].
  unfold calculateFaceQuality, qualityBody.
  repeat split.
  - intros ->. reflexivity.
  - intros fd -> Hb. simpl. rewrite Hb. reflexivity.
  - intros fd w h s -> Hb Hs. simpl. rewrite Hb, Hs, Hl, He. simpl.
    eexists; split; [reflexivity|]. reflexivity.
Qed.

Lemma quality_without_optional_fields_witness :
  yields (calculateFaceQuality (fullDetection 100 100 (1 # 2) false None []))
         (Qmin (Qmax (Qmin (100 * 100 / 40000) 1 * 0.3 + 0.3 * 0.2 + 0.5 * 0.2
                      + (1 # 2) * 0.3) 0) 1).
Proof.
  destruct (quality_without_optional_fields
              (fullDetection 100 100 (1 # 2) false None []) eq_refl eq_refl)
    as (_ & _ & _ & H).
  apply (H (mkFaceDetection (Some (mkBox (Some 100) (Some 100))) (Some (1 # 2))));
    reflexivity.
Defined.

End EngineFacts.

(** ** Matching against the gallery *)

Module MatcherFacts.
Import Js Engine MatcherNotions.
Local Open Scope Q_scope.

(** C3, as stated, fails: with an empty gallery [recognizeFaces] returns no
    result at all for the detection it is given, so there is no "unknown"
    result with confidence 0 either. *)
Lemma empty_gallery_yields_no_result :
  match fst (recognizeFaces nobody "" [someFace] emptyGallery) with
  | Ok results =>
      results = [] /\
      ~ exists r, In r results /\ isMatch r = false /\ confidence r == 0
  | Throw _ => False
  end.
Proof.
  cbn. split; [reflexivity|]. intros (r & [] & _).
Qed.

(** C3, amended: with an empty gallery an initialized engine answers every
    list of detections with the empty list of results: nothing is matched,
    nothing is thrown, and neither the engine nor the database changes. *)
Theorem recognizeFaces_empty_gallery
    (findBestMatch : list LabeledFaceDescriptors -> Q -> Descriptor -> result FaceMatch)
    (now : string) (detections : list Detection) (e : Env) :
  isInitialized (engine e) = true ->
  labeledDescriptors (engine e) = [] ->
  recognizeFaces findBestMatch now detections e = (Ok [], e).
Proof.
  intros Hinit Hempty.
  unfold recognizeFaces, requireInitialized, mbind, gets.
  rewrite Hinit; cbn. rewrite Hempty. reflexivity.
Qed.

Lemma recognizeFaces_empty_gallery_witness :
  recognizeFaces nobody "" [someFace] emptyGallery = (Ok [], emptyGallery).
Proof.
  apply (recognizeFaces_empty_gallery nobody "" [someFace] emptyGallery);
    reflexivity.
Defined.

End MatcherFacts.

(** ** The attendance decision *)

Module DecisionFacts.
Import Js Ui Attendance DecisionNotions.
Local Open Scope Q_scope.

Lemma byConfidence_le (a b : Engine.RecognitionResult) :
  Qle_bool (byConfidence a b) 0 = true <-> Engine.confidence b <= Engine.confidence a.
Proof.
  unfold byConfidence. rewrite Qle_bool_iff. split; intros; lra.
Qed.

Lemma hd_insert (x : Engine.RecognitionResult) (l : list Engine.RecognitionResult) :
  hd_error (insert byConfidence x l) =
  match hd_error l with
  | None => Some x
  | Some y => if Qle_bool (byConfidence x y) 0 then Some x else Some y
  end.
Proof.
  destruct l as [|y l]; cbn; [reflexivity|].
  destruct (Qle_bool (byConfidence x y) 0); reflexivity.
Qed.

Lemma hd_sort_nil (l : list Engine.RecognitionResult) :
  hd_error (sort byConfidence l) = None <-> l = [].
Proof.
  destruct l as [|x l]; cbn; [tauto|].
  rewrite hd_insert. split; [|discriminate].
  destruct (hd_error (sort byConfidence l)); [|discriminate].
  destruct (Qle_bool (byConfidence x r) 0); discriminate.
Qed.

(** The head of the sorted array is the first greatest element of the array. *)
Lemma hd_sort_firstGreatest (l : list Engine.RecognitionResult)
    (best : Engine.RecognitionResult) :
  hd_error (sort byConfidence l) = Some best -> firstGreatest l best.
Proof.
  revert best. induction l as [|x l IH]; cbn; intros best Hhd; [discriminate|].
  rewrite hd_insert in Hhd.
  destruct (hd_error (sort byConfidence l)) as [y|] eqn:Hy.
  - destruct (IH y eq_refl) as (pre & post & -> & Hpre & Hpost).
    destruct (Qle_bool (byConfidence x y) 0) eqn:Hcmp; injection Hhd as <-.
    + apply byConfidence_le in Hcmp.
      exists [], (pre ++ y :: post). repeat split; [intros ? []|].
      intros z Hz. apply in_app_or in Hz as [Hz|[<-|Hz]].
      * specialize (Hpre z Hz). lra.
      * exact Hcmp.
      * specialize (Hpost z Hz). lra.
    + assert (Hlt : Engine.confidence x < Engine.confidence y).
      { apply Qnot_le_lt. intros Hle. apply byConfidence_le in Hle. congruence. }
      exists (x :: pre), post. repeat split; [|exact Hpost].
      intros z [<-|Hz]; [exact Hlt|auto].
  - apply hd_sort_nil in Hy as ->. injection Hhd as <-.
    exists [], []. repeat split; intros ? [].
Qed.

(** A split of a filtered array comes from a split of the array. *)
Lemma filter_split {A : Type} (f : A -> bool) (l pre post : list A) (x : A) :
  filter f l = pre ++ x :: post ->
  exists pre' post',
    l = pre' ++ x :: post' /\ filter f pre' = pre /\ filter f post' = post.
Proof.
  revert pre. induction l as [|a l IH]; cbn; intros pre Hf.
  - destruct pre; discriminate.
  - destruct (f a) eqn:Ha.
    + destruct pre as [|p pre]; cbn in Hf; injection Hf as -> Hf.
      * exists [], l. repeat split. exact Hf.
      * destruct (IH pre Hf) as (pre' & post' & -> & Hpre & Hpost).
        exists (p :: pre'), post'. cbn. rewrite Ha, Hpre. repeat split. exact Hpost.
    + destruct (IH pre Hf) as (pre' & post' & -> & Hpre & Hpost).
      exists (a :: pre'), post'. cbn. rewrite Ha. repeat split; assumption.
Qed.

Lemma bestMatch_none (threshold : Q) (results : list Engine.RecognitionResult) :
  bestMatch threshold results = None <->
  forall r, In r results -> qualifies threshold r = false.
Proof.
  unfold bestMatch. rewrite hd_sort_nil. split.
  - intros Hnil r Hr. destruct (qualifies threshold r) eqn:Hq; [|reflexivity].
    assert (In r (filter (qualifies threshold) results)) as Hin
      by (apply filter_In; auto).
    rewrite Hnil in Hin. destruct Hin.
  - intros Hall. induction results as [|a l IH]; cbn; [reflexivity|].
    rewrite (Hall a (or_introl eq_refl)). apply IH. intros r Hr. apply Hall. now right.
Qed.

Lemma bestMatch_some (threshold : Q) (results : list Engine.RecognitionResult)
    (best : Engine.RecognitionResult) :
  bestMatch threshold results = Some best ->
  exists pre post,
    results = pre ++ best :: post /\
    qualifies threshold best = true /\
    (forall x, In x pre -> qualifies threshold x = true -> Engine.confidence x < Engine.confidence best) /\
    (forall x, In x post -> qualifies threshold x = true -> Engine.confidence x <= Engine.confidence best).
Proof.
  unfold bestMatch. intros Hhd.
  destruct (hd_sort_firstGreatest _ _ Hhd) as (pre & post & Hsplit & Hpre & Hpost).
  assert (Hq : qualifies threshold best = true).
  { assert (In best (filter (qualifies threshold) results)) as Hin
      by (rewrite Hsplit; apply in_or_app; right; now left).
    apply filter_In in Hin. tauto. }
  destruct (filter_split _ _ _ _ _ Hsplit) as (pre' & post' & -> & <- & <-).
  exists pre', post'. repeat split; [exact Hq| |].
  - intros x Hx Hqx. apply Hpre, filter_In. auto.
  - intros x Hx Hqx. apply Hpost, filter_In. auto.
Qed.

(** C4: the best match is chosen among the results that are a match with a
    confidence of at least the threshold; there is one exactly when some result
    qualifies, it is the first of the qualifying results of greatest
    confidence, its attendance is what gets recorded, and when no result
    qualifies the attempt is rejected with nothing recorded. *)
Theorem attendance_decision (threshold : Q) (results : list Engine.RecognitionResult) :
  (forall r, qualifies threshold r = true <->
             Engine.isMatch r = true /\ threshold <= Engine.confidence r) /\
  ((exists best, bestMatch threshold results = Some best) <->
   (exists r, In r results /\ qualifies threshold r = true)) /\
  (forall best, bestMatch threshold results = Some best ->
     exists pre post,
       results = pre ++ best :: post /\
       qualifies threshold best = true /\
       (forall x, In x pre -> qualifies threshold x = true ->
                  Engine.confidence x < Engine.confidence best) /\
       (forall x, In x post -> qualifies threshold x = true ->
                  Engine.confidence x <= Engine.confidence best)) /\
  (forall now iso users (w : World State),
     Engine.recognitionThreshold (Engine.engine (env w)) = threshold ->
     (forall r, In r results -> qualifies threshold r = false) ->
     decide now iso users results w =
     (Ok false, mkWorld (env w) (self w) (toasts w ++ [FaceNotRecognized]))) /\
  (forall now iso users (w : World State) best,
     Engine.recognitionThreshold (Engine.engine (env w)) = threshold ->
     bestMatch threshold results = Some best ->
     Db.isInitialized (Engine.db (env w)) = true ->
     Db.attendanceRecords (Engine.db (env (snd (decide now iso users results w)))) =
     Db.attendanceRecords (Engine.db (env w)) ++
     [Db.mkAttendanceRecord (Db.nextAttendanceId (Engine.db (env w)))
        (Engine.userId best) (Engine.confidence best) (Engine.quality best)
        (List.length results) iso]).
Proof.
  split; [|split; [|split; [|split]]].
  - intros r. unfold qualifies. rewrite andb_true_iff, Qle_bool_iff. reflexivity.
  - split.
    + intros (best & Hbest). apply bestMatch_some in Hbest as (pre & post & -> & Hq & _).
      exists best. split; [apply in_or_app; right; now left|exact Hq].
    + intros (r & Hr & Hq).
      destruct (bestMatch threshold results) as [best|] eqn:Hbest; [eauto|].
      rewrite bestMatch_none in Hbest. rewrite (Hbest r Hr) in Hq. discriminate.
  - apply bestMatch_some.
  - intros now iso users w Hth Hnone. apply bestMatch_none in Hnone.
    unfold decide, mbind, gets. rewrite Hth, Hnone. reflexivity.
  - intros now iso users w best Hth Hbest Hdb.
    destruct w as [[[init us fds ars logs n1 n2 n3] eng] slf ts]; cbn in *; subst init.
    unfold decide, mbind, gets; cbn. rewrite Hth, Hbest.
    unfold onDb, onEngine, Engine.onDb, zoom, Db.addAttendanceRecord, Db.logActivity, mbind; cbn.
    destruct (findUser (Engine.userId best) users); reflexivity.
Qed.

Lemma attendance_decision_witness :
  exists pre post,
    twoCandidates = pre ++ candidate 2 0.38 :: post /\
    qualifies 0.6 (candidate 2 0.38) = true /\
    (forall x, In x pre -> qualifies 0.6 x = true ->
               Engine.confidence x < Engine.confidence (candidate 2 0.38)) /\
    (forall x, In x post -> qualifies 0.6 x = true ->
               Engine.confidence x <= Engine.confidence (candidate 2 0.38)).
Proof.
  destruct (attendance_decision 0.6 twoCandidates) as (_ & _ & H & _).
  apply (H (candidate 2 0.38)). reflexivity.
Defined.

End DecisionFacts.

(** ** The cooldown of the attendance system *)

Module CooldownFacts.
Import Js Ui Attendance CooldownNotions.
Local Open Scope Z_scope.

(** The rounding up to whole seconds, on integers. *)
Lemma remainingSeconds_ceiling (cooldown now last : Z) :
  remainingSeconds cooldown now last = - ((- (cooldown - (now - last))) / 1000).
Proof.
  unfold remainingSeconds, Qceiling, Qfloor. cbn.
  rewrite !Z.mul_1_r. reflexivity.
Qed.

Lemma remainingSeconds_bounds (cooldown now last : Z) :
  1000 * (remainingSeconds cooldown now last - 1) < cooldown - (now - last)
  <= 1000 * remainingSeconds cooldown now last.
Proof.
  rewrite remainingSeconds_ceiling.
  pose proof (Z.div_mod (- (cooldown - (now - last))) 1000 ltac:(lia)).
  pose proof (Z.mod_pos_bound (- (cooldown - (now - last))) 1000 ltac:(lia)).
  lia.
Qed.

(** C5: the gate of [captureAttendance] grants once [cooldown] milliseconds
    have elapsed since the last successful recognition and otherwise denies,
    announcing the remaining time rounded up to whole seconds.  Before any
    success [lastRecognitionTime] is 0, so every clock reading of at least
    [cooldown] is granted.  One millisecond before the end of a 3000 ms
    cooldown the gate denies with 1 second remaining; at the end it grants. *)
Theorem cooldown_gate (s : State) (now : Z) :
  let last := lastRecognitionTime s in
  let cooldown := recognitionCooldown s in
  (cooldown <= now - last -> cooldownGate s now = Granted) /\
  (now - last < cooldown ->
     exists remaining,
       cooldownGate s now = Denied remaining /\
       remaining = remainingSeconds cooldown now last /\
       1000 * (remaining - 1) < cooldown - (now - last) <= 1000 * remaining) /\
  (forall (findBestMatch :
             list Engine.LabeledFaceDescriptors -> Q -> Engine.Descriptor ->
             result Engine.FaceMatch) iso e toasts remaining,
     isActive s = true -> currentDetections s <> [] ->
     cooldownGate s now = Denied remaining ->
     captureAttendance findBestMatch now iso (mkWorld e s toasts) =
     (Ok false, mkWorld e s (toasts ++ [PleaseWait remaining]))) /\
  (recognitionCooldown new = 3000 /\ lastRecognitionTime new = 0 /\
   (last = 0 -> cooldown <= now -> cooldownGate s now = Granted)) /\
  (cooldown = 3000 -> now = last + 2999 -> cooldownGate s now = Denied 1) /\
  (cooldown = 3000 -> now = last + 3000 -> cooldownGate s now = Granted).
Proof.
  intros last cooldown. subst last cooldown.
  repeat split.
  - intros H. unfold cooldownGate. apply Z.ltb_ge in H. now rewrite H.
  - intros H. unfold cooldownGate. apply Z.ltb_lt in H. rewrite H.
    eexists; split; [reflexivity|].
    split; [reflexivity|]. apply remainingSeconds_bounds.
  - intros fbm iso e toasts remaining Hact Hdet Hgate.
    unfold captureAttendance, mbind, gets; cbn.
    rewrite Hact. destruct (currentDetections s) as [|d ds] eqn:Hd; [congruence|].
    cbn. rewrite Hgate. reflexivity.
  - intros H0 H. unfold cooldownGate. rewrite H0, Z.sub_0_r.
    apply Z.ltb_ge in H. now rewrite H.
  - intros Hc Hnow. unfold cooldownGate.
    rewrite Hc, Hnow, remainingSeconds_ceiling.
    replace (lastRecognitionTime s + 2999 - lastRecognitionTime s) with 2999 by lia.
    reflexivity.
  - intros Hc Hnow. unfold cooldownGate. rewrite Hc, Hnow.
    replace (lastRecognitionTime s + 3000 - lastRecognitionTime s) with 3000 by lia.
    reflexivity.
Qed.

Lemma cooldown_gate_witness :
  cooldownGate (watching 1700000000000) 1700000002999 = Denied 1 /\
  cooldownGate (watching 1700000000000) 1700000003000 = Granted.
Proof.
  split.
  - destruct (cooldown_gate (watching 1700000000000) 1700000002999)
      as (_ & _ & _ & _ & H & _).
    apply H; reflexivity.
  - destruct (cooldown_gate (watching 1700000000000) 1700000003000)
      as (_ & _ & _ & _ & _ & H).
    apply H; reflexivity.
Defined.

End CooldownFacts.

(** ** What a capture does to the attendance system *)

Module CaptureFacts.
Import Js Ui Attendance.
Local Open Scope Z_scope.

Section Capture.
Variable findBestMatch :
  list Engine.LabeledFaceDescriptors -> Q -> Engine.Descriptor -> result Engine.FaceMatch.

(** Reading the users changes nothing. *)
Lemma getAllUsers_frame (w : World State) :
  snd (onDb Db.getAllUsers w) = w.
Proof.
  destruct w as [[d eng] slf ts]. 
  unfold onDb, onEngine, Engine.onDb, zoom, Db.getAllUsers, mbind, gets; cbn.
  reflexivity.
Qed.

(** Recognition never touches the attendance system, and changes nothing
    at all when it returns. *)
Lemma recognizeFaces_frame (iso : string) (ds : list Engine.Detection)
    (w : World State) :
  let (r, w') := onEngine (Engine.recognizeFaces findBestMatch iso ds) w in
  self w' = self w /\ toasts w' = toasts w /\
  (forall rs, r = Ok rs -> w' = w).
Proof.
  destruct w as [[d [init labeled th qth]] slf ts].
  unfold onEngine, zoom, Engine.recognizeFaces, Engine.requireInitialized,
    mbind, gets, tryCatchM, lift, ret, throw; cbn.
  destruct init; cbn; [|frame_done].
  destruct labeled as [|l labeled]; cbn; [frame_done|].
  destruct (Engine.recognizeAll _ _ _ _); cbn; [frame_done|].
  unfold Engine.onDb, zoom, Db.logActivity; cbn.
  cbn; frame_done.
Qed.

(** What [decide] does to the attendance system. *)
Lemma decide_outcome (now : Z) (iso : string) (users : list Db.User)
    (rs : list Engine.RecognitionResult) (w : World State) :
  let (r, w') := decide now iso users rs w in
  (r = Ok true /\
   self w' = set_lastRecognitionTime now (self w) /\
   exists best,
     bestMatch (Engine.recognitionThreshold (Engine.engine (env w))) rs = Some best /\
     Db.attendanceRecords (Engine.db (env w')) =
     Db.attendanceRecords (Engine.db (env w)) ++
     [Db.mkAttendanceRecord (Db.nextAttendanceId (Engine.db (env w)))
        (Engine.userId best) (Engine.confidence best) (Engine.quality best)
        (List.length rs) iso]) \/
  (r <> Ok true /\ self w' = self w).
Proof.
  destruct w as [[[init us fds ars logs n1 n2 n3] eng] slf ts].
  unfold decide, mbind, gets; cbn.
  destruct (bestMatch _ rs) as [best|]; cbn; [|right; split; [discriminate|reflexivity]].
  unfold onDb, onEngine, Engine.onDb, zoom, Db.addAttendanceRecord, Db.logActivity, mbind; cbn.
  unfold modify; cbn.
  destruct (findUser (Engine.userId best) users); cbn.
  - left. repeat split. exists best. split; reflexivity.
  - right. split; [discriminate|reflexivity].
Qed.

End Capture.

End CaptureFacts.

Module CooldownUpdateFacts.
Import Js Ui Attendance CaptureFacts CooldownNotions.
Local Open Scope Z_scope.

(** The [catch] of [captureAttendance] reports the failure and returns false. *)
Lemma capture_handler (w : World State) :
  let (r, w') :=
    mbind (onDb (Db.logActivity "error" "Attendance capture failed"))
      (fun _ => mbind (showToast CaptureFailed) (fun _ => ret false)) w in
  r = Ok false /\ self w' = self w.
Proof.
  destruct w as [[d eng] slf ts].
  unfold onDb, onEngine, Engine.onDb, zoom, Db.logActivity, mbind, showToast,
    modify, ret; cbn.
  cbn; split; reflexivity.
Qed.

(** C6: [captureAttendance] either accepts, returning true after recording the
    attendance of the best match and setting [lastRecognitionTime] to the
    time of the attempt, or returns false and leaves every field of the
    attendance system, [lastRecognitionTime] included, as it was: no rejected,
    denied or failed attempt moves the cooldown. *)
Theorem lastRecognitionTime_moves_only_on_accept
    (findBestMatch :
       list Engine.LabeledFaceDescriptors -> Q -> Engine.Descriptor ->
       result Engine.FaceMatch)
    (now : Z) (iso : string) (w : World State) :
  let (r, w') := captureAttendance findBestMatch now iso w in
  (r = Ok true /\
   self w' = set_lastRecognitionTime now (self w) /\
   exists results best,
     bestMatch (Engine.recognitionThreshold (Engine.engine (env w))) results
       = Some best /\
     Db.attendanceRecords (Engine.db (env w')) =
     Db.attendanceRecords (Engine.db (env w)) ++
     [Db.mkAttendanceRecord (Db.nextAttendanceId (Engine.db (env w)))
        (Engine.userId best) (Engine.confidence best) (Engine.quality best)
        (List.length results) iso]) \/
  (r = Ok false /\ self w' = self w).
Proof.
  unfold captureAttendance. unfold mbind at 1, gets at 1.
  destruct (negb (isActive (self w)) ||
            (List.length (currentDetections (self w)) =? 0)%nat).
  { cbn. right. split; reflexivity. }
  destruct (cooldownGate (self w) now).
  2:{ cbn. right. split; reflexivity. }
  unfold tryCatchM. unfold mbind at 1.
  pose proof (getAllUsers_frame w) as Husers.
  destruct (onDb Db.getAllUsers w) as [[users|e] w1]; cbn in Husers; subst w1.
  2:{ pose proof (capture_handler w) as H.
      destruct (mbind _ _ w). right. exact H. }
  unfold mbind at 1.
  pose proof (recognizeFaces_frame findBestMatch iso (currentDetections (self w)) w)
    as Hrec.
  destruct (onEngine (Engine.recognizeFaces findBestMatch iso
                        (currentDetections (self w))) w) as [[rs|e] w2].
  2:{ destruct Hrec as (Hself & _ & _).
      pose proof (capture_handler w2) as H.
      destruct (mbind _ _ w2) as [r w3]. destruct H as [-> H].
      right. split; congruence. }
  destruct Hrec as (_ & _ & Heq). rewrite (Heq rs eq_refl).
  destruct (List.length rs =? 0)%nat.
  { cbn. right. split; reflexivity. }
  pose proof (decide_outcome now iso users rs w) as Hdec.
  destruct (decide now iso users rs w) as [[b|e] w3].
  - destruct Hdec as [(Hb & Hself & best & Hbest & Hdb)|(Hb & Hself)].
    + left. split; [exact Hb|]. split; [exact Hself|]. exists rs, best. auto.
    + right. destruct b; [congruence|]. split; [reflexivity|exact Hself].
  - destruct Hdec as [(Hb & _)|(_ & Hself)]; [discriminate|].
    pose proof (capture_handler w3) as H.
    destruct (mbind _ _ w3) as [r w4]. destruct H as [-> H].
    right. split; congruence.
Qed.

Lemma lastRecognitionTime_moves_only_on_accept_witness :
  let w := kiosk 0 in
  let (r, w') :=
    captureAttendance MatcherNotions.alwaysUserOne 1700000000000 "09:00" w in
  (r = Ok true /\
   self w' = set_lastRecognitionTime 1700000000000 (self w) /\
   exists results best,
     bestMatch (Engine.recognitionThreshold (Engine.engine (env w))) results
       = Some best /\
     Db.attendanceRecords (Engine.db (env w')) =
     Db.attendanceRecords (Engine.db (env w)) ++
     [Db.mkAttendanceRecord (Db.nextAttendanceId (Engine.db (env w)))
        (Engine.userId best) (Engine.confidence best) (Engine.quality best)
        (List.length results) "09:00"]) \/
  (r = Ok false /\ self w' = self w).
Proof.
  exact (lastRecognitionTime_moves_only_on_accept
           MatcherNotions.alwaysUserOne 1700000000000 "09:00" (kiosk 0)).
Defined.

(** Both outcomes occur: user 1 is accepted at the kiosk, which moves the
    cooldown; one second later the attempt is denied, which does not. *)
Example accepted_then_denied :
  let (r1, w1) :=
    captureAttendance MatcherNotions.alwaysUserOne 1700000000000 "09:00" (kiosk 0) in
  let (r2, w2) :=
    captureAttendance MatcherNotions.alwaysUserOne 1700000001000 "09:00" w1 in
  r1 = Ok true /\ lastRecognitionTime (self w1) = 1700000000000 /\
  List.length (Db.attendanceRecords (Engine.db (env w1))) = 1%nat /\
  r2 = Ok false /\ lastRecognitionTime (self w2) = 1700000000000 /\
  toasts w2 = [WelcomeBack "Ada"; PleaseWait 2].
Proof. vm_compute. repeat split. Qed.

End CooldownUpdateFacts.

(** ** Enrollment sessions *)

Module EnrollmentFacts.
Import Js Ui Enrollment EnrollmentNotions MonadFacts.
Local Open Scope Z_scope.

(** Detection changes nothing when it returns. *)
Lemma detectFaces_frame (frame : result (list Engine.Detection)) (minQuality : option Q)
    (e : Engine.Env) :
  let (r, e') := Engine.detectFaces frame minQuality e in
  forall ds,
    r = Ok ds ->
    e' = e /\ Engine.isInitialized (Engine.engine e) = true /\
    (minQuality = None -> frame = Ok ds).
Proof.
  destruct e as [d [init labeled th qth]].
  unfold Engine.detectFaces, Engine.requireInitialized, mbind, gets, tryCatchM,
    lift, ret, throw; cbn.
  destruct init; cbn; [|frame_done].
  destruct frame as [ds0|err]; cbn.
  - destruct minQuality as [m|]; cbn; [destruct (Qeq_bool m 0)|]; cbn;
      intros ds [= <-]; repeat split; discriminate.
  - unfold Engine.onDb, zoom, Db.logActivity; cbn.
    cbn; frame_done.
Qed.

(** The engine never touches the session, whatever it does. *)
Lemma onEngine_frame {A : Type} (m : M Engine.Env A) (w : World State) :
  self (snd (onEngine m w)) = self w /\ toasts (snd (onEngine m w)) = toasts w.
Proof.
  unfold onEngine, zoom. destruct (m (env w)); split; reflexivity.
Qed.

Lemma enrollSamples_frame (userId : Z) (samples : list Sample) (w : World State) :
  self (snd (enrollSamples userId samples w)) = self w /\
  toasts (snd (enrollSamples userId samples w)) = toasts w.
Proof.
  revert w. induction samples as [|s samples IH]; intros w; cbn; [split; reflexivity|].
  unfold mbind.
  pose proof (onEngine_frame
                (Engine.enrollFace userId (descriptor s) (quality s) (timestamp s)) w)
    as Hframe.
  destruct (onEngine _ w) as [[fid|err] w1]; cbn in *; [|exact Hframe].
  destruct (IH w1) as [-> ->]. exact Hframe.
Qed.

(** What each operation can do to the fields of the session. *)
Lemma startEnrollment_self (formValid : bool) (camera : result unit) (w : World State) :
  let s' := self (snd (startEnrollment formValid camera w)) in
  s' = self w \/ s' = mkState [] true (requiredSamples (self w)).
Proof.
  destruct w as [[d [init labeled th qth]] slf ts].
  unfold startEnrollment, tryCatchM, mbind, gets, lift, modify, showToast, ret, throw;
    cbn.
  destruct init; cbn; [|left; reflexivity].
  destruct formValid; cbn; [|left; reflexivity].
  destruct camera; cbn; [right|left]; reflexivity.
Qed.

(** A call that nothing runs during: the guard, then the rest at once. *)
Lemma captureEnrollmentSample_run (frame : result (list Engine.Detection))
    (iso : string) (w : World State) :
  captureEnrollmentSample frame iso w =
  if negb (isEnrolling (self w)) || (requiredSamples (self w) <=? sampleCount (self w))
  then (Ok false, w)
  else captureResume frame iso w.
Proof.
  unfold captureEnrollmentSample, captureBegin, mbind, gets, ret.
  destruct (negb (isEnrolling (self w)) || _); reflexivity.
Qed.

Lemma captureEnrollmentSample_self (frame : result (list Engine.Detection))
    (iso : string) (w : World State) :
  let (r, w') := captureEnrollmentSample frame iso w in
  (r = Ok false /\ self w' = self w) \/
  (r = Ok true /\ isEnrolling (self w) = true /\
   sampleCount (self w) < requiredSamples (self w) /\
   exists sample,
     self w' = set_enrollmentSamples (fun l => l ++ [sample]) (self w)).
Proof.
  rewrite captureEnrollmentSample_run.
  destruct (isEnrolling (self w)) eqn:Henr; cbn; [|left; split; reflexivity].
  destruct (requiredSamples (self w) <=? sampleCount (self w)) eqn:Hfull; cbn;
    [left; split; reflexivity|].
  apply Z.leb_gt in Hfull.
  unfold captureResume, tryCatchM. unfold mbind at 1.
  pose proof (onEngine_frame (Engine.detectFaces frame None) w) as [Hself _].
  destruct (onEngine (Engine.detectFaces frame None) w) as [[ds|err] w1];
    cbn in Hself; [|left; cbn; split; [reflexivity|exact Hself]].
  destruct ds as [|detection [|other ds]]; cbn;
    [left; split; [reflexivity|exact Hself]| |left; split; [reflexivity|exact Hself]].
  unfold mbind, gets, lift; cbn.
  destruct (Engine.validateEnrollmentQuality _ detection) as [validation|err]; cbn;
    [|left; split; [reflexivity|exact Hself]].
  destruct (Engine.isValid validation); cbn;
    [|left; split; [reflexivity|exact Hself]].
  right. repeat split; try assumption.
  eexists. rewrite Hself. reflexivity.
Qed.

Lemma enrollment_handler (e : exn) (w : World State) :
  let (r, w') :=
    mbind (onDb (Db.logActivity "error" "Enrollment failed"))
      (fun _ => mbind (showToast (EnrollmentFailed (message e)))
                  (fun _ => ret false)) w in
  r = Ok false /\ self w' = self w /\
  Db.users (Engine.db (env w')) = Db.users (Engine.db (env w)) /\
  Db.faceDescriptors (Engine.db (env w')) = Db.faceDescriptors (Engine.db (env w)).
Proof.
  destruct w as [[d eng] slf ts].
  unfold onDb, onEngine, Engine.onDb, zoom, Db.logActivity, mbind, showToast,
    modify, ret; cbn.
  cbn; repeat split; reflexivity.
Qed.

Lemma completeEnrollment_self (form : Db.UserData) (w : World State) :
  let (r, w') := completeEnrollment form w in
  self w' = self w \/ self w' = mkState [] false (requiredSamples (self w)).
Proof.
  unfold completeEnrollment. rewrite mbind_run. unfold gets at 1.
  destruct (sampleCount (self w) <? requiredSamples (self w)); [left; reflexivity|].
  rewrite tryCatchM_run, mbind_run.
  pose proof (onEngine_frame (Engine.onDb Db.getAllUsers) w) as [Hself1 _].
  unfold onDb at 1.
  destruct (onEngine (Engine.onDb Db.getAllUsers) w) as [[users|err] w1];
    cbn in Hself1.
  2:{ pose proof (enrollment_handler err w1) as H.
      destruct (mbind _ _ w1) as [r w']. left. destruct H as (_ & -> & _). exact Hself1. }
  rewrite mbind_run.
  destruct (existsb _ users); [unfold throw at 1|unfold ret at 1].
  { pose proof (enrollment_handler (Error "Email already exists in the system") w1) as H.
    destruct (mbind _ _ w1) as [r w']. left. destruct H as (_ & -> & _). exact Hself1. }
  rewrite mbind_run. unfold onDb at 1.
  match goal with
  | |- context [onEngine ?m w1] =>
      pose proof (onEngine_frame m w1) as [Hself2 _];
      destruct (onEngine m w1) as [[uid|err] w2]; cbn in Hself2
  end.
  2:{ pose proof (enrollment_handler err w2) as H.
      destruct (mbind _ _ w2) as [r w']. left. destruct H as (_ & -> & _). congruence. }
  rewrite mbind_run.
  pose proof (enrollSamples_frame uid (enrollmentSamples (self w)) w2) as [Hself3 _].
  destruct (enrollSamples uid (enrollmentSamples (self w)) w2) as [[[]|err] w3];
    cbn in Hself3.
  2:{ pose proof (enrollment_handler err w3) as H.
      destruct (mbind _ _ w3) as [r w']. left. destruct H as (_ & -> & _). congruence. }
  destruct w3 as [[d3 eng3] slf3 ts3]. cbn in Hself3. subst slf3.
  rewrite Hself2, Hself1.
  unfold stopEnrollment, loadUserTable, tryCatchM, showToast,
    onDb, onEngine, Engine.onDb, zoom, Db.getAllUsers, gets, modify, ret,
    mbind; cbn.
  cbn; right; reflexivity.
Qed.

End EnrollmentFacts.

Module EnrollmentClaims.
Import Js Ui Enrollment EnrollmentNotions MonadFacts EnrollmentFacts.
Local Open Scope Z_scope.

(** C8, as stated, fails: in a session that already holds the five required
    samples a capture that sees no face returns false without the "no face
    detected" warning (and without any other). *)
Lemma full_session_rejects_silently :
  let (r, w') := captureEnrollmentSample (Ok []) "" (session 5) in
  fst (Engine.detectFaces (Ok []) None (env (session 5))) = Ok [] /\
  r = Ok false /\ toasts w' = [] /\ ~ In NoFaceDetected (toasts w').
Proof.
  cbn. repeat split. intros [].
Qed.

(** C8, amended: a capture on which the detector finds no face returns false
    and leaves the session, its sample list included, and the engine as they
    were; the "no face detected" warning is shown exactly when the session is
    enrolling with fewer samples than required, and nothing is shown
    otherwise. *)
Theorem capture_without_detection
    (frame : result (list Engine.Detection)) (iso : string) (w : World State) :
  fst (Engine.detectFaces frame None (env w)) = Ok [] ->
  let (r, w') := captureEnrollmentSample frame iso w in
  r = Ok false /\
  self w' = self w /\
  enrollmentSamples (self w') = enrollmentSamples (self w) /\
  sampleCount (self w') = sampleCount (self w) /\
  env w' = env w /\
  toasts w' = if collecting (self w) then toasts w ++ [NoFaceDetected] else toasts w.
Proof.
  intros Hdet.
  pose proof (detectFaces_frame frame None (env w)) as Hframe.
  rewrite captureEnrollmentSample_run. unfold collecting.
  destruct (isEnrolling (self w)); cbn [negb orb andb]; [|repeat split].
  rewrite Z.leb_antisym.
  destruct (sampleCount (self w) <? requiredSamples (self w)); cbn [negb];
    [|repeat split].
  unfold captureResume. rewrite tryCatchM_run, mbind_run. unfold onEngine, zoom.
  destruct (Engine.detectFaces frame None (env w)) as [r e'].
  cbn in Hdet. subst r. destruct (Hframe [] eq_refl) as (-> & _).
  destruct w as [e slf ts]. cbn. repeat split.
Qed.

Lemma capture_without_detection_witness :
  let (r, w') := captureEnrollmentSample (Ok []) "" (session 2) in
  r = Ok false /\
  self w' = self (session 2) /\
  enrollmentSamples (self w') = enrollmentSamples (self (session 2)) /\
  sampleCount (self w') = sampleCount (self (session 2)) /\
  env w' = env (session 2) /\
  toasts w' = if collecting (self (session 2))
              then toasts (session 2) ++ [NoFaceDetected] else toasts (session 2).
Proof.
  apply (capture_without_detection (Ok []) "" (session 2)). reflexivity.
Defined.

(** C9: with fewer samples than required, [completeEnrollment] returns false
    after announcing how many samples are missing, and changes nothing else:
    no user and no descriptor is stored and the gallery is not rebuilt. *)
Theorem complete_with_too_few_samples (form : Db.UserData) (w : World State) :
  sampleCount (self w) < requiredSamples (self w) ->
  completeEnrollment form w =
  (Ok false,
   mkWorld (env w) (self w)
     (toasts w ++ [NeedMoreSamples (requiredSamples (self w) - sampleCount (self w))])).
Proof.
  intros Hfew. apply Z.ltb_lt in Hfew.
  unfold completeEnrollment. rewrite mbind_run. unfold gets at 1.
  rewrite Hfew. reflexivity.
Qed.

Lemma complete_with_too_few_samples_witness :
  completeEnrollment (Db.mkUserData "Ada" "ada@example.org" "R&D" "") (session 4) =
  (Ok false, mkWorld MatcherNotions.emptyGallery (self (session 4)) [NeedMoreSamples 1]).
Proof.
  apply (complete_with_too_few_samples
           (Db.mkUserData "Ada" "ada@example.org" "R&D" "") (session 4)).
  reflexivity.
Defined.

Lemma sampleCount_snoc (s : State) (x : Sample) :
  sampleCount (set_enrollmentSamples (fun l => l ++ [x]) s) = sampleCount s + 1.
Proof.
  unfold sampleCount. cbn. rewrite length_app. cbn. lia.
Qed.

Lemma step_bounded (required : Z) (op : Op) (w : World State) :
  0 <= required -> bounded required (self w) -> bounded required (self (step op w)).
Proof.
  intros Hpos [Hreq Hle]. destruct op as [formValid camera|frame iso|form|]; cbn [step].
  - destruct (startEnrollment_self formValid camera w) as [-> | ->];
      [split; assumption|]. split; [exact Hreq|exact Hpos].
  - pose proof (captureEnrollmentSample_self frame iso w) as H.
    destruct (captureEnrollmentSample frame iso w) as [r w']. cbn [snd].
    destruct H as [(_ & ->)|(_ & _ & Hlt & x & ->)]; [split; assumption|].
    split; [exact Hreq|]. rewrite sampleCount_snoc. lia.
  - pose proof (completeEnrollment_self form w) as H.
    destruct (completeEnrollment form w) as [r w']. cbn [snd].
    destruct H as [-> | ->]; [split; assumption|]. split; [exact Hreq|exact Hpos].
  - cbn. split; [exact Hreq|exact Hpos].
Qed.

(** Calls that do not overlap keep the session within its bound. *)
Lemma run_bounded (required : Z) (ops : list Op) (w : World State) :
  0 <= required -> bounded required (self w) -> bounded required (self (run ops w)).
Proof.
  intros Hpos. unfold run. revert w.
  induction ops as [|op ops IH]; intros w Hb; cbn; [exact Hb|].
  apply IH, step_bounded; assumption.
Qed.

(** C10: the bound on the samples does not hold when two captures are in
    flight.  A new [UserManagement] next to an initialized engine starts a
    session and stores four samples, one capture after the other.  The
    capture button is then pressed twice before the detector answers: both
    calls pass the guard at 4 of 5, and each stores its sample when it
    resumes, as nothing looks at the count again: the session holds 6
    samples for [requiredSamples] = 5.  The completion that the timer then
    starts stores all six rows. *)
Theorem overlapping_captures_exceed_the_bound :
  let face := Ok [MoreNotions.goodFace] in
  let form := Db.mkUserData "Ada" "ada@example.org" "R&D" "" in
  let p0 := mkPage (mkWorld MatcherNotions.emptyGallery new []) 0 in
  let p4 := play [Call (StartEnrollment true (Ok tt));
                  Call (CaptureEnrollmentSample face "t1");
                  Call (CaptureEnrollmentSample face "t2");
                  Call (CaptureEnrollmentSample face "t3");
                  Call (CaptureEnrollmentSample face "t4")] p0 in
  let p := play [CaptureBegins; CaptureBegins] p4 in
  let p6 := play [CaptureResumes face "t5"; CaptureResumes face "t6"] p in
  sampleCount (self (world p4)) = 4 /\
  inFlight p = 2%nat /\
  requiredSamples (self (world p6)) = 5 /\
  sampleCount (self (world p6)) = 6 /\
  toasts (world p6) =
    [EnrollmentStarted; SampleCaptured 1 5; SampleCaptured 2 5; SampleCaptured 3 5;
     SampleCaptured 4 5; SampleCaptured 5 5; SampleCaptured 6 5] /\
  List.length (Db.faceDescriptors
                 (Engine.db (env (world (react (Call (CompleteEnrollment form)) p6)))))
    = 6%nat.
Proof. vm_compute. repeat split. Qed.

(** Two captures, the second one called after the first one has returned:
    the first one is stored as the fifth sample, the second one is refused. *)
Example fifth_sample_then_refusal :
  sampleCount (self (run [CaptureEnrollmentSample (Ok [MatcherNotions.someFace]) "t5"]
                         (session 4))) = 5 /\
  sampleCount (self (run [CaptureEnrollmentSample (Ok [MatcherNotions.someFace]) "t5";
                          CaptureEnrollmentSample (Ok [MatcherNotions.someFace]) "t6"]
                         (session 4))) = 5.
Proof. split; vm_compute; reflexivity. Qed.

End EnrollmentClaims.

(** ** The retry budget of [checkAttendance] *)

Module RetryFacts.
Import Js EnhancedScript RetryNotions.
Local Open Scope Z_scope.

Lemma checkIn_length (l : list DemoUser) (i : nat) (iso : string) :
  List.length (checkIn l i iso) = List.length l.
Proof.
  revert i. induction l as [|u l IH]; intros [|i]; cbn; auto.
Qed.

Lemma checkIn_nonempty (l : list DemoUser) (i : nat) (iso : string) :
  l <> [] -> checkIn l i iso <> [].
Proof.
  intros Hl Hnil. apply Hl. apply length_zero_iff_nil.
  rewrite <- (checkIn_length l i iso), Hnil. reflexivity.
Qed.

(** The index drawn for the recognized user is inside the database. *)
Lemma random_index_in_range (users : list DemoUser) (r2 : Q) :
  users <> [] -> unit_interval r2 ->
  exists user,
    index users (Qfloor (r2 * inject_Z (Z.of_nat (List.length users)))) = Some user.
Proof.
  intros Hne [H0 H1].
  set (n := Z.of_nat (List.length users)).
  assert (Hn : 0 < n).
  { subst n. destruct users; [congruence|]. cbn [List.length]. lia. }
  set (x := (r2 * inject_Z n)%Q).
  assert (Hn' : (0 < inject_Z n)%Q) by (unfold Qlt; cbn; lia).
  assert (Hx0 : (0 <= x)%Q) by (subst x; apply Qmult_le_0_compat; lra).
  assert (Hx1 : (x < inject_Z n)%Q).
  { subst x. setoid_replace (inject_Z n) with (1 * inject_Z n)%Q at 2 by ring.
    apply Qmult_lt_compat_r; assumption. }
  assert (Hf0 : 0 <= Qfloor x).
  { rewrite <- (Qfloor_Z 0). apply Qfloor_resp_le. exact Hx0. }
  assert (Hf1 : Qfloor x < n).
  { rewrite Zlt_Qlt. apply Qle_lt_trans with x; [apply Qfloor_le|exact Hx1]. }
  unfold index. destruct (Qfloor x <? 0) eqn:Hneg; [apply Z.ltb_lt in Hneg; lia|].
  destruct (nth_error users (Z.to_nat (Qfloor x))) as [u|] eqn:Hnth; [eauto|].
  apply nth_error_None in Hnth. subst n. lia.
Qed.

(** An attempt without a captured image is refused. *)
Lemma checkAttendance_without_image (r1 r2 : Q) (iso : string) (s : State) :
  capturedImage s = None ->
  checkAttendance r1 r2 iso s =
  (Ok tt, mkState (videoStream s) (isScanning s) None (recognitionAttempts s)
            (userDatabase s) (toasts s ++ [PleaseCaptureFirst])).
Proof.
  intros Himg. unfold checkAttendance, checkAttendanceBegin, checkAttendanceResume, mbind, get, showToast, modify.
  rewrite Himg. cbn. rewrite Himg. reflexivity.
Qed.

(** An attempt that is not recognized. *)
Lemma checkAttendance_missed (r1 r2 : Q) (iso image : string) (s : State) :
  capturedImage s = Some image ->
  missed (recognitionAttempts s + 1) r1 ->
  checkAttendance r1 r2 iso s =
  (Ok tt,
   if MAX_ATTEMPTS <=? recognitionAttempts s + 1
   then mkState (videoStream s) (isScanning s) None 0 (userDatabase s)
          (toasts s ++ [Processing (recognitionAttempts s + 1) MAX_ATTEMPTS;
                        FaceNotRecognized;
                        MaximumAttemptsReached MAX_ATTEMPTS])
   else mkState (videoStream s) (isScanning s) (Some image)
          (recognitionAttempts s + 1) (userDatabase s)
          (toasts s ++ [Processing (recognitionAttempts s + 1) MAX_ATTEMPTS;
                        FaceNotRecognized;
                        RecognitionFailed (MAX_ATTEMPTS - (recognitionAttempts s + 1))])).
Proof.
  intros Himg Hmiss. apply Qle_bool_iff in Hmiss.
  destruct s as [vs sc img n db ts]. cbn in *. subst img.
  unfold checkAttendance, checkAttendanceBegin, checkAttendanceResume, mbind, get, gets, showToast, modify; cbn.
  rewrite Hmiss; cbn.
  destruct (MAX_ATTEMPTS <=? n + 1); cbn; rewrite <- !app_assoc; reflexivity.
Qed.

(** An attempt that is recognized. *)
Lemma checkAttendance_recognized (r1 r2 : Q) (iso image : string) (s : State) :
  capturedImage s = Some image ->
  ~ missed (recognitionAttempts s + 1) r1 ->
  userDatabase s <> [] -> unit_interval r2 ->
  exists user i,
    index (userDatabase s) i = Some user /\
    checkAttendance r1 r2 iso s =
    (Ok tt,
     mkState (videoStream s) (isScanning s) None 0
       (checkIn (userDatabase s) (Z.to_nat i) iso)
       (toasts s ++ [Processing (recognitionAttempts s + 1) MAX_ATTEMPTS;
                     WelcomeBack (name user) (attendanceCount user + 1)])).
Proof.
  intros Himg Hhit Hdb Hr2.
  assert (Hb : Qle_bool (successRate (recognitionAttempts s + 1)) r1 = false).
  { destruct (Qle_bool _ r1) eqn:Hb; [|reflexivity].
    exfalso. apply Hhit. apply Qle_bool_iff. exact Hb. }
  destruct (random_index_in_range _ r2 Hdb Hr2) as (user & Huser).
  exists user, (Qfloor (r2 * inject_Z (Z.of_nat (List.length (userDatabase s))))).
  split; [exact Huser|].
  destruct s as [vs sc img n db ts]. cbn in *. subst img.
  unfold checkAttendance, checkAttendanceBegin, checkAttendanceResume, mbind, get, gets, showToast, modify, lift; cbn.
  rewrite Hb; cbn. rewrite Huser; cbn. rewrite <- !app_assoc. reflexivity.
Qed.

End RetryFacts.

Module RetryClaims.
Import Js EnhancedScript RetryNotions RetryFacts.
Local Open Scope Z_scope.

Lemma missed_dec (attempt : Z) (r1 : Q) : {missed attempt r1} + {~ missed attempt r1}.
Proof.
  unfold missed. destruct (Qlt_le_dec r1 (successRate attempt)) as [Hlt|Hle].
  - right. apply Qlt_not_le. exact Hlt.
  - left. exact Hle.
Qed.

Lemma Forall_snoc {A : Type} (P : A -> Prop) (l l' : list A) :
  Forall P l -> Forall P l' -> Forall P (l ++ l').
Proof. intros. apply Forall_app. split; assumption. Qed.

Ltac budget_done :=
  repeat match goal with
         | |- Forall _ (_ ++ _) => apply Forall_snoc; [assumption|]
         | |- Forall _ (_ :: _) => constructor
         | |- Forall _ [] => constructor
         | |- withinBudget _ => cbn; unfold MAX_ATTEMPTS in *; try lia; exact I
         end.

Ltac invariant_done :=
  unfold invariant, MAX_ATTEMPTS in *; cbn in *;
  repeat split; cbn; try assumption; try lia; budget_done.

Lemma step_invariant (op : Op) (s : State) :
  wellFormed op -> invariant s -> invariant (step op s).
Proof.
  intros Hwf (Hn & Hdb & Hts).
  destruct op as [granted| | | |image|r1 r2 iso]; cbn [step].
  - destruct s as [vs sc img n db ts]. destruct granted; invariant_done.
  - destruct s as [vs sc img n db ts]. destruct vs; invariant_done.
  - destruct s as [vs sc img n db ts]. destruct vs, sc; invariant_done.
  - destruct s as [vs sc img n db ts]. destruct sc; invariant_done.
  - destruct s as [vs sc img n db ts]. destruct sc; invariant_done.
  - destruct Hwf as [_ Hr2].
    destruct (capturedImage s) as [image|] eqn:Himg.
    + destruct (missed_dec (recognitionAttempts s + 1) r1) as [Hmiss|Hhit].
      * rewrite (checkAttendance_missed r1 r2 iso image s Himg Hmiss). cbn [snd].
        destruct (MAX_ATTEMPTS <=? recognitionAttempts s + 1) eqn:Hmax;
          [apply Z.leb_le in Hmax|apply Z.leb_gt in Hmax]; invariant_done.
      * destruct (checkAttendance_recognized r1 r2 iso image s Himg Hhit Hdb Hr2)
          as (user & i & _ & ->). cbn [snd].
        pose proof (checkIn_nonempty _ (Z.to_nat i) iso Hdb). invariant_done.
    + rewrite (checkAttendance_without_image r1 r2 iso s Himg). cbn [snd].
      invariant_done.
Qed.

Lemma run_invariant (ops : list Op) (s : State) :
  Forall wellFormed ops -> invariant s -> invariant (run ops s).
Proof.
  unfold run. revert s.
  induction ops as [|op ops IH]; intros s Hwf Hinv; cbn; [exact Hinv|].
  inversion Hwf; subst. apply IH; [assumption|]. apply step_invariant; assumption.
Qed.

Lemma initial_invariant : invariant initial.
Proof.
  unfold invariant, initial, MAX_ATTEMPTS; cbn.
  repeat split; try lia; [discriminate|constructor].
Qed.

Lemma skipn_length_app {A : Type} (l l' : list A) :
  skipn (List.length l) (l ++ l') = l'.
Proof. induction l; cbn; auto. Qed.

(** What a missed attempt does, below the maximum and at the maximum. *)
Lemma missed_attempt (r1 r2 : Q) (iso image : string) (s : State) :
  capturedImage s = Some image ->
  missed (recognitionAttempts s + 1) r1 ->
  (recognitionAttempts s + 1 < 3 ->
     recognitionAttempts (snd (checkAttendance r1 r2 iso s)) = recognitionAttempts s + 1 /\
     capturedImage (snd (checkAttendance r1 r2 iso s)) = Some image /\
     ~ In (MaximumAttemptsReached 3)
          (skipn (List.length (toasts s)) (toasts (snd (checkAttendance r1 r2 iso s))))) /\
  (3 <= recognitionAttempts s + 1 ->
     recognitionAttempts (snd (checkAttendance r1 r2 iso s)) = 0 /\
     capturedImage (snd (checkAttendance r1 r2 iso s)) = None /\
     In (MaximumAttemptsReached 3)
        (skipn (List.length (toasts s)) (toasts (snd (checkAttendance r1 r2 iso s))))).
Proof.
  intros Himg Hmiss.
  rewrite (checkAttendance_missed r1 r2 iso image s Himg Hmiss). cbn [snd].
  unfold MAX_ATTEMPTS.
  destruct (3 <=? recognitionAttempts s + 1) eqn:Hmax;
    [apply Z.leb_le in Hmax|apply Z.leb_gt in Hmax];
    (split; intros Hcase; [try lia|try lia]); cbn;
    rewrite skipn_length_app; repeat split; cbn [In]; auto.
  intros [H|[H|[H|[]]]]; discriminate.
Qed.

(** Calls of [checkAttendance] that do not overlap keep within the budget.
    With [MAX_ATTEMPTS] = 3, a call on a captured image announces attempt
    number [recognitionAttempts + 1] whatever its outcome; a missed attempt
    leaves that number in the counter while it is below 3, and at 3 announces
    that the maximum is reached, drops the image and resets the counter; a
    recognized attempt drops the image and resets the counter; without an
    image [checkAttendance] attempts nothing.  So after a capture three
    misses in a row exhaust the budget exactly at the third, a fourth attempt
    needs a new capture, and along every run of such calls from the initial
    state the counter stays below 3 between operations and no announced
    attempt number exceeds 3. *)
Lemma sequential_retry_budget :
  MAX_ATTEMPTS = 3 /\
  (forall r1 r2 iso image s,
     capturedImage s = Some image ->
     exists rest,
       toasts (snd (checkAttendance r1 r2 iso s)) =
       toasts s ++ Processing (recognitionAttempts s + 1) 3 :: rest) /\
  (forall r1 r2 iso image s,
     capturedImage s = Some image ->
     missed (recognitionAttempts s + 1) r1 ->
     let s' := snd (checkAttendance r1 r2 iso s) in
     (recognitionAttempts s + 1 < 3 ->
        recognitionAttempts s' = recognitionAttempts s + 1 /\
        capturedImage s' = Some image /\
        ~ In (MaximumAttemptsReached 3) (skipn (List.length (toasts s)) (toasts s'))) /\
     (3 <= recognitionAttempts s + 1 ->
        recognitionAttempts s' = 0 /\
        capturedImage s' = None /\
        In (MaximumAttemptsReached 3) (skipn (List.length (toasts s)) (toasts s')))) /\
  (forall r1 r2 iso image s,
     capturedImage s = Some image ->
     ~ missed (recognitionAttempts s + 1) r1 ->
     userDatabase s <> [] -> unit_interval r2 ->
     let s' := snd (checkAttendance r1 r2 iso s) in
     recognitionAttempts s' = 0 /\ capturedImage s' = None) /\
  (forall r1 r2 iso s,
     capturedImage s = None ->
     let s' := snd (checkAttendance r1 r2 iso s) in
     recognitionAttempts s' = recognitionAttempts s /\
     capturedImage s' = None /\
     toasts s' = toasts s ++ [PleaseCaptureFirst]) /\
  (forall a b c a' b' c' iso image s,
     capturedImage s = Some image -> recognitionAttempts s = 0 ->
     missed 1 a -> missed 2 b -> missed 3 c ->
     let s1 := step (CheckAttendance a a' iso) s in
     let s2 := step (CheckAttendance b b' iso) s1 in
     let s3 := step (CheckAttendance c c' iso) s2 in
     (recognitionAttempts s1 = 1 /\ capturedImage s1 = Some image /\
      ~ In (MaximumAttemptsReached 3) (skipn (List.length (toasts s)) (toasts s1))) /\
     (recognitionAttempts s2 = 2 /\ capturedImage s2 = Some image /\
      ~ In (MaximumAttemptsReached 3) (skipn (List.length (toasts s)) (toasts s2))) /\
     (recognitionAttempts s3 = 0 /\ capturedImage s3 = None /\
      In (MaximumAttemptsReached 3) (skipn (List.length (toasts s)) (toasts s3))) /\
     (forall d d', toasts (step (CheckAttendance d d' iso) s3) =
                   toasts s3 ++ [PleaseCaptureFirst])) /\
  (forall ops,
     Forall wellFormed ops ->
     0 <= recognitionAttempts (run ops initial) < 3 /\
     Forall withinBudget (toasts (run ops initial))).
Proof.
  split; [reflexivity|]. split; [|split; [|split; [|split; [|split]]]].
  - intros r1 r2 iso image [vs sc img n db ts] Himg. cbn in *. subst img.
    unfold checkAttendance, checkAttendanceBegin, checkAttendanceResume, mbind, get, gets, showToast, modify, lift; cbn.
    destruct (Qle_bool (successRate (n + 1)) r1); cbn.
    + destruct (MAX_ATTEMPTS <=? n + 1); cbn; rewrite <- !app_assoc;
        eexists; reflexivity.
    + destruct (index db _); cbn; [rewrite <- !app_assoc|]; eexists; reflexivity.
  - intros r1 r2 iso image s Himg Hmiss s'. subst s'.
    apply missed_attempt; assumption.
  - intros r1 r2 iso image s Himg Hhit Hdb Hr2 s'. subst s'.
    destruct (checkAttendance_recognized r1 r2 iso image s Himg Hhit Hdb Hr2)
      as (user & i & _ & ->). split; reflexivity.
  - intros r1 r2 iso s Himg s'. subst s'.
    rewrite (checkAttendance_without_image r1 r2 iso s Himg). repeat split.
  - intros a b c a' b' c' iso image [vs sc img n db ts] Himg H0 Ha Hb Hc.
    cbn in Himg, H0. subst img n. cbv zeta. cbn [step].
    erewrite (checkAttendance_missed a a' iso image); [|reflexivity|exact Ha].
    cbn [snd recognitionAttempts videoStream isScanning userDatabase toasts].
    change (MAX_ATTEMPTS <=? 0 + 1) with false. cbv iota.
    erewrite (checkAttendance_missed b b' iso image); [|reflexivity|exact Hb].
    cbn [snd recognitionAttempts videoStream isScanning userDatabase toasts].
    change (MAX_ATTEMPTS <=? 0 + 1 + 1) with false. cbv iota.
    erewrite (checkAttendance_missed c c' iso image); [|reflexivity|exact Hc].
    cbn [snd recognitionAttempts videoStream isScanning userDatabase toasts
         capturedImage].
    change (MAX_ATTEMPTS <=? 0 + 1 + 1 + 1) with true. cbv iota.
    cbn [snd recognitionAttempts videoStream isScanning userDatabase toasts
         capturedImage].
    rewrite <- !app_assoc, !skipn_length_app. cbn.
    repeat split; try (intros H; decompose [or] H; discriminate || contradiction);
      auto 10.
    intros d d'. cbn. rewrite <- ?app_assoc. reflexivity.
  - intros ops Hwf.
    destruct (run_invariant ops initial Hwf initial_invariant) as (Hn & _ & Hts).
    split; assumption.
Qed.

Lemma sequential_retry_budget_witness :
  let image := "image"%string in
  let iso := "2024-01-01T09:00:00.000Z"%string in
  let s := captured image in
  let s1 := step (CheckAttendance (9 # 10) 0 iso) s in
  let s2 := step (CheckAttendance (9 # 10) 0 iso) s1 in
  let s3 := step (CheckAttendance (9 # 10) 0 iso) s2 in
  (recognitionAttempts s1 = 1 /\ capturedImage s1 = Some image /\
   ~ In (MaximumAttemptsReached 3) (skipn (List.length (toasts s)) (toasts s1))) /\
  (recognitionAttempts s2 = 2 /\ capturedImage s2 = Some image /\
   ~ In (MaximumAttemptsReached 3) (skipn (List.length (toasts s)) (toasts s2))) /\
  (recognitionAttempts s3 = 0 /\ capturedImage s3 = None /\
   In (MaximumAttemptsReached 3) (skipn (List.length (toasts s)) (toasts s3))) /\
  (forall d d', toasts (step (CheckAttendance d d' iso) s3) =
                toasts s3 ++ [PleaseCaptureFirst]).
Proof.
  intros image iso s.
  refine (proj1 (proj2 (proj2 (proj2 (proj2 (proj2 sequential_retry_budget)))))
            (9 # 10)%Q (9 # 10)%Q (9 # 10)%Q 0%Q 0%Q 0%Q iso image s
            eq_refl eq_refl _ _ _);
    vm_compute; discriminate.
Defined.


End RetryClaims.

(* ===================================================================== *)
(** * Further properties *)
(* ===================================================================== *)

(** ** The engine: quality, validation, detection *)

Module EngineMore.
Import Js Engine QualityNotions MoreNotions.
Local Open Scope Q_scope.

Lemma clamp_bounds (y : Q) : 0 <= Qmin (Qmax y 0) 1 <= 1.
Proof.
  split.
  - apply Q.min_glb; [apply Q.le_max_r|discriminate].
  - apply Q.le_min_r.
Qed.

(** X1: the quality score never throws and is a number of [0, 1], or
    [NaN]; it is [NaN] exactly when the box is there but its width, its
    height or the detector score is undefined; and without a detector
    result, or without a box, it is the fallback 0.5, whatever the landmarks
    and the expressions are. *)
Theorem quality_range (d : Detection) :
  (calculateFaceQuality d = Ok NaN \/
   exists q, calculateFaceQuality d = Ok (Num q) /\ 0 <= q <= 1) /\
  (calculateFaceQuality d = Ok NaN <->
   exists fd b, detection d = Some fd /\ box fd = Some b /\
                (width b = None \/ height b = None \/ score fd = None)) /\
  ((detection d = None \/ exists fd, detection d = Some fd /\ box fd = None) ->
   calculateFaceQuality d = Ok (Num 0.5)).
Proof.
  split; [|split].
  - unfold calculateFaceQuality, qualityBody.
    destruct d as [[[[[[w|] [h|]]|] [s|]]|] l e desc]; cbn;
      destruct l, e as [[n hp]|]; cbn;
      first [ left; reflexivity
            | right; eexists; split; [reflexivity|apply clamp_bounds]
            | right; exists 0.5; split; [reflexivity|split; discriminate] ].
  - unfold calculateFaceQuality, qualityBody. split.
    + destruct d as [[[[[[w|] [h|]]|] [s|]]|] l e desc]; cbn;
        destruct l, e as [[n hp]|]; cbn; intros H; try discriminate H;
        do 2 eexists; (split; [reflexivity|split; [reflexivity|cbn; tauto]]).
    + intros (fd & b & Hfd & Hb & Hmiss). rewrite Hfd. cbn. rewrite Hb. cbn.
      destruct b as [ow oh]. cbn in *.
      destruct Hmiss as [ -> | [ -> | -> ] ]; cbn;
        repeat match goal with
               | |- context [toNum ?o] => destruct o; cbn
               | |- context [if ?c then _ else _] => destruct c; cbn
               | |- context [match ?o with Some _ => _ | None => _ end] =>
                   destruct o; cbn
               end; reflexivity.
  - unfold calculateFaceQuality, qualityBody.
    intros [Hnone|(fd & Hfd & Hbox)].
    + rewrite Hnone. reflexivity.
    + rewrite Hfd. cbn. rewrite Hbox. reflexivity.
Qed.

Lemma quality_range_witness :
  calculateFaceQuality
    (mkDetection (Some (mkFaceDetection None (Some 1))) true
       (Some (mkExpressions (Some 1) None)) []) = Ok (Num 0.5).
Proof.
  apply (proj2 (proj2 (quality_range _))).
  right. eexists. split; reflexivity.
Defined.

(** The score of a detection carrying every field. *)
Lemma quality_of_full (w h s : Q) (l : bool) (e : option Expressions) (desc : Descriptor) :
  exists q, calculateFaceQuality (fullDetection w h s l e desc) = Ok (Num q).
Proof.
  unfold calculateFaceQuality, qualityBody, fullDetection; cbn.
  destruct l, e; cbn; eexists; reflexivity.
Qed.

(** X2: a validation that succeeds lists no issue; and a detection that
    passes the four checks (score at least 0.8, box at least 100 x 100,
    landmarks present, neutral score not below 0.3) gets no issue either,
    whether or not its quality reaches the threshold. *)
Theorem validation_issues (threshold : Q) :
  (forall d v, validateEnrollmentQuality threshold d = Ok v ->
               isValid v = true -> issues v = []) /\
  (forall w h s e desc,
     100 <= w -> 100 <= h -> 0.8 <= s ->
     (forall x, e = Some x -> 0.3 <= orZero (neutral x)) ->
     exists v,
       validateEnrollmentQuality threshold (fullDetection w h s true e desc) = Ok v /\
       issues v = [] /\
       calculateFaceQuality (fullDetection w h s true e desc)
         = Ok (validationQuality v) /\
       isValid v = geb (validationQuality v) (Num threshold)).
Proof.
  split.
  - intros d v. unfold validateEnrollmentQuality.
    destruct (calculateFaceQuality d) as [q|err]; cbn; [|discriminate].
    destruct q as [q|]; cbn.
    + destruct (Qle_bool threshold q) eqn:Hle; cbn.
      * intros [= <-]. reflexivity.
      * destruct (detection d) as [fd|]; cbn; [|discriminate].
        destruct (box fd) as [b|]; cbn; [|discriminate].
        intros [= <-]. cbn. discriminate.
    + intros [= <-]. reflexivity.
  - intros w h s e desc Hw Hh Hs He.
    destruct (quality_of_full w h s true e desc) as (q & Hq).
    unfold validateEnrollmentQuality. rewrite Hq. cbn.
    destruct (Qle_bool threshold q) eqn:Hle; cbn;
      [eexists; repeat split; cbn; now rewrite ?Hle|].
    apply Qle_bool_iff in Hw, Hh, Hs. rewrite Hw, Hh, Hs. cbn.
    destruct e as [x|]; cbn.
    + specialize (He x eq_refl). apply Qle_bool_iff in He. rewrite He. cbn.
      eexists; repeat split; cbn; now rewrite ?Hle.
    + eexists; repeat split; cbn; now rewrite ?Hle.
Qed.

Lemma validation_issues_witness :
  exists v,
    validateEnrollmentQuality 0.7 smallFace = Ok v /\
    issues v = [] /\
    calculateFaceQuality smallFace = Ok (validationQuality v) /\
    isValid v = geb (validationQuality v) (Num 0.7).
Proof.
  refine (proj2 (validation_issues 0.7) 100 100 0.8
            (Some (mkExpressions (Some 0.3) None)) descriptor128 _ _ _ _).
  - discriminate.
  - discriminate.
  - discriminate.
  - intros x [= <-]. discriminate.
Defined.

(** The small face is indeed refused, without any issue to show. *)
Example small_face_refused_without_issue :
  exists v, validateEnrollmentQuality 0.7 smallFace = Ok v /\
            isValid v = false /\ issues v = [].
Proof. eexists. vm_compute. repeat split. Qed.

(** X3: without a detector result the quality is the fallback 0.5, and the
    validation then throws for every threshold above 0.5 (reading
    [detection.detection.score] fails), while for a threshold of at most 0.5
    it accepts the detection with quality 0.5. *)
Theorem validation_without_detector_result (threshold : Q) (d : Detection) :
  detection d = None ->
  (0.5 < threshold -> exists e, validateEnrollmentQuality threshold d = Throw e) /\
  (threshold <= 0.5 ->
   validateEnrollmentQuality threshold d = Ok (mkValidation true (Num 0.5) [])).
Proof.
  intros Hd. unfold validateEnrollmentQuality, calculateFaceQuality, qualityBody.
  rewrite Hd. cbn. split.
  - intros Hlt. apply Qlt_not_le in Hlt.
    destruct (Qle_bool threshold 0.5) eqn:Hle;
      [apply Qle_bool_iff in Hle; contradiction|]. cbn. eauto.
  - intros Hle. apply Qle_bool_iff in Hle. rewrite Hle. reflexivity.
Qed.

Lemma validation_without_detector_result_witness :
  exists e,
    validateEnrollmentQuality 0.7 (mkDetection None true None descriptor128) = Throw e.
Proof.
  refine (proj1 (validation_without_detector_result 0.7
                   (mkDetection None true None descriptor128) eq_refl) _).
  reflexivity.
Defined.

End EngineMore.

Module DetectionMore.
Import Js Engine QualityNotions MoreNotions MonadFacts.
Local Open Scope Q_scope.

Lemma geb_qualityAtLeast (m : Q) (d : Detection) :
  match calculateFaceQuality d with
  | Ok q => geb q (Num m)
  | Throw _ => false
  end = true <-> qualityAtLeast m d.
Proof.
  unfold qualityAtLeast.
  destruct (calculateFaceQuality d) as [[q|]|err]; cbn.
  - rewrite Qle_bool_iff. split.
    + intros H. exists q. split; [reflexivity|exact H].
    + intros (x & [= <-] & H). exact H.
  - split; [discriminate|]. intros (x & H & _). discriminate.
  - split; [discriminate|]. intros (x & H & _). discriminate.
Qed.

(** X4: with a minimum quality, an initialized engine returns exactly the
    detected faces whose quality is a number of at least that minimum, and
    changes nothing. *)
Theorem detectFaces_keeps_good_faces
    (ds : list Detection) (m : Q) (e : Env) :
  isInitialized (engine e) = true -> ~ m == 0 ->
  exists kept,
    detectFaces (Ok ds) (Some m) e = (Ok kept, e) /\
    (forall d, In d kept <-> In d ds /\ qualityAtLeast m d) /\
    (List.length kept <= List.length ds)%nat.
Proof.
  intros Hinit Hm.
  assert (Hz : Qeq_bool m 0 = false).
  { destruct (Qeq_bool m 0) eqn:H; [|reflexivity].
    apply Qeq_bool_iff in H. contradiction. }
  destruct e as [d [init labeled th qth]]. cbn in Hinit. subst init.
  unfold detectFaces, requireInitialized, truthy, mbind, gets, tryCatchM, lift, ret;
    cbn. rewrite Hz. cbn.
  eexists. split; [reflexivity|]. split.
  - intros x. rewrite filter_In, geb_qualityAtLeast. reflexivity.
  - apply filter_length_le.
Qed.

Lemma detectFaces_keeps_good_faces_witness :
  exists kept,
    detectFaces (Ok [smallFace; goodFace]) (Some 0.7) MatcherNotions.emptyGallery
      = (Ok kept, MatcherNotions.emptyGallery) /\
    (forall d, In d kept <-> In d [smallFace; goodFace] /\ qualityAtLeast 0.7 d) /\
    (List.length kept <= List.length [smallFace; goodFace])%nat.
Proof.
  apply (detectFaces_keeps_good_faces [smallFace; goodFace] 0.7
           MatcherNotions.emptyGallery); [reflexivity|discriminate].
Defined.

(** X5: [detectFaces] fails in two ways.  An engine that is not initialized
    throws before anything else happens; a failure of the detector is thrown
    again as it is, after an error is logged, and
    the engine, the users, the descriptors and the attendance are left
    alone. *)
Theorem detectFaces_failures
    (frame : result (list Detection)) (minQuality : option Q) (e : Env) :
  (isInitialized (engine e) = false ->
   detectFaces frame minQuality e =
   (Throw (Error "Face recognition engine not initialized"), e)) /\
  (forall err,
     isInitialized (engine e) = true -> frame = Throw err ->
     exists e',
       detectFaces frame minQuality e = (Throw err, e') /\
       engine e' = engine e /\
       Db.users (db e') = Db.users (db e) /\
       Db.faceDescriptors (db e') = Db.faceDescriptors (db e) /\
       Db.attendanceRecords (db e') = Db.attendanceRecords (db e) /\
       Db.systemLogs (db e') =
       Db.systemLogs (db e) ++ [("error", "Face detection failed")]%string).
Proof.
  destruct e as [d [init labeled th qth]]. cbn. split.
  - intros ->.
    unfold detectFaces, requireInitialized, mbind, gets, throw; cbn. reflexivity.
  - intros err -> ->.
    unfold detectFaces, requireInitialized, mbind, gets, tryCatchM, lift, ret, throw,
      onDb, zoom, Db.logActivity; cbn.
    unfold modify; cbn. eexists. repeat split.
Qed.

Lemma detectFaces_failures_witness :
  detectFaces (Ok [goodFace]) None (mkEnv Db.new Engine.new) =
  (Throw (Error "Face recognition engine not initialized"), mkEnv Db.new Engine.new).
Proof.
  apply (proj1 (detectFaces_failures (Ok [goodFace]) None (mkEnv Db.new Engine.new))).
  reflexivity.
Defined.

End DetectionMore.

(** ** The engine: the gallery *)

Module GalleryMore.
Import Js Engine MoreNotions MonadFacts.
Local Open Scope Z_scope.

Lemma labelUsers_entries (rows : list Db.FaceData) (users : list Db.User)
    (l : LabeledFaceDescriptors) :
  In l (labelUsers rows users) <->
  exists user,
    In user users /\ rowsOf rows user <> [] /\
    l = mkLabeled (toString (Db.id user)) (map Db.faceDescriptor (rowsOf rows user)).
Proof.
  induction users as [|u users IH]; cbn.
  - split; [intros []|intros (user & [] & _)].
  - fold (rowsOf rows u).
    destruct (rowsOf rows u) as [|r rs] eqn:Hrows; cbn.
    + rewrite IH. split.
      * intros (user & Hin & H). exists user. auto.
      * intros (user & [<-|Hin] & Hne & H); [congruence|]. exists user. auto.
    + rewrite IH. split.
      * intros [<-|(user & Hin & H)].
        -- exists u. rewrite Hrows. repeat split; [now left|discriminate].
        -- exists user. split; [now right|exact H].
      * intros (user & [<-|Hin] & Hne & ->).
        -- left. rewrite Hrows. reflexivity.
        -- right. exists user. auto.
Qed.

Lemma labelUsers_length (rows : list Db.FaceData) (users : list Db.User) :
  (List.length (labelUsers rows users) <= List.length users)%nat.
Proof.
  induction users as [|u users IH]; cbn; [lia|].
  match goal with |- context [if ?c then _ else _] => destruct c end; cbn; lia.
Qed.

(** X6: loading the gallery always succeeds and touches nothing but the
    gallery, which then holds one entry per user that has stored
    descriptors, labelled with the id of the user and carrying the
    descriptors of the user in the order of the rows; there are never more
    entries than users and never an entry without a descriptor. *)
Theorem loadFaceDescriptors_gallery (e : Env) :
  exists e',
    loadFaceDescriptors e = (Ok tt, e') /\
    db e' = db e /\
    isInitialized (engine e') = isInitialized (engine e) /\
    recognitionThreshold (engine e') = recognitionThreshold (engine e) /\
    qualityThreshold (engine e') = qualityThreshold (engine e) /\
    Forall (fun l => descriptors l <> []) (labeledDescriptors (engine e')) /\
    (List.length (labeledDescriptors (engine e'))
       <= List.length (Db.users (db e)))%nat /\
    (forall l, In l (labeledDescriptors (engine e')) <->
       exists user,
         In user (Db.users (db e)) /\
         rowsOf (Db.faceDescriptors (db e)) user <> [] /\
         l = mkLabeled (toString (Db.id user))
               (map Db.faceDescriptor (rowsOf (Db.faceDescriptors (db e)) user))).
Proof.
  destruct e as [[init us rows ars logs n1 n2 n3] eng]. cbn.
  unfold loadFaceDescriptors, tryCatchM, mbind, onDb, zoom, Db.getFaceDescriptors,
    Db.getAllUsers, mbind, gets, modify; cbn.
  eexists. split; [reflexivity|]. cbn. repeat split.
  - apply Forall_forall. intros l Hl. apply labelUsers_entries in Hl.
    destruct Hl as (user & _ & Hne & ->). cbn.
    destruct (rowsOf rows user); [congruence|discriminate].
  - apply labelUsers_length.
  - apply labelUsers_entries.
  - apply labelUsers_entries.
Qed.

(** The gallery of a database with one user and two rows of that user. *)
Example gallery_of_one_user :
  let e :=
    mkEnv (Db.mkState true
             [Db.mkUser 7 "Ada" "ada@example.org" "R&D" "Employee" 0 None]
             [Db.mkFaceData 1 7 [0.5%Q] (Num 0.9) "t1";
              Db.mkFaceData 2 7 [0.25%Q] (Num 0.8) "t2"]
             [] [] 8 3 1) Engine.new in
  labeledDescriptors (engine (snd (loadFaceDescriptors e))) =
  [mkLabeled (toString 7) [[0.5%Q]; [0.25%Q]]].
Proof. reflexivity. Qed.

(** Labels are numerals, and are read back as the id they were made from. *)
Lemma parseInt_toString (n : Z) : parseInt (toString n) = Some n.
Proof.
  unfold parseInt, toString.
  rewrite NilZero.isi.
  - cbn. rewrite DecimalZ.of_to. reflexivity.
  - destruct n; cbn; try discriminate.
    intros [= H]. exact (DecimalPos.Unsigned.to_uint_nonnil _ H).
  - destruct n; cbn; try discriminate.
    intros [= H]. exact (DecimalPos.Unsigned.to_uint_nonnil _ H).
Qed.

Lemma toString_not_unknown (n : Z) : toString n <> "unknown"%string.
Proof.
  intros H. pose proof (parseInt_toString n) as Hp. rewrite H in Hp.
  vm_compute in Hp. discriminate.
Qed.

Lemma toString_injective (n m : Z) : toString n = toString m -> n = m.
Proof.
  intros H. pose proof (parseInt_toString n) as Hn. rewrite H in Hn.
  rewrite parseInt_toString in Hn. congruence.
Qed.

Section Matcher.
Variable findBestMatch :
  list LabeledFaceDescriptors -> Q -> Descriptor -> result FaceMatch.

(** X7: a recognition result reports confidence 1 - distance; the label
    "unknown" gives no match and no user, and the label made from a user id
    gives a match for exactly that user.  The quality of the face never makes
    the recognition fail. *)
Theorem recognizeOne_identity (s : State) (now : string) (d : Detection) (m : FaceMatch) :
  findBestMatch (labeledDescriptors s) (recognitionThreshold s) (descriptor d) = Ok m ->
  exists r,
    recognizeOne findBestMatch s now d = Ok r /\
    resDetection r = d /\
    (confidence r == 1 - distance m)%Q /\
    calculateFaceQuality d = Ok (quality r) /\
    (matchLabel m = "unknown"%string -> isMatch r = false /\ userId r = None) /\
    (forall n, matchLabel m = toString n -> isMatch r = true /\ userId r = Some n).
Proof.
  intros Hm. unfold recognizeOne. rewrite Hm. cbn.
  destruct (EngineFacts.quality_total d) as (q & Hq). rewrite Hq. cbn.
  eexists. split; [reflexivity|]. cbn.
  split; [reflexivity|]. split; [reflexivity|]. split; [reflexivity|]. split.
  - intros H. rewrite H. split; reflexivity.
  - intros n H.
    destruct (String.eqb (matchLabel m) "unknown") eqn:Heq; cbn.
    + apply String.eqb_eq in Heq. rewrite H in Heq.
      exfalso. exact (toString_not_unknown n Heq).
    + split; [reflexivity|]. rewrite H. apply parseInt_toString.
Qed.

End Matcher.

Lemma recognizeOne_identity_witness :
  exists r,
    recognizeOne MatcherNotions.alwaysUserOne (engine MatcherNotions.oneUser)
      "09:00" goodFace = Ok r /\
    resDetection r = goodFace /\
    (confidence r == 1 - 0.3)%Q /\
    calculateFaceQuality goodFace = Ok (quality r) /\
    ("1"%string = "unknown"%string -> isMatch r = false /\ userId r = None) /\
    (forall n, "1"%string = toString n -> isMatch r = true /\ userId r = Some n).
Proof.
  exact (recognizeOne_identity MatcherNotions.alwaysUserOne
           (engine MatcherNotions.oneUser) "09:00" goodFace
           (mkFaceMatch "1" 0.3) eq_refl).
Defined.

End GalleryMore.

(** ** The engine: recognition and enrollment *)

Module RecognitionMore.
Import Js Engine MoreNotions MonadFacts.
Local Open Scope Q_scope.





Section Matcher.
Variable findBestMatch :
  list LabeledFaceDescriptors -> Q -> Descriptor -> result FaceMatch.



(** X9: when the matcher fails on one of the detections, [recognizeFaces]
    throws that failure again: no partial list of results is returned, the
    engine is unchanged and the failure is logged. *)
Theorem recognizeFaces_matcher_failure (now : string) (ds : list Detection) (e : Env)
    (err : exn) :
  isInitialized (engine e) = true ->
  labeledDescriptors (engine e) <> [] ->
  recognizeAll findBestMatch (engine e) now ds = Throw err ->
  exists e',
    recognizeFaces findBestMatch now ds e = (Throw err, e') /\
    engine e' = engine e /\
    Db.attendanceRecords (db e') = Db.attendanceRecords (db e) /\
    Db.systemLogs (db e') =
    Db.systemLogs (db e) ++ [("error", "Face recognition failed")]%string.
Proof.
  destruct e as [d [init labeled th qth]]. cbn. intros -> Hne Hraw.
  unfold recognizeFaces, requireInitialized, mbind, gets, tryCatchM, lift, ret, throw;
    cbn.
  destruct labeled as [|l labeled]; [congruence|]. cbn. rewrite Hraw. cbn.
  unfold onDb, zoom, Db.logActivity; cbn.
  unfold modify; cbn. eexists. repeat split.
Qed.

End Matcher.


Lemma recognizeFaces_matcher_failure_witness :
  let e := MatcherNotions.oneUser in
  exists e',
    recognizeFaces brokenMatcher "09:00" [goodFace] e
      = (Throw (Error "matcher failed"), e') /\
    engine e' = engine e /\
    Db.attendanceRecords (db e') = Db.attendanceRecords (db e) /\
    Db.systemLogs (db e') =
    Db.systemLogs (db e) ++ [("error", "Face recognition failed")]%string.
Proof.
  intros e.
  refine (recognizeFaces_matcher_failure brokenMatcher "09:00" [goodFace] e
            (Error "matcher failed") eq_refl _ eq_refl).
  discriminate.
Defined.

End RecognitionMore.

Module EnrollFaceMore.
Import Js Engine MoreNotions MonadFacts.
Local Open Scope Z_scope.

(** X10: a descriptor that does not have 128 numbers is refused by an
    initialized engine with the error "Invalid face descriptor": nothing is
    stored, the gallery stays as it was, and the refusal is logged. *)
Theorem enrollFace_invalid_descriptor (userId : Z) (faceDescriptor : Descriptor)
    (quality : jsnum) (timestamp : string) (e : Env) :
  isInitialized (engine e) = true ->
  List.length faceDescriptor <> 128%nat ->
  exists e',
    enrollFace userId faceDescriptor quality timestamp e =
      (Throw (Error "Invalid face descriptor"), e') /\
    engine e' = engine e /\
    Db.faceDescriptors (db e') = Db.faceDescriptors (db e) /\
    Db.users (db e') = Db.users (db e) /\
    Db.systemLogs (db e') =
    Db.systemLogs (db e) ++ [("error", "Face enrollment failed")]%string.
Proof.
  destruct e as [d [init labeled th qth]]. cbn. intros -> Hlen.
  apply Nat.eqb_neq in Hlen.
  unfold enrollFace, requireInitialized, mbind, gets, tryCatchM, ret, throw; cbn.
  rewrite Hlen. cbn.
  unfold onDb, zoom, Db.logActivity; cbn.
  unfold modify; cbn. eexists. repeat split.
Qed.

Lemma enrollFace_invalid_descriptor_witness :
  let e := MatcherNotions.oneUser in
  exists e',
    enrollFace 1 [] (Num 0.8) "09:00" e = (Throw (Error "Invalid face descriptor"), e') /\
    engine e' = engine e /\
    Db.faceDescriptors (db e') = Db.faceDescriptors (db e) /\
    Db.users (db e') = Db.users (db e) /\
    Db.systemLogs (db e') =
    Db.systemLogs (db e) ++ [("error", "Face enrollment failed")]%string.
Proof.
  intros e.
  refine (enrollFace_invalid_descriptor 1 [] (Num 0.8) "09:00" e eq_refl _).
  discriminate.
Defined.

(** X11: a descriptor of 128 numbers is stored by an initialized engine on
    an initialized database: the new row is appended under the next row id,
    which is returned, the users are untouched, and the gallery is rebuilt
    from the stored rows, the new one included. *)
Theorem enrollFace_stores_descriptor (userId : Z) (faceDescriptor : Descriptor)
    (quality : jsnum) (timestamp : string) (e : Env) :
  isInitialized (engine e) = true ->
  Db.isInitialized (db e) = true ->
  List.length faceDescriptor = 128%nat ->
  exists e',
    enrollFace userId faceDescriptor quality timestamp e =
      (Ok (Db.nextFaceDescriptorId (db e)), e') /\
    Db.faceDescriptors (db e') =
      Db.faceDescriptors (db e) ++
      [Db.mkFaceData (Db.nextFaceDescriptorId (db e)) userId faceDescriptor
         quality timestamp] /\
    Db.nextFaceDescriptorId (db e') = Db.nextFaceDescriptorId (db e) + 1 /\
    Db.users (db e') = Db.users (db e) /\
    Db.nextUserId (db e') = Db.nextUserId (db e) /\
    Db.attendanceRecords (db e') = Db.attendanceRecords (db e) /\
    Db.isInitialized (db e') = true /\
    isInitialized (engine e') = true /\
    qualityThreshold (engine e') = qualityThreshold (engine e) /\
    recognitionThreshold (engine e') = recognitionThreshold (engine e) /\
    labeledDescriptors (engine e') =
      labelUsers (Db.faceDescriptors (db e')) (Db.users (db e')).
Proof.
  destruct e as [[dinit us rows ars logs n1 n2 n3] [init labeled th qth]]. cbn.
  intros -> -> Hlen. apply Nat.eqb_eq in Hlen.
  unfold enrollFace, requireInitialized, mbind, gets, tryCatchM, ret, throw; cbn.
  rewrite Hlen. cbn.
  unfold onDb, zoom, Db.addFaceDescriptor, Db.logActivity, mbind, gets,
    modify, ret; cbn.
  unfold loadFaceDescriptors, tryCatchM, onDb, zoom, Db.getFaceDescriptors,
    Db.getAllUsers, mbind, gets, modify; cbn.
  eexists. repeat split.
Qed.

Lemma enrollFace_stores_descriptor_witness :
  let e := MatcherNotions.oneUser in
  exists e',
    enrollFace 1 descriptor128 (Num 0.8) "09:00" e = (Ok 1, e') /\
    Db.faceDescriptors (db e') =
      [Db.mkFaceData 1 1 descriptor128 (Num 0.8) "09:00"] /\
    labeledDescriptors (engine e') = [mkLabeled "1" [descriptor128]].
Proof.
  intros e.
  destruct (enrollFace_stores_descriptor 1 descriptor128 (Num 0.8) "09:00" e
              eq_refl eq_refl eq_refl)
    as (e' & Hrun & Hrows & _ & Husers & _ & _ & _ & _ & _ & _ & Hgallery).
  exists e'. split; [exact Hrun|]. split; [exact Hrows|].
  rewrite Hgallery, Hrows, Husers. reflexivity.
Defined.

End EnrollFaceMore.

(** ** The database *)

Module DbMore.
Import Js Db DbOps MoreNotions MonadFacts.
Local Open Scope Z_scope.

Lemma find_hasId_none (userId : Z) (l : list User) :
  Forall (fun u => id u < userId) l -> find (hasId userId) l = None.
Proof.
  induction 1 as [|u l Hu _ IH]; cbn; [reflexivity|].
  unfold hasId at 1. destruct (id u =? userId) eqn:H; [|exact IH].
  apply Z.eqb_eq in H. lia.
Qed.

Lemma find_app_other (userId : Z) (l : list User) (u : User) :
  find (hasId userId) (l ++ [u]) =
  match find (hasId userId) l with
  | Some x => Some x
  | None => if hasId userId u then Some u else None
  end.
Proof.
  induction l as [|x l IH]; cbn; [reflexivity|].
  destruct (hasId userId x); [reflexivity|exact IH].
Qed.

(** X12: on an initialized database whose ids are all below the next id,
    [addUser] hands out that next id, appends the user with no attendance
    yet and keeps the ids below the new next id; [getUser] then finds the
    new user under its id and every other id as before. *)
Theorem addUser_then_getUser (userData : UserData) (s : State) :
  isInitialized s = true -> idsBelowNext s ->
  exists s',
    addUser userData s = (Ok (nextUserId s), s') /\
    users s' = users s ++
      [mkUser (nextUserId s) (userName userData) (userEmail userData)
         (userDepartment userData) (userRole userData) 0 None] /\
    faceDescriptors s' = faceDescriptors s /\
    attendanceRecords s' = attendanceRecords s /\
    idsBelowNext s' /\
    fst (getUser (nextUserId s) s') =
      Ok (Some (mkUser (nextUserId s) (userName userData) (userEmail userData)
                  (userDepartment userData) (userRole userData) 0 None)) /\
    (forall other, other <> nextUserId s ->
       fst (getUser other s') = fst (getUser other s)).
Proof.
  destruct s as [init us rows ars logs n1 n2 n3]. cbn. intros -> Hids.
  unfold idsBelowNext in *. cbn in *.
  unfold addUser, logActivity, mbind, gets, modify, ret; cbn.
  eexists. split; [reflexivity|]. cbn. repeat split.
  - apply Forall_app. split.
    + eapply Forall_impl; [|exact Hids]. cbn. intros u Hu. lia.
    + constructor; [cbn; lia|constructor].
  - unfold getUser, mbind, gets; cbn.
    rewrite find_app_other, (find_hasId_none n1 us Hids).
    unfold hasId. cbn. rewrite Z.eqb_refl. reflexivity.
  - intros other Hother.
    unfold getUser, mbind, gets; cbn.
    rewrite find_app_other.
    destruct (find (hasId other) us); [reflexivity|].
    unfold hasId. cbn. apply Z.eqb_neq in Hother. rewrite Z.eqb_sym, Hother.
    reflexivity.
Qed.

Lemma addUser_then_getUser_witness :
  exists s',
    addUser (mkUserData "Ada" "ada@example.org" "R&D" "Employee") Db.new = (Ok 1, s') /\
    fst (getUser 1 s') =
      Ok (Some (mkUser 1 "Ada" "ada@example.org" "R&D" "Employee" 0 None)).
Proof.
  destruct (addUser_then_getUser (mkUserData "Ada" "ada@example.org" "R&D" "Employee")
              Db.new eq_refl (Forall_nil _))
    as (s' & Hadd & _ & _ & _ & _ & Hget & _).
  exists s'. split; assumption.
Defined.

Lemma touch_ids (userId : option Z) (now : string) (l : list User) :
  map id (touch userId now l) = map id l.
Proof.
  induction l as [|u l IH]; cbn; [reflexivity|].
  destruct (idEq userId u); cbn; [reflexivity|]. now rewrite IH.
Qed.

Lemma touch_split (userId : option Z) (now : string) (l : list User) :
  (find (idEq userId) l = None /\ touch userId now l = l) \/
  (exists pre u post,
     l = pre ++ u :: post /\
     find (idEq userId) l = Some u /\
     (forall x, In x pre -> idEq userId x = false) /\
     touch userId now l =
       pre ++ mkUser (id u) (name u) (email u) (department u) (role u)
                (totalAttendance u + 1) (Some now) :: post).
Proof.
  induction l as [|u l IH]; cbn; [left; split; reflexivity|].
  destruct (idEq userId u) eqn:Hu.
  - right. exists [], u, l. repeat split. intros x [].
  - destruct IH as [[Hnone Hsame]|(pre & v & post & -> & Hfind & Hpre & Htouch)].
    + left. split; [exact Hnone|]. now rewrite Hsame.
    + right. exists (u :: pre), v, post. cbn. repeat split.
      * exact Hfind.
      * intros x [<-|Hx]; [exact Hu|auto].
      * now rewrite Htouch.
Qed.

(** X13: recording an attendance on an initialized database only ever adds:
    the earlier records are kept in place and one record with the next
    record id follows them; the descriptors are untouched; no user is added,
    removed or renumbered, and the only user that changes is the first one
    carrying the recorded id, whose attendance total grows by one. *)
Theorem addAttendanceRecord_appends (userId : option Z) (confidence : Q)
    (quality : jsnum) (detectionCount : nat) (now : string) (s : State) :
  isInitialized s = true ->
  exists s',
    addAttendanceRecord userId confidence quality detectionCount now s =
      (Ok (nextAttendanceId s), s') /\
    attendanceRecords s' =
      attendanceRecords s ++
      [mkAttendanceRecord (nextAttendanceId s) userId confidence quality
         detectionCount now] /\
    nextAttendanceId s' = nextAttendanceId s + 1 /\
    faceDescriptors s' = faceDescriptors s /\
    map id (users s') = map id (users s) /\
    ((find (idEq userId) (users s) = None /\ users s' = users s) \/
     (exists pre u post,
        users s = pre ++ u :: post /\
        find (idEq userId) (users s) = Some u /\
        (forall x, In x pre -> idEq userId x = false) /\
        users s' =
          pre ++ mkUser (id u) (name u) (email u) (department u) (role u)
                   (totalAttendance u + 1) (Some now) :: post)).
Proof.
  destruct s as [init us rows ars logs n1 n2 n3]. cbn. intros ->.
  unfold addAttendanceRecord, logActivity, mbind, gets, modify, ret; cbn.
  eexists. split; [reflexivity|]. cbn. repeat split.
  - apply touch_ids.
  - apply touch_split.
Qed.

Lemma addAttendanceRecord_appends_witness :
  exists s',
    addAttendanceRecord (Some 1) 0.7 (Num 0.9) 1 "09:00"
      (Engine.db MatcherNotions.oneUser) = (Ok 1, s') /\
    attendanceRecords s' = [mkAttendanceRecord 1 (Some 1) 0.7 (Num 0.9) 1 "09:00"] /\
    map id (users s') = [1].
Proof.
  destruct (addAttendanceRecord_appends (Some 1) 0.7 (Num 0.9) 1 "09:00"
              (Engine.db MatcherNotions.oneUser) eq_refl)
    as (s' & Hrun & Hrec & _ & _ & Hids & _).
  exists s'. repeat split; assumption.
Defined.

Lemma removeUser_in (userId : Z) (l : list User) (x : User) :
  In x (removeUser userId l) -> In x l.
Proof.
  induction l as [|u l IH]; cbn; [tauto|].
  destruct (hasId userId u); [tauto|]. intros [<-|H]; auto.
Qed.

Lemma removeUser_length (userId : Z) (l : list User) (u : User) :
  find (hasId userId) l = Some u ->
  S (List.length (removeUser userId l)) = List.length l.
Proof.
  induction l as [|x l IH]; cbn; [discriminate|].
  destruct (hasId userId x); [reflexivity|]. intros H. cbn. f_equal. exact (IH H).
Qed.

Lemma removeUser_others (userId other : Z) (l : list User) :
  other <> userId ->
  find (hasId other) (removeUser userId l) = find (hasId other) l.
Proof.
  intros Hother. induction l as [|x l IH]; cbn; [reflexivity|].
  destruct (hasId userId x) eqn:Hx; cbn.
  - unfold hasId in *. apply Z.eqb_eq in Hx.
    destruct (id x =? other) eqn:Hxo; [apply Z.eqb_eq in Hxo; congruence|reflexivity].
  - destruct (hasId other x); [reflexivity|exact IH].
Qed.

(** X14: deleting a user that exists removes one user, every stored
    descriptor and every attendance record of that id, and nothing of the
    other users: their descriptors and records stay, in order, and they are
    still found; deleting an id that is not there throws "User not found" and
    changes nothing. *)
Theorem deleteUser_cascade (userId : Z) (s : State) :
  isInitialized s = true ->
  (forall u, find (hasId userId) (users s) = Some u ->
     exists s',
       deleteUser userId s = (Ok true, s') /\
       S (List.length (users s')) = List.length (users s) /\
       (forall fd, In fd (faceDescriptors s') <->
                   In fd (faceDescriptors s) /\ faceUserId fd <> userId) /\
       (forall ar, In ar (attendanceRecords s') <->
                   In ar (attendanceRecords s) /\ Db.userId ar <> Some userId) /\
       (forall other, other <> userId ->
          find (hasId other) (users s') = find (hasId other) (users s))) /\
  (find (hasId userId) (users s) = None ->
   deleteUser userId s = (Throw (Error "User not found"), s)).
Proof.
  destruct s as [init us rows ars logs n1 n2 n3]. cbn. intros ->. split.
  - intros u Hu.
    unfold deleteUser, logActivity, mbind, gets, modify, ret, throw; cbn.
    rewrite Hu. cbn. eexists. split; [reflexivity|]. cbn. repeat split.
    + apply (removeUser_length _ _ _ Hu).
    + apply filter_In in H. tauto.
    + apply filter_In in H. destruct H as [_ H].
      apply negb_true_iff, Z.eqb_neq in H. exact H.
    + intros [Hin Hne]. apply filter_In. split; [exact Hin|].
      apply negb_true_iff, Z.eqb_neq. exact Hne.
    + apply filter_In in H. tauto.
    + apply filter_In in H. destruct H as [_ H]. unfold otherUser in H.
      destruct (Db.userId ar) as [n|]; [|discriminate].
      apply negb_true_iff, Z.eqb_neq in H. congruence.
    + intros [Hin Hne]. apply filter_In. split; [exact Hin|]. unfold otherUser.
      destruct (Db.userId ar) as [n|]; [|reflexivity].
      apply negb_true_iff, Z.eqb_neq. congruence.
    + intros other Hother. apply removeUser_others. exact Hother.
  - intros Hnone.
    unfold deleteUser, mbind, gets, throw; cbn. rewrite Hnone. reflexivity.
Qed.

Lemma deleteUser_cascade_witness :
  exists s',
    deleteUser 1 (Engine.db MatcherNotions.oneUser) = (Ok true, s') /\
    S (List.length (users s')) = List.length (users (Engine.db MatcherNotions.oneUser)).
Proof.
  destruct (proj1 (deleteUser_cascade 1 (Engine.db MatcherNotions.oneUser) eq_refl)
              _ eq_refl) as (s' & Hrun & Hlen & _).
  exists s'. split; assumption.
Defined.

End DbMore.

(** ** Deleting a user from the management page *)

Module ManagementMore.
Import Js Engine DbOps ManagementOps MoreNotions MonadFacts.
Local Open Scope Z_scope.

Lemma rowsOf_after_delete (userId : Z) (rows : list Db.FaceData) (user : Db.User) :
  Db.id user = userId ->
  rowsOf (filter (fun fd => negb (Db.faceUserId fd =? userId)) rows) user = [].
Proof.
  intros <-. unfold rowsOf.
  induction rows as [|r rows IH]; cbn; [reflexivity|].
  destruct (Db.faceUserId r =? Db.id user) eqn:H; cbn; [exact IH|].
  rewrite H. exact IH.
Qed.

(** X15: deleting a stored user from the management page, once confirmed,
    removes the user with its descriptors and rebuilds the gallery, which
    then has no entry under that user's label: the person can no longer be
    matched.  Without the confirmation nothing changes at all, and an id
    that is not stored only yields the "User not found" toast. *)
Theorem deleteUser_rebuilds_gallery (userId : Z) (p : Page) :
  Db.isInitialized (db (env p)) = true ->
  (forall u, find (hasId userId) (Db.users (db (env p))) = Some u ->
     ManagementOps.deleteUser userId false p = (Ok tt, p) /\
     exists p',
       ManagementOps.deleteUser userId true p = (Ok tt, p') /\
       notices p' = notices p ++ [UserDeleted] /\
       fst (DbOps.deleteUser userId (db (env p))) = Ok true /\
       db (env p') = snd (DbOps.deleteUser userId (db (env p))) /\
       labeledDescriptors (engine (env p')) =
         labelUsers (Db.faceDescriptors (db (env p'))) (Db.users (db (env p'))) /\
       (forall l, In l (labeledDescriptors (engine (env p'))) ->
                  label l <> toString userId)) /\
  (find (hasId userId) (Db.users (db (env p))) = None ->
   forall confirmed,
     ManagementOps.deleteUser userId confirmed p =
     (Ok tt, mkPage (env p) (notices p ++ [UserNotFound]))).
Proof.
  destruct p as [[[init us rows ars logs n1 n2 n3] eng] ns]. cbn. intros ->. split.
  - intros u Hu. split.
    + unfold ManagementOps.deleteUser, tryCatchM, mbind, onDb, onEngine, Engine.onDb,
        zoom, getUser, mbind, gets, ret; cbn. rewrite Hu. reflexivity.
    + unfold ManagementOps.deleteUser, loadUserTable, tryCatchM, mbind, onDb, onEngine,
        Engine.onDb, zoom, getUser, DbOps.deleteUser, Db.getAllUsers, Db.logActivity, showToast, mbind, gets, modify, ret; cbn.
      rewrite Hu. cbn. rewrite Hu. cbn.
      unfold loadFaceDescriptors, tryCatchM, Engine.onDb, zoom, Db.getFaceDescriptors,
        Db.getAllUsers, mbind, gets, modify; cbn.
      eexists. split; [reflexivity|]. cbn. repeat split.
      intros l Hl Hlabel.
      apply GalleryMore.labelUsers_entries in Hl.
      destruct Hl as (user & _ & Hne & ->). cbn in Hlabel.
      apply GalleryMore.toString_injective in Hlabel.
      apply Hne. apply rowsOf_after_delete. exact Hlabel.
  - intros Hnone confirmed.
    unfold ManagementOps.deleteUser, tryCatchM, mbind, onDb, onEngine, Engine.onDb,
      zoom, getUser, showToast, mbind, gets, modify, ret; cbn.
    rewrite Hnone. reflexivity.
Qed.

Lemma deleteUser_rebuilds_gallery_witness :
  let p := mkPage MatcherNotions.oneUser [] in
  exists p',
    ManagementOps.deleteUser 1 true p = (Ok tt, p') /\
    notices p' = [UserDeleted] /\
    (forall l, In l (labeledDescriptors (engine (env p'))) -> label l <> toString 1).
Proof.
  intros p.
  destruct (proj1 (deleteUser_rebuilds_gallery 1 p eq_refl) _ eq_refl)
    as (_ & p' & Hrun & Hnotice & _ & _ & _ & Hgallery).
  exists p'. repeat split; assumption.
Defined.

End ManagementMore.

(** ** The attendance system: sessions, records and the cooldown *)

Module AttendanceMore.
Import Js Ui Attendance AttendanceOps CaptureFacts MoreNotions MonadFacts.
Local Open Scope Z_scope.

Section Capture.
Variable findBestMatch :
  list Engine.LabeledFaceDescriptors -> Q -> Engine.Descriptor -> result Engine.FaceMatch.

Lemma recognizeFaces_records (iso : string) (ds : list Engine.Detection)
    (w : World State) :
  let (r, w') := onEngine (Engine.recognizeFaces findBestMatch iso ds) w in
  self w' = self w /\
  Db.attendanceRecords (Engine.db (env w')) = Db.attendanceRecords (Engine.db (env w)) /\
  (forall rs, r = Ok rs -> w' = w).
Proof.
  destruct w as [[d [init labeled th qth]] slf ts].
  unfold onEngine, zoom, Engine.recognizeFaces, Engine.requireInitialized,
    mbind, gets, tryCatchM, lift, ret, throw; cbn.
  destruct init; cbn; [|frame_done].
  destruct labeled as [|l labeled]; cbn; [frame_done|].
  destruct (Engine.recognizeAll _ _ _ _); cbn; [frame_done|].
  unfold Engine.onDb, zoom, Db.logActivity; cbn.
  cbn; frame_done.
Qed.

Lemma decide_records (now : Z) (iso : string) (users : list Db.User)
    (rs : list Engine.RecognitionResult) (w : World State) :
  let (r, w') := decide now iso users rs w in
  (r = Ok true /\
   self w' = set_lastRecognitionTime now (self w) /\
   exists record,
     Db.attendanceRecords (Engine.db (env w')) =
     Db.attendanceRecords (Engine.db (env w)) ++ [record]) \/
  (r <> Ok true /\ self w' = self w /\
   exists added,
     Db.attendanceRecords (Engine.db (env w')) =
     Db.attendanceRecords (Engine.db (env w)) ++ added /\
     (List.length added <= 1)%nat).
Proof.
  destruct w as [[[init us fds ars logs n1 n2 n3] eng] slf ts].
  unfold decide, mbind, gets; cbn.
  destruct (bestMatch _ rs) as [best|]; cbn.
  2:{ right. split; [discriminate|]. split; [reflexivity|].
      exists []. rewrite app_nil_r. split; [reflexivity|cbn; lia]. }
  unfold onDb, onEngine, Engine.onDb, zoom, Db.addAttendanceRecord, Db.logActivity, mbind; cbn.
  unfold modify; cbn.
  destruct (findUser (Engine.userId best) users); cbn.
  - left. repeat split. eexists. reflexivity.
  - right. split; [discriminate|]. split; [reflexivity|].
    eexists. split; [reflexivity|cbn; lia].
Qed.

Lemma handler_records (w : World State) :
  let (r, w') :=
    mbind (onDb (Db.logActivity "error" "Attendance capture failed"))
      (fun _ => mbind (showToast CaptureFailed) (fun _ => ret false)) w in
  r = Ok false /\ self w' = self w /\
  Db.attendanceRecords (Engine.db (env w')) = Db.attendanceRecords (Engine.db (env w)).
Proof.
  destruct w as [[d eng] slf ts].
  unfold onDb, onEngine, Engine.onDb, zoom, Db.logActivity, mbind, showToast,
    modify, ret; cbn.
  cbn; repeat split; reflexivity.
Qed.

(** What one capture does to the session and to the attendance records. *)
Lemma capture_outcome (now : Z) (iso : string) (w : World State) :
  let (r, w') := captureAttendance findBestMatch now iso w in
  (r = Ok true /\
   self w' = set_lastRecognitionTime now (self w) /\
   isActive (self w) = true /\
   cooldownGate (self w) now = Granted /\
   exists record,
     Db.attendanceRecords (Engine.db (env w')) =
     Db.attendanceRecords (Engine.db (env w)) ++ [record]) \/
  (r = Ok false /\ self w' = self w /\
   exists added,
     Db.attendanceRecords (Engine.db (env w')) =
     Db.attendanceRecords (Engine.db (env w)) ++ added /\
     (List.length added <= 1)%nat).
Proof.
  assert (Hnone : forall l : list Db.AttendanceRecord,
            exists added, l = l ++ added /\ (List.length added <= 1)%nat).
  { intros l. exists []. rewrite app_nil_r. split; [reflexivity|cbn; lia]. }
  unfold captureAttendance. rewrite mbind_run. unfold gets at 1.
  destruct (isActive (self w)) eqn:Hact; cbn [negb orb].
  2:{ cbn. right. repeat split. apply Hnone. }
  destruct (List.length (currentDetections (self w)) =? 0)%nat.
  { cbn. right. repeat split. apply Hnone. }
  destruct (cooldownGate (self w) now) eqn:Hgate.
  2:{ cbn. right. repeat split. apply Hnone. }
  rewrite tryCatchM_run, mbind_run.
  pose proof (getAllUsers_frame w) as Husers.
  destruct (onDb Db.getAllUsers w) as [[users|e] w1]; cbn in Husers; subst w1.
  2:{ pose proof (handler_records w) as H.
      destruct (mbind _ _ w) as [r w']. destruct H as (-> & Hs & Hr).
      right. repeat split; [exact Hs|]. rewrite Hr. apply Hnone. }
  rewrite mbind_run.
  pose proof (recognizeFaces_records iso (currentDetections (self w)) w) as Hrec.
  destruct (onEngine (Engine.recognizeFaces findBestMatch iso
                        (currentDetections (self w))) w) as [[rs|e] w2].
  2:{ destruct Hrec as (Hself & Hrecs & _).
      pose proof (handler_records w2) as H.
      destruct (mbind _ _ w2) as [r w3]. destruct H as (-> & Hs & Hr).
      right. repeat split; [congruence|]. rewrite Hr, Hrecs. apply Hnone. }
  destruct Hrec as (_ & _ & Heq). rewrite (Heq rs eq_refl).
  destruct (List.length rs =? 0)%nat.
  { cbn. right. repeat split. apply Hnone. }
  pose proof (decide_records now iso users rs w) as Hdec.
  destruct (decide now iso users rs w) as [[b|e] w3].
  - destruct Hdec as [(Hb & Hself & Hadd)|(Hb & Hself & Hadd)].
    + left. repeat split; assumption.
    + right. destruct b; [congruence|]. repeat split; assumption.
  - destruct Hdec as [(Hb & _)|(_ & Hself & added & Hadd & Hlen)]; [discriminate|].
    pose proof (handler_records w3) as H.
    destruct (mbind _ _ w3) as [r w4]. destruct H as (-> & Hs & Hr).
    right. repeat split; [congruence|]. exists added. rewrite Hr. split; assumption.
Qed.

(** X16: a capture never removes or rewrites an attendance record: the
    records of before are kept in place, at most one record is added, and
    exactly one when the capture returns true. *)
Theorem capture_only_appends (now : Z) (iso : string) (w : World State) :
  let (r, w') := captureAttendance findBestMatch now iso w in
  exists added,
    Db.attendanceRecords (Engine.db (env w')) =
    Db.attendanceRecords (Engine.db (env w)) ++ added /\
    (List.length added <= 1)%nat /\
    (r = Ok true -> List.length added = 1%nat) /\
    (r = Ok true \/ r = Ok false).
Proof.
  pose proof (capture_outcome now iso w) as H.
  destruct (captureAttendance findBestMatch now iso w) as [r w'].
  destruct H as [(-> & _ & _ & _ & record & Hrec)|(-> & _ & added & Hrec & Hlen)].
  - exists [record]. repeat split; [exact Hrec|cbn; lia|now left].
  - exists added. repeat split; [exact Hrec|exact Hlen|discriminate|now right].
Qed.

(** X17: after a capture that returned true at time [now], every capture
    whose time is less than the cooldown after [now] returns false, records
    nothing and changes nothing but the toasts: one presence gives one
    record. *)
Theorem no_second_record_within_cooldown
    (now now' : Z) (iso iso' : string) (w w1 : World State) :
  captureAttendance findBestMatch now iso w = (Ok true, w1) ->
  now' - now < recognitionCooldown (self w) ->
  exists toast,
    captureAttendance findBestMatch now' iso' w1 =
    (Ok false, mkWorld (env w1) (self w1) (toasts w1 ++ [toast])) /\
    (toast = NoFacesDetected \/
     toast = PleaseWait (remainingSeconds (recognitionCooldown (self w)) now' now)).
Proof.
  intros Hrun Hsoon.
  pose proof (capture_outcome now iso w) as H. rewrite Hrun in H.
  destruct H as [(_ & Hself & Hact & _)|(Hfalse & _)]; [|discriminate].
  destruct w1 as [e1 s1 t1]. cbn in Hself. subst s1.
  destruct (self w) as [act ds last cd]. cbn in Hact, Hsoon. subst act.
  apply Z.ltb_lt in Hsoon.
  unfold captureAttendance. rewrite mbind_run. unfold gets at 1. cbn.
  destruct ds as [|d ds]; cbn.
  - exists NoFacesDetected. split; [reflexivity|now left].
  - unfold cooldownGate. cbn. rewrite Hsoon. cbn.
    eexists. split; [reflexivity|right; reflexivity].
Qed.

(** Without an active session, or without a detected face, a capture is
    refused before anything is looked up. *)
Lemma capture_refused_when_idle (now : Z) (iso : string) (w : World State) :
  isActive (self w) = false \/ currentDetections (self w) = [] ->
  captureAttendance findBestMatch now iso w =
  (Ok false, mkWorld (env w) (self w) (toasts w ++ [NoFacesDetected])).
Proof.
  intros Hidle. unfold captureAttendance. rewrite mbind_run. unfold gets at 1.
  destruct Hidle as [H|H]; rewrite H; cbn; [reflexivity|].
  rewrite orb_true_r. reflexivity.
Qed.

Lemma stop_outcome (w : World State) :
  exists d,
    stop w = (Ok tt, mkWorld (Engine.mkEnv d (Engine.engine (env w)))
                       (set_isActive false (self w)) (toasts w)) /\
    Db.attendanceRecords d = Db.attendanceRecords (Engine.db (env w)) /\
    Db.users d = Db.users (Engine.db (env w)) /\
    Db.faceDescriptors d = Db.faceDescriptors (Engine.db (env w)).
Proof.
  destruct w as [[d eng] slf ts].
  unfold stop, tryCatchM, mbind, modify, onDb, onEngine, Engine.onDb, zoom,
    Db.logActivity; cbn.
  cbn; eexists; repeat split.
Qed.

(** X18: [stop()] never throws and ends the session: it keeps the users,
    the descriptors, the attendance records and the time of the last
    recognition, and every capture after it is refused with the "no faces
    detected" toast, records nothing and returns false. *)
Theorem capture_after_stop (now : Z) (iso : string) (w : World State) :
  let w1 := snd (stop w) in
  fst (stop w) = Ok tt /\
  lastRecognitionTime (self w1) = lastRecognitionTime (self w) /\
  Db.attendanceRecords (Engine.db (env w1)) = Db.attendanceRecords (Engine.db (env w)) /\
  Db.users (Engine.db (env w1)) = Db.users (Engine.db (env w)) /\
  Db.faceDescriptors (Engine.db (env w1)) = Db.faceDescriptors (Engine.db (env w)) /\
  captureAttendance findBestMatch now iso w1 =
  (Ok false, mkWorld (env w1) (self w1) (toasts w1 ++ [NoFacesDetected])).
Proof.
  destruct (stop_outcome w) as (d & Hstop & Hrec & Husers & Hrows).
  cbv zeta. rewrite Hstop. cbn [fst snd env self toasts Engine.db].
  split; [reflexivity|]. split; [reflexivity|]. split; [exact Hrec|].
  split; [exact Husers|]. split; [exact Hrows|].
  match goal with
  | |- captureAttendance _ _ _ ?w1 = _ =>
      exact (capture_refused_when_idle now iso w1 (or_introl eq_refl))
  end.
Qed.

End Capture.

Lemma capture_only_appends_witness :
  let (r, w') :=
    captureAttendance MatcherNotions.alwaysUserOne 1700000000000 "09:00"
      (CooldownNotions.kiosk 0) in
  exists added,
    Db.attendanceRecords (Engine.db (env w')) =
    Db.attendanceRecords (Engine.db (env (CooldownNotions.kiosk 0))) ++ added /\
    (List.length added <= 1)%nat /\
    (r = Ok true -> List.length added = 1%nat) /\
    (r = Ok true \/ r = Ok false).
Proof.
  exact (capture_only_appends MatcherNotions.alwaysUserOne 1700000000000 "09:00"
           (CooldownNotions.kiosk 0)).
Defined.

Lemma no_second_record_within_cooldown_witness :
  let w1 := snd (captureAttendance MatcherNotions.alwaysUserOne 1700000000000 "09:00"
                   (CooldownNotions.kiosk 0)) in
  exists toast,
    captureAttendance MatcherNotions.alwaysUserOne 1700000002999 "09:01" w1 =
    (Ok false, mkWorld (env w1) (self w1) (toasts w1 ++ [toast])) /\
    (toast = NoFacesDetected \/
     toast = PleaseWait (remainingSeconds 3000 1700000002999 1700000000000)).
Proof.
  intros w1.
  refine (no_second_record_within_cooldown MatcherNotions.alwaysUserOne
            1700000000000 1700000002999 "09:00" "09:01" (CooldownNotions.kiosk 0) w1
            _ _).
  - vm_compute. reflexivity.
  - vm_compute. reflexivity.
Defined.

End AttendanceMore.

Module SessionMore.
Import Js Ui Attendance AttendanceOps MoreNotions MonadFacts.
Local Open Scope Z_scope.

Lemma filter_quality (m : Q) (ds : list Engine.Detection) :
  Forall (qualityAtLeast m)
    (filter (fun d => match Engine.calculateFaceQuality d with
                      | Ok q => geb q (Num m)
                      | Throw _ => false
                      end) ds).
Proof.
  apply Forall_forall. intros d Hd. apply filter_In in Hd as [_ Hd].
  apply DetectionMore.geb_qualityAtLeast. exact Hd.
Qed.

(** A tick of the detection loop never throws, and either leaves the session
    alone or replaces the detections by faces of quality 0.3 at least. *)
Lemma detect_outcome (videoReady : bool) (frame : result (list Engine.Detection))
    (w : World State) :
  let (r, w') := detectAndDisplayFaces videoReady frame w in
  r = Ok tt /\
  (self w' = self w \/
   exists kept, self w' = set_currentDetections kept (self w) /\
                Forall (qualityAtLeast 0.3) kept /\
                (forall d, In d kept -> frame <> Ok [] /\ exists ds, frame = Ok ds /\ In d ds)).
Proof.
  destruct w as [[d [init labeled th qth]] slf ts].
  unfold detectAndDisplayFaces. destruct videoReady; cbn [negb]; [|cbn; auto].
  unfold tryCatchM, mbind, onEngine, zoom, Engine.detectFaces,
    Engine.requireInitialized, Engine.truthy, mbind, gets, tryCatchM, lift, modify,
    ret, throw; cbn.
  destruct init; cbn; [|auto].
  destruct frame as [ds|err]; cbn.
  - split; [reflexivity|]. right. eexists. split; [reflexivity|].
    split; [apply filter_quality|].
    intros x Hx. apply filter_In in Hx as [Hx _].
    split; [intros [= ->]; destruct Hx|]. exists ds. auto.
  - unfold Engine.onDb, zoom, Db.logActivity; cbn.
    cbn; auto.
Qed.

Lemma initialize_outcome (elements : bool) (camera : result unit) (w : World State) :
  let (r, w') := initialize elements camera w in
  (r = Ok true /\ elements = true /\ camera = Ok tt /\
   self w' = set_isActive true (self w)) \/
  ((exists e, r = Throw e) /\ self w' = self w).
Proof.
  destruct w as [[d eng] slf ts].
  unfold initialize, tryCatchM, mbind, lift, modify, onDb, onEngine, Engine.onDb, zoom,
    Db.logActivity, ret, throw; cbn.
  destruct elements; cbn.
  - destruct camera as [[]|err]; cbn; cbn;
      first [left; repeat split; reflexivity | right; split; [eauto|reflexivity]].
  - cbn; right; split; eauto.
Qed.

Section Session.
Variable findBestMatch :
  list Engine.LabeledFaceDescriptors -> Q -> Engine.Descriptor -> result Engine.FaceMatch.

Lemma step_detections (op : Op) (w : World State) :
  Forall (qualityAtLeast 0.3) (currentDetections (self w)) ->
  Forall (qualityAtLeast 0.3) (currentDetections (self (step findBestMatch op w))) /\
  recognitionCooldown (self (step findBestMatch op w)) = recognitionCooldown (self w).
Proof.
  intros Hinv. destruct op as [elements camera|videoReady frame|now iso|]; cbn [step].
  - pose proof (initialize_outcome elements camera w) as H.
    destruct (initialize elements camera w) as [r w']. cbn [snd].
    destruct H as [(_ & _ & _ & ->)|(_ & ->)]; split; auto.
  - pose proof (detect_outcome videoReady frame w) as H.
    destruct (detectAndDisplayFaces videoReady frame w) as [r w']. cbn [snd].
    destruct H as (_ & [-> | (kept & -> & Hkept & _)]); split; auto.
  - pose proof (AttendanceMore.capture_outcome findBestMatch now iso w) as H.
    destruct (captureAttendance findBestMatch now iso w) as [r w']. cbn [snd].
    destruct H as [(_ & -> & _)|(_ & -> & _)]; split; auto.
  - destruct (AttendanceMore.stop_outcome w) as (d & -> & _). cbn. split; auto.
Qed.

(** X19: whatever the attendance system goes through (start, ticks of the
    detection loop, captures, stop), the detections a capture works on are
    faces whose quality is a number of at least 0.3, and the cooldown of 3
    seconds is never changed. *)
Theorem current_detections_pass_the_filter (ops : list Op) (w : World State) :
  Forall (qualityAtLeast 0.3) (currentDetections (self w)) ->
  Forall (qualityAtLeast 0.3) (currentDetections (self (run findBestMatch ops w))) /\
  recognitionCooldown (self (run findBestMatch ops w)) = recognitionCooldown (self w).
Proof.
  unfold run. revert w. induction ops as [|op ops IH]; intros w Hinv; cbn;
    [split; [exact Hinv|reflexivity]|].
  destruct (step_detections op w Hinv) as [Hstep Hcool].
  destruct (IH _ Hstep) as [Hrun Hcool']. split; [exact Hrun|congruence].
Qed.

End Session.

Lemma current_detections_pass_the_filter_witness :
  let ops := [Initialize true (Ok tt);
              Detect true (Ok [smallFace; goodFace; Engine.mkDetection None true None []]);
              Capture 1700000000000 "09:00"] in
  let w := mkWorld MatcherNotions.oneUser Attendance.new [] in
  Forall (qualityAtLeast 0.3)
    (currentDetections (self (run MatcherNotions.alwaysUserOne ops w))) /\
  recognitionCooldown (self (run MatcherNotions.alwaysUserOne ops w)) = 3000.
Proof.
  intros ops w.
  apply (current_detections_pass_the_filter MatcherNotions.alwaysUserOne ops w).
  constructor.
Defined.

End SessionMore.

(** ** The lists of recent entries *)

Module RecentMore.
Import Recent.

Lemma removelast_firstn_pred {A : Type} (l : list A) :
  removelast l = firstn (Nat.pred (List.length l)) l.
Proof.
  induction l as [|x l IH]; [reflexivity|].
  destruct l as [|y l]; [reflexivity|].
  change (removelast (x :: y :: l)) with (x :: removelast (y :: l)).
  rewrite IH. reflexivity.
Qed.

Lemma trim_firstn {A : Type} (fuel : nat) (l : list A) :
  (List.length l <= 10 + fuel)%nat -> trim fuel l = firstn 10 l.
Proof.
  revert l. induction fuel as [|fuel IH]; intros l Hlen; cbn [trim].
  - symmetry. apply firstn_all2. lia.
  - destruct (10 <? List.length l)%nat eqn:Hlong.
    + apply Nat.ltb_lt in Hlong. rewrite IH.
      * rewrite removelast_firstn_pred, firstn_firstn. f_equal. lia.
      * rewrite removelast_firstn_pred, length_firstn. lia.
    + apply Nat.ltb_ge in Hlong. symmetry. apply firstn_all2. exact Hlong.
Qed.

(** X20: the lists of recent attendances show the newest entry first and
    at most 10 entries: inserting keeps the 9 most recent of a list that was
    within the limit, in their order, and drops the rest; a list that was
    longer than the limit is cut down to it. *)
Theorem insertRecent_keeps_ten {A : Type} (item : A) (children : list A) :
  insertRecent item children = item :: firstn 9 children /\
  (List.length (insertRecent item children) <= 10)%nat /\
  ((List.length children < 10)%nat -> insertRecent item children = item :: children).
Proof.
  assert (H : insertRecent item children = item :: firstn 9 children).
  { unfold insertRecent. rewrite trim_firstn; [reflexivity|cbn [List.length]; lia]. }
  rewrite H. split; [reflexivity|]. split.
  - cbn [List.length]. rewrite length_firstn. lia.
  - intros Hshort. f_equal. apply firstn_all2. lia.
Qed.

Lemma insertRecent_keeps_ten_witness :
  insertRecent 0 [1; 2; 3] = [0; 1; 2; 3].
Proof.
  apply (proj2 (proj2 (insertRecent_keeps_ten 0 [1; 2; 3]))). cbn. lia.
Defined.

End RecentMore.

(** ** What a block leaves unchanged *)

Module Preserve.
Import Js MoreNotions.

Section Combinators.
Context {S T : Type} (f : S -> T).

Lemma preserves_ret {A : Type} (a : A) : preserves f (ret a).
Proof. intros s. reflexivity. Qed.

Lemma preserves_throw {A : Type} (e : exn) : preserves f (@throw S A e).
Proof. intros s. reflexivity. Qed.

Lemma preserves_lift {A : Type} (r : result A) : preserves f (lift r).
Proof. intros s. reflexivity. Qed.

Lemma preserves_gets {A : Type} (g : S -> A) : preserves f (gets g).
Proof. intros s. reflexivity. Qed.

Lemma preserves_modify (g : S -> S) :
  (forall s, f (g s) = f s) -> preserves f (modify g).
Proof. intros H s. apply H. Qed.

Lemma preserves_mbind {A B : Type} (m : M S A) (k : A -> M S B) :
  preserves f m -> (forall a, preserves f (k a)) -> preserves f (mbind m k).
Proof.
  intros Hm Hk s. unfold mbind. specialize (Hm s).
  destruct (m s) as [[a|e] s']; cbn in *; [|exact Hm].
  rewrite Hk. exact Hm.
Qed.

Lemma preserves_tryCatchM {A : Type} (body : M S A) (handler : exn -> M S A) :
  preserves f body -> (forall e, preserves f (handler e)) ->
  preserves f (tryCatchM body handler).
Proof.
  intros Hm Hk s. unfold tryCatchM. specialize (Hm s).
  destruct (body s) as [[a|e] s']; cbn in *; [exact Hm|].
  rewrite Hk. exact Hm.
Qed.

Lemma preserves_if {A : Type} (c : bool) (m1 m2 : M S A) :
  preserves f m1 -> preserves f m2 -> preserves f (if c then m1 else m2).
Proof. destruct c; auto. Qed.

End Combinators.

Lemma preserves_zoom {S U T A : Type} (proj : S -> U) (upd : U -> S -> S)
    (f : S -> T) (h : U -> T) (m : M U A) :
  (forall s, f s = h (proj s)) -> (forall u s, f (upd u s) = h u) ->
  preserves h m -> preserves f (zoom proj upd m).
Proof.
  intros Hf Hupd Hm s. unfold zoom. specialize (Hm (proj s)).
  destruct (m (proj s)) as [r u]. cbn in *. rewrite Hupd, Hf. exact Hm.
Qed.

End Preserve.

(** ** Enrollment: what a session keeps *)

Module ThresholdMore.
Import Js Ui Enrollment MoreNotions MonadFacts Preserve.
Local Open Scope Z_scope.

Lemma onDb_settings {A : Type} (m : M Db.State A) : preserves settings (Engine.onDb m).
Proof.
  intros e. unfold Engine.onDb, zoom. destruct (m (Engine.db e)). reflexivity.
Qed.

Lemma loadFaceDescriptors_settings : preserves settings Engine.loadFaceDescriptors.
Proof.
  unfold Engine.loadFaceDescriptors.
  repeat first [ apply onDb_settings
               | apply preserves_modify; intros []; reflexivity
               | apply preserves_tryCatchM
               | apply preserves_mbind
               | apply preserves_throw
               | intro ].
Qed.

Lemma requireInitialized_settings : preserves settings Engine.requireInitialized.
Proof.
  intros e. unfold Engine.requireInitialized, mbind, gets.
  destruct (Engine.isInitialized (Engine.engine e)); reflexivity.
Qed.

Lemma enrollFace_settings (userId : Z) (d : Engine.Descriptor) (q : jsnum) (t : string) :
  preserves settings (Engine.enrollFace userId d q t).
Proof.
  unfold Engine.enrollFace.
  repeat first [ apply onDb_settings
               | apply requireInitialized_settings
               | apply loadFaceDescriptors_settings
               | apply preserves_tryCatchM
               | apply preserves_mbind
               | apply preserves_if
               | apply preserves_throw
               | apply preserves_ret
               | intro ].
Qed.

Lemma detectFaces_settings (frame : result (list Engine.Detection)) (mq : option Q) :
  preserves settings (Engine.detectFaces frame mq).
Proof.
  unfold Engine.detectFaces.
  apply preserves_mbind; [apply requireInitialized_settings|intros _].
  apply preserves_tryCatchM.
  - apply preserves_mbind; [apply preserves_lift|intros ds].
    destruct (Engine.truthy mq); apply preserves_ret.
  - intros e. apply preserves_mbind; [apply onDb_settings|intros _; apply preserves_throw].
Qed.

Lemma onEngine_settings {A : Type} (m : M Engine.Env A) :
  preserves settings m -> preserves pageSettings (onEngine m).
Proof.
  intros Hm. apply (preserves_zoom env set_env pageSettings settings);
    [reflexivity|reflexivity|exact Hm].
Qed.

Lemma onDb_pageSettings {A : Type} (m : M Db.State A) : preserves pageSettings (onDb m).
Proof. apply onEngine_settings, onDb_settings. Qed.

Lemma showToast_settings (t : Toast) : preserves pageSettings (showToast t).
Proof. intros w. reflexivity. Qed.

Lemma set_self_settings (g : State -> State) : preserves pageSettings (modify (set_self g)).
Proof. intros w. reflexivity. Qed.

Ltac settings_done :=
  repeat first [ apply onDb_pageSettings
               | apply showToast_settings
               | apply set_self_settings
               | apply onEngine_settings
               | apply enrollFace_settings
               | apply detectFaces_settings
               | apply loadFaceDescriptors_settings
               | apply preserves_tryCatchM
               | apply preserves_mbind
               | apply preserves_if
               | apply preserves_throw
               | apply preserves_ret
               | apply preserves_lift
               | apply preserves_gets
               | intro ].

Lemma enrollSamples_settings (userId : Z) (samples : list Sample) :
  preserves pageSettings (enrollSamples userId samples).
Proof.
  induction samples as [|s samples IH]; cbn; [apply preserves_ret|].
  apply preserves_mbind; [settings_done|intros _; exact IH].
Qed.

Lemma captureResume_settings (frame : result (list Engine.Detection)) (iso : string) :
  preserves pageSettings (captureResume frame iso).
Proof.
  unfold captureResume.
  apply preserves_tryCatchM; [|settings_done].
  apply preserves_mbind; [settings_done|intros ds].
  destruct ds as [|d [|d' ds]]; [settings_done| |settings_done].
  apply preserves_mbind; [apply preserves_gets|intros th].
  apply preserves_mbind; [apply preserves_lift|intros v].
  settings_done.
Qed.

Lemma step_settings (op : Op) (w : World State) :
  pageSettings (step op w) = pageSettings w.
Proof.
  destruct op as [formValid camera|frame iso|form|]; cbn [step].
  - revert w. change (preserves pageSettings (startEnrollment formValid camera)).
    unfold startEnrollment. settings_done.
  - revert w. change (preserves pageSettings (captureEnrollmentSample frame iso)).
    unfold captureEnrollmentSample, captureBegin.
    apply preserves_mbind.
    + apply preserves_mbind; [apply preserves_gets|intros s].
      apply preserves_if; apply preserves_ret.
    + intros go. apply preserves_if; [apply captureResume_settings|apply preserves_ret].
  - revert w. change (preserves pageSettings (completeEnrollment form)).
    unfold completeEnrollment.
    apply preserves_mbind; [apply preserves_gets|intros s].
    apply preserves_if; [settings_done|].
    apply preserves_tryCatchM; [|settings_done].
    apply preserves_mbind; [settings_done|intros users].
    apply preserves_mbind; [settings_done|intros _].
    apply preserves_mbind; [settings_done|intros uid].
    apply preserves_mbind; [apply enrollSamples_settings|intros _].
    unfold stopEnrollment, loadUserTable. settings_done.
  - revert w. change (preserves pageSettings stopEnrollment).
    unfold stopEnrollment. settings_done.
Qed.

End ThresholdMore.

Module SessionFacts.
Import Js Ui Enrollment EnrollmentNotions MoreNotions MonadFacts EnrollmentFacts.
Local Open Scope Z_scope.

Lemma validation_valid (threshold : Q) (d : Engine.Detection) (v : Engine.Validation) :
  Engine.validateEnrollmentQuality threshold d = Ok v ->
  Engine.isValid v = geb (Engine.validationQuality v) (Num threshold).
Proof.
  unfold Engine.validateEnrollmentQuality.
  destruct (Engine.calculateFaceQuality d) as [q|err]; cbn; [|discriminate].
  destruct (ltb q (Num threshold)).
  - destruct (Engine.detection d) as [fd|]; cbn; [|discriminate].
    destruct (Engine.box fd) as [b|]; cbn; [|discriminate].
    intros [= <-]. reflexivity.
  - intros [= <-]. reflexivity.
Qed.

(** What the resumed part of a capture does: nothing to the session, or one
    validated sample, whatever the session is by then. *)
Lemma resume_outcome (frame : result (list Engine.Detection)) (iso : string)
    (w : World State) :
  let (r, w') := captureResume frame iso w in
  (r = Ok false /\ self w' = self w) \/
  (r = Ok true /\ env w' = env w /\
   exists d v,
     frame = Ok [d] /\
     Engine.validateEnrollmentQuality
       (Engine.qualityThreshold (Engine.engine (env w))) d = Ok v /\
     Engine.isValid v = true /\
     self w' = set_enrollmentSamples
                 (fun l => l ++ [mkSample (Engine.descriptor d)
                                          (Engine.validationQuality v) iso]) (self w) /\
     toasts w' = toasts w ++
       [SampleCaptured (sampleCount (self w) + 1) (requiredSamples (self w))]).
Proof.
  unfold captureResume. rewrite tryCatchM_run, mbind_run.
  pose proof (onEngine_frame (Engine.detectFaces frame None) w) as [Hself Htoasts].
  pose proof (detectFaces_frame frame None (env w)) as Hdet.
  unfold onEngine, zoom in *.
  destruct (Engine.detectFaces frame None (env w)) as [[ds|err] e']; cbn in Hself, Htoasts;
    [|left; cbn; split; [reflexivity|exact Hself]].
  destruct (Hdet ds eq_refl) as (-> & _ & Hframe). specialize (Hframe eq_refl).
  destruct w as [e slf ts]. cbn in *.
  destruct ds as [|d [|d' ds]]; cbn;
    [left; split; reflexivity| |left; split; reflexivity].
  unfold mbind, gets, lift; cbn.
  destruct (Engine.validateEnrollmentQuality _ d) as [v|err] eqn:Hv; cbn;
    [|left; split; reflexivity].
  destruct (Engine.isValid v) eqn:Hvalid; cbn; [|left; split; reflexivity].
  right. split; [reflexivity|]. split; [reflexivity|].
  exists d, v. repeat split; try assumption.
  unfold sampleCount. cbn. rewrite length_app. cbn.
  do 3 f_equal. lia.
Qed.

(** What a capture does: nothing to the session, or one validated sample. *)
Lemma capture_sample_outcome (frame : result (list Engine.Detection)) (iso : string)
    (w : World State) :
  let (r, w') := captureEnrollmentSample frame iso w in
  (r = Ok false /\ self w' = self w) \/
  (r = Ok true /\ collecting (self w) = true /\ env w' = env w /\
   exists d v,
     frame = Ok [d] /\
     Engine.validateEnrollmentQuality
       (Engine.qualityThreshold (Engine.engine (env w))) d = Ok v /\
     Engine.isValid v = true /\
     self w' = set_enrollmentSamples
                 (fun l => l ++ [mkSample (Engine.descriptor d)
                                          (Engine.validationQuality v) iso]) (self w) /\
     toasts w' = toasts w ++
       [SampleCaptured (sampleCount (self w) + 1) (requiredSamples (self w))]).
Proof.
  rewrite captureEnrollmentSample_run. unfold collecting.
  destruct (isEnrolling (self w)) eqn:Henr; cbn [negb orb andb];
    [|left; split; reflexivity].
  rewrite Z.leb_antisym.
  destruct (sampleCount (self w) <? requiredSamples (self w)) eqn:Hroom; cbn [negb];
    [|left; split; reflexivity].
  pose proof (resume_outcome frame iso w) as H.
  destruct (captureResume frame iso w) as [r w'].
  destruct H as [H|(Hr & Henv & H)]; [left; exact H|right].
  split; [exact Hr|]. split; [reflexivity|]. split; [exact Henv|exact H].
Qed.

(** X21: while a session is collecting, a frame on which the detector finds
    more than one face is refused with the "multiple faces" warning: false is
    returned and neither the session nor the engine changes. *)
Theorem capture_with_several_faces
    (frame : result (list Engine.Detection)) (iso : string) (w : World State)
    (d1 d2 : Engine.Detection) (ds : list Engine.Detection) :
  collecting (self w) = true ->
  fst (Engine.detectFaces frame None (env w)) = Ok (d1 :: d2 :: ds) ->
  captureEnrollmentSample frame iso w =
  (Ok false, mkWorld (env w) (self w) (toasts w ++ [MultipleFacesDetected])).
Proof.
  intros Hcol Hdet. unfold collecting in Hcol.
  apply andb_true_iff in Hcol as [Henr Hroom].
  pose proof (detectFaces_frame frame None (env w)) as Hframe.
  rewrite captureEnrollmentSample_run.
  rewrite Henr, Z.leb_antisym, Hroom. cbn [negb orb].
  unfold captureResume. rewrite tryCatchM_run, mbind_run. unfold onEngine, zoom.
  destruct (Engine.detectFaces frame None (env w)) as [r e'].
  cbn in Hdet. subst r. destruct (Hframe _ eq_refl) as (-> & _).
  destruct w as [e slf ts]. reflexivity.
Qed.

Lemma capture_with_several_faces_witness :
  captureEnrollmentSample (Ok [goodFace; goodFace]) "09:00" (session 2) =
  (Ok false,
   mkWorld (env (session 2)) (self (session 2))
     (toasts (session 2) ++ [MultipleFacesDetected])).
Proof.
  apply (capture_with_several_faces (Ok [goodFace; goodFace]) "09:00" (session 2)
           goodFace goodFace []); reflexivity.
Defined.

Lemma settings_threshold (w w' : World State) :
  pageSettings w' = pageSettings w ->
  Engine.qualityThreshold (Engine.engine (env w')) =
  Engine.qualityThreshold (Engine.engine (env w)).
Proof. unfold pageSettings, settings. intros [= _ _ H]. exact H. Qed.

Lemma step_validated (op : Op) (w : World State) :
  validated w -> validated (step op w).
Proof.
  intros Hv. unfold validated in *.
  rewrite (settings_threshold _ _ (ThresholdMore.step_settings op w)).
  destruct op as [formValid camera|frame iso|form|]; cbn [step].
  - destruct (startEnrollment_self formValid camera w) as [-> | ->];
      [exact Hv|constructor].
  - pose proof (capture_sample_outcome frame iso w) as H.
    destruct (captureEnrollmentSample frame iso w) as [r w']. cbn [snd].
    destruct H as [(_ & ->)|(_ & _ & _ & d & v & _ & Hval & Hvalid & -> & _)];
      [exact Hv|].
    cbn. apply Forall_app. split; [exact Hv|]. constructor; [|constructor].
    cbn. rewrite <- (validation_valid _ _ _ Hval). exact Hvalid.
  - pose proof (completeEnrollment_self form w) as H.
    destruct (completeEnrollment form w) as [r w']. cbn [snd].
    destruct H as [-> | ->]; [exact Hv|constructor].
  - cbn. constructor.
Qed.

(** X22: whatever enrollment operations are run, every sample a session
    holds was validated: its quality is a number of at least the quality
    threshold of the engine, which no enrollment operation changes (nor the
    recognition threshold, nor the initialization of the engine). *)
Theorem samples_are_validated (ops : list Op) (w : World State) :
  validated w ->
  validated (run ops w) /\ pageSettings (run ops w) = pageSettings w.
Proof.
  unfold run. revert w. induction ops as [|op ops IH]; intros w Hv; cbn;
    [split; [exact Hv|reflexivity]|].
  destruct (IH (step op w) (step_validated op w Hv)) as [Hrun Hset].
  split; [exact Hrun|]. rewrite Hset. apply ThresholdMore.step_settings.
Qed.

Lemma samples_are_validated_witness :
  let ops := [StartEnrollment true (Ok tt);
              CaptureEnrollmentSample (Ok [goodFace]) "09:00";
              CaptureEnrollmentSample (Ok [smallFace]) "09:01"] in
  let w := mkWorld MatcherNotions.emptyGallery Enrollment.new [] in
  validated (run ops w) /\ pageSettings (run ops w) = pageSettings w.
Proof.
  intros ops w. apply (samples_are_validated ops w). constructor.
Defined.

(** The same when captures overlap: a capture that resumes only stores a
    sample that it has validated. *)
Lemma react_validated (ev : Event) (p : Page) :
  validated (world p) -> validated (world (react ev p)).
Proof.
  intros Hv. destruct p as [w k]. cbn [world] in Hv.
  destruct ev as [op| |frame iso]; cbn [react world inFlight].
  - apply step_validated. exact Hv.
  - unfold captureBegin, mbind, gets, ret.
    destruct (negb (isEnrolling (self w)) || _); exact Hv.
  - destruct k as [|k]; [exact Hv|]. cbn [world snd]. unfold validated in *.
    rewrite (settings_threshold _ _ (ThresholdMore.captureResume_settings frame iso w)).
    pose proof (resume_outcome frame iso w) as H.
    destruct (captureResume frame iso w) as [r w']. cbn [snd].
    destruct H as [(_ & ->)|(_ & _ & d & v & _ & Hval & Hvalid & -> & _)];
      [exact Hv|].
    cbn. apply Forall_app. split; [exact Hv|]. constructor; [|constructor].
    cbn. rewrite <- (validation_valid _ _ _ Hval). exact Hvalid.
Qed.

Lemma play_validated (evs : list Event) (p : Page) :
  validated (world p) -> validated (world (play evs p)).
Proof.
  unfold play. revert p. induction evs as [|ev evs IH]; intros p Hv; cbn;
    [exact Hv|].
  apply IH, react_validated, Hv.
Qed.

(** In the witness the good face is stored and the small one is not. *)
Example good_face_stored_small_face_refused :
  let ops := [StartEnrollment true (Ok tt);
              CaptureEnrollmentSample (Ok [goodFace]) "09:00";
              CaptureEnrollmentSample (Ok [smallFace]) "09:01"] in
  let w := mkWorld MatcherNotions.emptyGallery Enrollment.new [] in
  sampleCount (self (run ops w)) = 1 /\
  toasts (run ops w) = [EnrollmentStarted; SampleCaptured 1 5; SampleQualityTooLow []].
Proof. vm_compute. split; reflexivity. Qed.

Lemma step_idleIsEmpty (op : Op) (w : World State) :
  idleIsEmpty (self w) -> idleIsEmpty (self (step op w)).
Proof.
  intros Hidle. unfold idleIsEmpty in *.
  destruct op as [formValid camera|frame iso|form|]; cbn [step].
  - destruct (startEnrollment_self formValid camera w) as [-> | ->];
      [exact Hidle|discriminate].
  - pose proof (captureEnrollmentSample_self frame iso w) as H.
    destruct (captureEnrollmentSample frame iso w) as [r w']. cbn [snd].
    destruct H as [(_ & ->)|(_ & Henr & _ & x & ->)]; [exact Hidle|].
    cbn. congruence.
  - pose proof (completeEnrollment_self form w) as H.
    destruct (completeEnrollment form w) as [r w']. cbn [snd].
    destruct H as [-> | ->]; [exact Hidle|reflexivity].
  - cbn. reflexivity.
Qed.

Lemma react_orderly (required : Z) (ev : Event) (p : Page) :
  0 <= required ->
  match ev with
  | CaptureResumes _ _ => true
  | _ => (inFlight p =? 0)%nat
  end = true ->
  orderly required p -> orderly required (react ev p).
Proof.
  intros Hpos Hok (Hb & Hidle & Hfly). destruct p as [w k]. cbn in *.
  destruct ev as [op| |frame iso]; cbn [react world inFlight].
  - apply Nat.eqb_eq in Hok. subst k.
    split; [apply EnrollmentClaims.step_bounded; assumption|].
    split; [apply step_idleIsEmpty; exact Hidle|left; reflexivity].
  - apply Nat.eqb_eq in Hok. subst k.
    unfold captureBegin, mbind, gets, ret.
    destruct (isEnrolling (self w)) eqn:Henr; cbn [negb orb];
      [|split; [exact Hb|split; [exact Hidle|left; reflexivity]]].
    destruct (requiredSamples (self w) <=? sampleCount (self w)) eqn:Hfull;
      unfold orderly; cbn [world inFlight];
      (split; [exact Hb|split; [exact Hidle|]]); [left; reflexivity|right].
    apply Z.leb_gt in Hfull. destruct Hb as [Hreq _].
    split; [reflexivity|]. split; [exact Henr|]. rewrite <- Hreq. exact Hfull.
  - destruct k as [|k]; [split; [exact Hb|split; [exact Hidle|exact Hfly]]|].
    destruct Hfly as [Hfly|(Hfly & Henr & Hroom)]; [discriminate|].
    injection Hfly as ->.
    unfold orderly. cbn [world inFlight snd].
    pose proof (resume_outcome frame iso w) as H.
    destruct (captureResume frame iso w) as [r w']. cbn [snd].
    destruct H as [(_ & ->)|(_ & _ & d & v & _ & _ & _ & -> & _)].
    + split; [exact Hb|split; [exact Hidle|left; reflexivity]].
    + destruct Hb as [Hreq Hle]. split; [|split; [|left; reflexivity]].
      * split; [exact Hreq|]. rewrite EnrollmentClaims.sampleCount_snoc. lia.
      * unfold idleIsEmpty. cbn. congruence.
Qed.

(** X23: when the operations of a session do not overlap (an operation or a
    capture only starts when no capture waits for the detector), the session
    never holds more than [requiredSamples] samples, [requiredSamples] does
    not change, and a session that is not enrolling holds no sample. *)
Theorem serial_session_within_bounds (evs : list Event) (p : Page) :
  inFlight p = 0%nat ->
  0 <= requiredSamples (self (world p)) ->
  sampleCount (self (world p)) <= requiredSamples (self (world p)) ->
  idleIsEmpty (self (world p)) ->
  serial evs p = true ->
  requiredSamples (self (world (play evs p))) = requiredSamples (self (world p)) /\
  sampleCount (self (world (play evs p))) <= requiredSamples (self (world p)) /\
  idleIsEmpty (self (world (play evs p))).
Proof.
  intros Hfly Hpos Hle Hidle Hserial.
  set (required := requiredSamples (self (world p))) in *.
  assert (Hstart : orderly required p).
  { split; [split; [reflexivity|exact Hle]|split; [exact Hidle|left; exact Hfly]]. }
  clear Hfly Hle Hidle.
  assert (Hend : orderly required (play evs p)).
  { clearbody required. unfold play. revert p Hserial Hstart.
    induction evs as [|ev evs IH]; intros p Hserial Hstart; [exact Hstart|].
    cbn [serial] in Hserial. apply andb_true_iff in Hserial as [Hok Hrest].
    cbn [fold_left]. apply IH; [exact Hrest|].
    apply react_orderly; assumption. }
  destruct Hend as ((Hreq & Hcount) & Hidle & _).
  split; [exact Hreq|]. split; [exact Hcount|exact Hidle].
Qed.

Lemma serial_session_within_bounds_witness :
  let evs := [Call (StartEnrollment true (Ok tt));
              CaptureBegins; CaptureResumes (Ok [goodFace]) "09:00";
              CaptureBegins; CaptureResumes (Ok [goodFace]) "09:01";
              Call StopEnrollment] in
  let p := mkPage (mkWorld MatcherNotions.emptyGallery Enrollment.new []) 0 in
  sampleCount (self (world (play evs p))) <= 5.
Proof.
  intros evs p.
  refine (proj1 (proj2 (serial_session_within_bounds evs p eq_refl _ _ _ eq_refl))).
  - vm_compute. discriminate.
  - vm_compute. discriminate.
  - intros _. reflexivity.
Defined.

(** With a capture in flight it is otherwise: the capture does not look at
    the session again when the detector answers, and stores its sample in a
    session that was stopped in between. *)
Example sample_stored_in_a_stopped_session :
  let evs := [Call (StartEnrollment true (Ok tt));
              CaptureBegins; Call StopEnrollment;
              CaptureResumes (Ok [goodFace]) "09:00"] in
  let p := mkPage (mkWorld MatcherNotions.emptyGallery Enrollment.new []) 0 in
  serial evs p = false /\
  isEnrolling (self (world (play evs p))) = false /\
  sampleCount (self (world (play evs p))) = 1.
Proof. vm_compute. repeat split. Qed.

(** X24: [startEnrollment] opens a session exactly when the engine is
    initialized, the form is valid and the camera opens: it then returns
    true and the session is enrolling with no sample; otherwise it returns
    false and the session is as before.  The engine and the database are
    never touched. *)
Theorem startEnrollment_outcome (formValid : bool) (camera : result unit)
    (w : World State) :
  let (r, w') := startEnrollment formValid camera w in
  env w' = env w /\
  ((Engine.isInitialized (Engine.engine (env w)) = true /\ formValid = true /\
    camera = Ok tt /\
    r = Ok true /\ self w' = mkState [] true (requiredSamples (self w)) /\
    toasts w' = toasts w ++ [EnrollmentStarted]) \/
   ((Engine.isInitialized (Engine.engine (env w)) = false \/ formValid = false \/
     exists e, camera = Throw e) /\
    r = Ok false /\ self w' = self w)).
Proof.
  destruct w as [[d [init labeled th qth]] slf ts].
  unfold startEnrollment, tryCatchM, mbind, gets, lift, modify, showToast, ret, throw;
    cbn.
  destruct init; cbn; [|split; [reflexivity|right; auto]].
  destruct formValid; cbn; [|split; [reflexivity|right; auto]].
  destruct camera as [[]|e]; cbn; split; try reflexivity.
  - left. repeat split.
  - right. split; [right; right; eauto|split; reflexivity].
Qed.

End SessionFacts.

(** ** Enrollment: completing a session *)

Module CompletionMore.
Import Js Ui Enrollment EnrollmentNotions MoreNotions MonadFacts.
Local Open Scope Z_scope.

(** One run of [enrollFace] on initialized stores. *)
Lemma enrollFace_run (userId : Z) (faceDescriptor : Engine.Descriptor)
    (quality : jsnum) (timestamp : string)
    (us : list Db.User) (rows : list Db.FaceData) (ars : list Db.AttendanceRecord)
    (logs : list (string * string)) (n1 n2 n3 : Z)
    (labeled : list Engine.LabeledFaceDescriptors) (th qth : Q) :
  List.length faceDescriptor = 128%nat ->
  exists logs',
    Engine.enrollFace userId faceDescriptor quality timestamp
      (Engine.mkEnv (Db.mkState true us rows ars logs n1 n2 n3)
                    (Engine.mkState true labeled th qth)) =
    (Ok n2,
     Engine.mkEnv
       (Db.mkState true us
          (rows ++ [Db.mkFaceData n2 userId faceDescriptor quality timestamp])
          ars logs' n1 (n2 + 1) n3)
       (Engine.mkState true
          (Engine.labelUsers
             (rows ++ [Db.mkFaceData n2 userId faceDescriptor quality timestamp]) us)
          th qth)).
Proof.
  intros Hlen. apply Nat.eqb_eq in Hlen.
  unfold Engine.enrollFace, Engine.requireInitialized, mbind, gets, tryCatchM, ret,
    throw; cbn.
  rewrite Hlen. cbn.
  unfold Engine.onDb, zoom, Db.addFaceDescriptor, Db.logActivity, mbind, gets,
    modify, ret; cbn.
  unfold Engine.loadFaceDescriptors, tryCatchM, Engine.onDb, zoom,
    Db.getFaceDescriptors, Db.getAllUsers, mbind, gets, modify; cbn.
  eexists. reflexivity.
Qed.

Lemma rowsFor_length (userId first : Z) (samples : list Sample) :
  List.length (rowsFor userId first samples) = List.length samples.
Proof.
  revert first. induction samples as [|s samples IH]; intros first; cbn; auto.
Qed.

(** The loop over the samples, on initialized stores. *)
Lemma enrollSamples_run (userId : Z) (samples : list Sample)
    (us : list Db.User) (rows : list Db.FaceData) (ars : list Db.AttendanceRecord)
    (logs : list (string * string)) (n1 n2 n3 : Z)
    (labeled : list Engine.LabeledFaceDescriptors) (th qth : Q)
    (slf : State) (ts : list Toast) :
  Forall (fun s => List.length (descriptor s) = 128%nat) samples ->
  exists logs',
    enrollSamples userId samples
      (mkWorld (Engine.mkEnv (Db.mkState true us rows ars logs n1 n2 n3)
                             (Engine.mkState true labeled th qth)) slf ts) =
    (Ok tt,
     mkWorld
       (Engine.mkEnv
          (Db.mkState true us (rows ++ rowsFor userId n2 samples) ars logs' n1
             (n2 + Z.of_nat (List.length samples)) n3)
          (Engine.mkState true
             (match samples with
              | [] => labeled
              | _ :: _ => Engine.labelUsers (rows ++ rowsFor userId n2 samples) us
              end) th qth))
       slf ts).
Proof.
  intros Hall. revert rows logs n2 labeled.
  induction Hall as [|s samples Hs _ IH]; intros rows logs n2 labeled.
  - cbn. exists logs. rewrite app_nil_r, Z.add_0_r. reflexivity.
  - cbn [enrollSamples]. rewrite mbind_run.
    destruct (enrollFace_run userId (descriptor s) (quality s) (timestamp s)
                us rows ars logs n1 n2 n3 labeled th qth Hs) as (logs1 & Hone).
    unfold onEngine, zoom. cbn [env]. rewrite Hone. cbn [set_env self toasts].
    destruct (IH (rows ++ [Db.mkFaceData n2 userId (descriptor s) (quality s)
                            (timestamp s)]) logs1 (n2 + 1)
                 (Engine.labelUsers
                    (rows ++ [Db.mkFaceData n2 userId (descriptor s) (quality s)
                                (timestamp s)]) us)) as (logs2 & Hrest).
    exists logs2. unfold set_env. cbn [env self toasts]. rewrite Hrest.
    cbn [rowsFor List.length]. rewrite <- !app_assoc. cbn [app].
    replace (n2 + 1 + Z.of_nat (List.length samples))
      with (n2 + Z.of_nat (S (List.length samples))) by lia.
    destruct samples; reflexivity.
Qed.

Lemma rowsFor_own (userId first : Z) (samples : list Sample) :
  filter (fun d => Db.faceUserId d =? userId) (rowsFor userId first samples) =
  rowsFor userId first samples.
Proof.
  revert first. induction samples as [|s samples IH]; intros first; [reflexivity|].
  cbn [rowsFor filter Db.faceUserId]. rewrite Z.eqb_refl. f_equal. apply IH.
Qed.

Lemma rowsFor_descriptors (userId first : Z) (samples : list Sample) :
  map Db.faceDescriptor (rowsFor userId first samples) = map descriptor samples.
Proof.
  revert first. induction samples as [|s samples IH]; intros first; [reflexivity|].
  cbn. now rewrite IH.
Qed.

Lemma rowsOf_new_user (userId first : Z) (samples : list Sample)
    (rows : list Db.FaceData) (user : Db.User) :
  Db.id user = userId ->
  Forall (fun r => Db.faceUserId r <> userId) rows ->
  map Db.faceDescriptor (rowsOf (rows ++ rowsFor userId first samples) user) =
  map descriptor samples.
Proof.
  intros <- Hfresh. unfold rowsOf. rewrite filter_app.
  assert (Hold : filter (fun d => Db.faceUserId d =? Db.id user) rows = []).
  { induction Hfresh as [|r rows Hr _ IH]; cbn; [reflexivity|].
    apply Z.eqb_neq in Hr. rewrite Hr. exact IH. }
  rewrite Hold. cbn [app]. rewrite rowsFor_own. apply rowsFor_descriptors.
Qed.

(** X25: completing a full session on initialized stores, with an email
    that is not stored yet and samples whose descriptors have 128 numbers,
    returns true: one user is appended under the next user id, one row per
    sample is appended under that id, the session is closed and emptied, and
    the gallery is rebuilt from the rows.  If no older row carries the new
    id, the gallery then has an entry labelled with it that holds exactly the
    descriptors of the samples, in their order, and no other entry under
    that label. *)
Theorem completeEnrollment_enrolls (form : Db.UserData) (w : World State) :
  let s := self w in
  let db := Engine.db (env w) in
  let userId := Db.nextUserId db in
  let user :=
    Db.mkUser userId (Db.userName form) (Db.userEmail form) (Db.userDepartment form)
      (if String.eqb (Db.userRole form) "" then "Employee"%string else Db.userRole form)
      0 None in
  0 < requiredSamples s -> requiredSamples s <= sampleCount s ->
  Engine.isInitialized (Engine.engine (env w)) = true ->
  Db.isInitialized db = true ->
  existsb (fun u => String.eqb (Db.email u) (Db.userEmail form)) (Db.users db) = false ->
  Forall (fun x => List.length (descriptor x) = 128%nat) (enrollmentSamples s) ->
  exists w',
    completeEnrollment form w = (Ok true, w') /\
    self w' = mkState [] false (requiredSamples s) /\
    toasts w' = toasts w ++ [UserEnrolled (Db.userName form)] /\
    Db.users (Engine.db (env w')) = Db.users db ++ [user] /\
    Db.faceDescriptors (Engine.db (env w')) =
      Db.faceDescriptors db ++
      rowsFor userId (Db.nextFaceDescriptorId db) (enrollmentSamples s) /\
    Db.attendanceRecords (Engine.db (env w')) = Db.attendanceRecords db /\
    Engine.labeledDescriptors (Engine.engine (env w')) =
      Engine.labelUsers (Db.faceDescriptors (Engine.db (env w')))
        (Db.users (Engine.db (env w'))) /\
    (Forall (fun r => Db.faceUserId r <> userId) (Db.faceDescriptors db) ->
     In (Engine.mkLabeled (Engine.toString userId)
           (map descriptor (enrollmentSamples s)))
        (Engine.labeledDescriptors (Engine.engine (env w'))) /\
     forall l, In l (Engine.labeledDescriptors (Engine.engine (env w'))) ->
               Engine.label l = Engine.toString userId ->
               Engine.descriptors l = map descriptor (enrollmentSamples s)).
Proof.
  destruct w as [[[dinit us rows ars logs n1 n2 n3] [init labeled th qth]]
                   [samples enrolling required] ts].
  cbv zeta.
  cbn [self env toasts Engine.db Engine.engine Db.nextUserId Db.users Db.isInitialized
       Engine.isInitialized Db.faceDescriptors Db.attendanceRecords
       Db.nextFaceDescriptorId requiredSamples enrollmentSamples].
  intros Hreq Hfull -> -> Hemail Hall.
  assert (Hne : samples <> []).
  { intros ->. unfold sampleCount in Hfull. cbn in Hfull. lia. }
  unfold completeEnrollment. rewrite mbind_run. unfold gets at 1. cbn [self requiredSamples].
  apply Z.ltb_ge in Hfull. rewrite Hfull.
  unfold tryCatchM, onDb, onEngine, Engine.onDb, zoom, Db.getAllUsers, Db.addUser, Db.logActivity, gets, modify, ret, throw, mbind.
  cbn. rewrite Hemail.
  unfold set_env, set_self, Engine.set_db, Db.set_systemLogs, Db.set_users,
    Db.set_nextUserId. cbn.
  destruct (enrollSamples_run n1 samples
              (us ++ [Db.mkUser n1 (Db.userName form) (Db.userEmail form)
                        (Db.userDepartment form)
                        (if String.eqb (Db.userRole form) "" then "Employee"%string
                         else Db.userRole form) 0 None])
              rows ars (logs ++ [("info", "User added")]%string) (n1 + 1) n2 n3
              labeled th qth (mkState samples enrolling required) ts Hall)
    as (logs' & Hloop).
  rewrite Hloop.
  unfold loadUserTable, tryCatchM, showToast, onDb, onEngine, Engine.onDb, zoom,
    Db.getAllUsers, set_enrollmentSamples, set_isEnrolling, set_env, set_self,
    Engine.set_db, mbind, gets, modify, ret. cbn.
  destruct samples as [|s0 samples]; [congruence|].
  eexists. split; [reflexivity|]. cbn [env self toasts Engine.db Engine.engine
    Db.users Db.faceDescriptors Db.attendanceRecords Engine.labeledDescriptors].
  repeat (split; [reflexivity|]).
  intros Hfresh.
  pose (u := Db.mkUser n1 (Db.userName form) (Db.userEmail form)
               (Db.userDepartment form)
               (if String.eqb (Db.userRole form) "" then "Employee"%string
                else Db.userRole form) 0 None).
  pose proof (rowsOf_new_user n1 n2 (s0 :: samples) rows u eq_refl Hfresh) as Hrows.
  split.
  - apply GalleryMore.labelUsers_entries. exists u. split.
    + apply in_or_app. right. left. reflexivity.
    + split.
      * intros Hnil. rewrite Hnil in Hrows. discriminate.
      * rewrite Hrows. reflexivity.
  - intros l Hl Hlabel. apply GalleryMore.labelUsers_entries in Hl.
    destruct Hl as (v & _ & _ & ->). cbn in Hlabel |- *.
    apply GalleryMore.toString_injective in Hlabel.
    apply (rowsOf_new_user n1 n2 (s0 :: samples) rows v Hlabel Hfresh).
Qed.

Lemma completeEnrollment_enrolls_witness :
  let form := Db.mkUserData "Bob" "bob@example.org" "Ops" "" in
  let w := mkWorld MatcherNotions.oneUser
             (mkState (repeat (mkSample descriptor128 (Num 0.9) "09:00") 5) true 5) [] in
  exists w',
    completeEnrollment form w = (Ok true, w') /\
    Db.users (Engine.db (env w')) =
      Db.users (Engine.db (env w)) ++
      [Db.mkUser 2 "Bob" "bob@example.org" "Ops" "Employee" 0 None].
Proof.
  intros form w.
  assert (Hall : Forall (fun x => List.length (descriptor x) = 128%nat)
                   (enrollmentSamples (self w))).
  { repeat constructor. }
  destruct (completeEnrollment_enrolls form w eq_refl
              ltac:(vm_compute; discriminate) eq_refl eq_refl eq_refl Hall)
    as (w' & Hrun & _ & _ & Husers & _).
  exists w'. split; [exact Hrun|exact Husers].
Defined.

Lemma addFaceDescriptor_roster (userId : Z) (d : list Q) (q : jsnum) (t : string) :
  preserves roster (Db.addFaceDescriptor userId d q t).
Proof. intros [[] us rows ars logs n1 n2 n3]; reflexivity. Qed.

Lemma logActivity_roster (level msg : string) : preserves roster (Db.logActivity level msg).
Proof. intros [[] us rows ars logs n1 n2 n3]; reflexivity. Qed.

Lemma getFaceDescriptors_roster : preserves roster Db.getFaceDescriptors.
Proof. intros [[] us rows ars logs n1 n2 n3]; reflexivity. Qed.

Lemma getAllUsers_roster : preserves roster Db.getAllUsers.
Proof. intros [[] us rows ars logs n1 n2 n3]; reflexivity. Qed.

Lemma onDb_roster {A : Type} (m : M Db.State A) :
  preserves roster m -> preserves engineRoster (Engine.onDb m).
Proof.
  intros Hm. apply (Preserve.preserves_zoom Engine.db Engine.set_db engineRoster roster);
    [reflexivity|reflexivity|exact Hm].
Qed.

Lemma enrollFace_roster (userId : Z) (d : Engine.Descriptor) (q : jsnum) (t : string) :
  preserves engineRoster (Engine.enrollFace userId d q t).
Proof.
  unfold Engine.enrollFace, Engine.loadFaceDescriptors, Engine.requireInitialized.
  repeat first [ apply onDb_roster
               | apply addFaceDescriptor_roster
               | apply logActivity_roster
               | apply getFaceDescriptors_roster
               | apply getAllUsers_roster
               | apply Preserve.preserves_modify; intros []; reflexivity
               | apply Preserve.preserves_tryCatchM
               | apply Preserve.preserves_mbind
               | apply Preserve.preserves_if
               | apply Preserve.preserves_throw
               | apply Preserve.preserves_ret
               | apply Preserve.preserves_gets
               | intro ].
Qed.

Lemma enrollSamples_roster (userId : Z) (samples : list Sample) :
  preserves pageRoster (enrollSamples userId samples).
Proof.
  induction samples as [|s samples IH]; cbn; [apply Preserve.preserves_ret|].
  apply Preserve.preserves_mbind; [|intros _; exact IH].
  apply (Preserve.preserves_zoom env set_env pageRoster engineRoster);
    [reflexivity|reflexivity|apply enrollFace_roster].
Qed.

(** X26: completing a full session with an email that a stored user
    already has returns false and enrolls nobody: the users, the rows and
    the gallery are as before, the session stays open with all its samples,
    and the failure is shown with the message of the refusal. *)
Theorem completeEnrollment_duplicate_email (form : Db.UserData) (w : World State) :
  let s := self w in
  let db := Engine.db (env w) in
  requiredSamples s <= sampleCount s ->
  Db.isInitialized db = true ->
  existsb (fun u => String.eqb (Db.email u) (Db.userEmail form)) (Db.users db) = true ->
  exists w',
    completeEnrollment form w = (Ok false, w') /\
    self w' = s /\
    toasts w' = toasts w ++ [EnrollmentFailed "Email already exists in the system"] /\
    Db.users (Engine.db (env w')) = Db.users db /\
    Db.faceDescriptors (Engine.db (env w')) = Db.faceDescriptors db /\
    Db.nextUserId (Engine.db (env w')) = Db.nextUserId db /\
    Engine.engine (env w') = Engine.engine (env w).
Proof.
  destruct w as [[[dinit us rows ars logs n1 n2 n3] eng] [samples enrolling required] ts].
  cbv zeta.
  cbn [self env toasts Engine.db Engine.engine Db.nextUserId Db.users Db.isInitialized
       Db.faceDescriptors requiredSamples].
  intros Hfull -> Hemail.
  unfold completeEnrollment. rewrite mbind_run. unfold gets at 1.
  cbn [self requiredSamples].
  apply Z.ltb_ge in Hfull. rewrite Hfull.
  unfold tryCatchM, onDb, onEngine, Engine.onDb, zoom, Db.getAllUsers, Db.addUser, Db.logActivity, showToast, gets, modify, ret, throw, mbind.
  cbn. rewrite Hemail. cbn.
  eexists. split; [reflexivity|]. cbn. repeat split.
Qed.

Lemma completeEnrollment_duplicate_email_witness :
  let form := Db.mkUserData "Ada L." "ada@example.org" "Ops" "" in
  let w := mkWorld MatcherNotions.oneUser
             (mkState (repeat (mkSample descriptor128 (Num 0.9) "09:00") 5) true 5) [] in
  exists w',
    completeEnrollment form w = (Ok false, w') /\
    Db.users (Engine.db (env w')) = Db.users (Engine.db (env w)).
Proof.
  intros form w.
  destruct (completeEnrollment_duplicate_email form w
              ltac:(vm_compute; discriminate) eq_refl eq_refl)
    as (w' & Hrun & _ & _ & Husers & _).
  exists w'. split; [exact Hrun|exact Husers].
Defined.

(** X27: enrollment is not undone when storing the samples fails: once a
    full session with a new email reaches the database, the user is
    added, and stays added whatever the result.  When the result is false,
    the session is kept as it was and the failure is shown. *)
Theorem completeEnrollment_user_stays (form : Db.UserData) (w : World State) :
  let s := self w in
  let db := Engine.db (env w) in
  let user :=
    Db.mkUser (Db.nextUserId db) (Db.userName form) (Db.userEmail form)
      (Db.userDepartment form)
      (if String.eqb (Db.userRole form) "" then "Employee"%string else Db.userRole form)
      0 None in
  requiredSamples s <= sampleCount s ->
  Db.isInitialized db = true ->
  existsb (fun u => String.eqb (Db.email u) (Db.userEmail form)) (Db.users db) = false ->
  let (r, w') := completeEnrollment form w in
  Db.users (Engine.db (env w')) = Db.users db ++ [user] /\
  (r = Ok true \/
   r = Ok false /\ self w' = s /\
   exists msg, toasts w' = toasts w ++ [EnrollmentFailed msg]).
Proof.
  destruct w as [[[dinit us rows ars logs n1 n2 n3] eng] [samples enrolling required] ts].
  cbv zeta.
  cbn [self env toasts Engine.db Engine.engine Db.nextUserId Db.users Db.isInitialized
       Db.faceDescriptors requiredSamples].
  intros Hfull -> Hemail.
  unfold completeEnrollment. rewrite mbind_run. unfold gets at 1.
  cbn [self requiredSamples].
  apply Z.ltb_ge in Hfull. rewrite Hfull.
  unfold tryCatchM, onDb, onEngine, Engine.onDb, zoom, Db.getAllUsers, Db.addUser, Db.logActivity, gets, modify, ret, throw, mbind.
  cbn. rewrite Hemail.
  unfold set_env, set_self, Engine.set_db, Db.set_systemLogs, Db.set_users,
    Db.set_nextUserId. cbn.
  match goal with
  | |- context [enrollSamples n1 samples ?w1] =>
      pose proof (enrollSamples_roster n1 samples w1) as Hroster;
      pose proof (EnrollmentFacts.enrollSamples_frame n1 samples w1) as [Hself Htoasts];
      destruct (enrollSamples n1 samples w1)
        as [[[]|err] [[[i3 us3 rows3 ars3 logs3 m1 m2 m3] eng3] slf3 ts3]]
  end; cbn in Hroster, Hself, Htoasts; subst slf3 ts3;
    unfold pageRoster, engineRoster, roster in Hroster; cbn in Hroster;
    injection Hroster as -> ->.
  - unfold loadUserTable, tryCatchM, showToast, onDb, onEngine, Engine.onDb, zoom,
      Db.getAllUsers, set_enrollmentSamples, set_isEnrolling, set_env,
      set_self, Engine.set_db, mbind, gets, modify, ret. cbn.
    split; [reflexivity|left; reflexivity].
  - cbn. split; [reflexivity|right].
    split; [reflexivity|]. split; [reflexivity|]. eexists. reflexivity.
Qed.

Lemma completeEnrollment_user_stays_witness :
  let form := Db.mkUserData "Bob" "bob@example.org" "Ops" "" in
  let w := mkWorld (Engine.mkEnv Db.new Engine.new)
             (mkState (repeat (mkSample descriptor128 (Num 0.9) "09:00") 5) true 5) [] in
  let (r, w') := completeEnrollment form w in
  Db.users (Engine.db (env w')) =
  [Db.mkUser 1 "Bob" "bob@example.org" "Ops" "Employee" 0 None].
Proof.
  intros form w.
  pose proof (completeEnrollment_user_stays form w
                ltac:(vm_compute; discriminate) eq_refl eq_refl) as H.
  destruct (completeEnrollment form w) as [r w']. exact (proj1 H).
Defined.

(** With an engine that was never initialized, the result is false and the
    new user has no descriptor. *)
Example user_without_descriptors :
  let form := Db.mkUserData "Bob" "bob@example.org" "Ops" "" in
  let w := mkWorld (Engine.mkEnv Db.new Engine.new)
             (mkState (repeat (mkSample descriptor128 (Num 0.9) "09:00") 5) true 5) [] in
  fst (completeEnrollment form w) = Ok false /\
  Db.users (Engine.db (env (snd (completeEnrollment form w)))) =
    [Db.mkUser 1 "Bob" "bob@example.org" "Ops" "Employee" 0 None] /\
  Db.faceDescriptors (Engine.db (env (snd (completeEnrollment form w)))) = [] /\
  toasts (snd (completeEnrollment form w)) =
    [EnrollmentFailed "Face recognition engine not initialized"].
Proof. vm_compute. repeat split. Qed.

End CompletionMore.

(** ** The demonstration script *)

Module ScriptMore.
Import Js EnhancedScript RetryNotions MoreNotions.
Local Open Scope Z_scope.

(** X28: the success rate of [checkAttendance] lies between 0.3 and 0.7
    from the first attempt on and never grows with the attempts; so a draw
    below 0.3 is always recognized and a draw of 0.7 or more never is. *)
Theorem successRate_range (attempts : Z) (r1 : Q) :
  1 <= attempts ->
  (0.3 <= successRate attempts)%Q /\ (successRate attempts <= 0.7)%Q /\
  (successRate (attempts + 1) <= successRate attempts)%Q /\
  ((r1 < 0.3)%Q -> ~ missed attempts r1) /\
  ((0.7 <= r1)%Q -> missed attempts r1).
Proof.
  intros Hone. unfold missed, successRate.
  assert (Hpos : (0 <= inject_Z (attempts - 1))%Q).
  { unfold Qle. cbn. lia. }
  assert (Hnext : (inject_Z (attempts + 1 - 1) == inject_Z (attempts - 1) + 1)%Q).
  { replace (attempts + 1 - 1) with (attempts - 1 + 1) by lia.
    rewrite inject_Z_plus. reflexivity. }
  assert (Hlow : forall x, (0.3 <= Qmax 0.3 x)%Q) by (intros x; apply Q.le_max_l).
  assert (Hup : (Qmax 0.3 (0.7 - inject_Z (attempts - 1) * 0.1) <= 0.7)%Q).
  { apply Q.max_lub; lra. }
  split; [apply Hlow|]. split; [exact Hup|]. split.
  - apply Q.max_le_compat_l. rewrite Hnext. lra.
  - split.
    + intros Hr Hmiss. specialize (Hlow (0.7 - inject_Z (attempts - 1) * 0.1)%Q). lra.
    + intros Hr. lra.
Qed.

Lemma successRate_range_witness :
  (successRate 3 <= successRate 2)%Q /\ ~ missed 2 0.2 /\ missed 2 0.9.
Proof.
  destruct (successRate_range 2 0.2 ltac:(lia)) as (_ & _ & Hmono & Hhit & _).
  destruct (successRate_range 2 0.9 ltac:(lia)) as (_ & _ & _ & _ & Hmiss).
  split; [exact Hmono|]. split.
  - apply Hhit. reflexivity.
  - apply Hmiss. discriminate.
Defined.

Lemma welcomes_app (l l' : list Toast) : welcomes (l ++ l') = welcomes l + welcomes l'.
Proof.
  induction l as [|t l IH]; [reflexivity|].
  change (welcomes ((t :: l) ++ l')) with
    (match t with WelcomeBack _ _ => 1 + welcomes (l ++ l') | _ => welcomes (l ++ l') end).
  change (welcomes (t :: l)) with
    (match t with WelcomeBack _ _ => 1 + welcomes l | _ => welcomes l end).
  rewrite IH. destruct t; lia.
Qed.

Lemma checkIn_total (l : list DemoUser) (i : nat) (iso : string) (u : DemoUser) :
  nth_error l i = Some u -> totalCheckIns (checkIn l i iso) = totalCheckIns l + 1.
Proof.
  revert i. induction l as [|v l IH]; intros [|i] Hnth; cbn in Hnth; try discriminate.
  - injection Hnth as ->.
    change (attendanceCount u + 1 + totalCheckIns l =
            attendanceCount u + totalCheckIns l + 1). lia.
  - change (attendanceCount v + totalCheckIns (checkIn l i iso) =
            attendanceCount v + totalCheckIns l + 1).
    rewrite (IH i Hnth). lia.
Qed.

Lemma index_nth {A : Type} (l : list A) (i : Z) (x : A) :
  index l i = Some x -> nth_error l (Z.to_nat i) = Some x.
Proof. unfold index. destruct (i <? 0); [discriminate|auto]. Qed.

Ltac quiet :=
  cbn -[welcomes totalCheckIns successRate Qle_bool index checkIn Qfloor Qmult inject_Z
        Z.add Z.sub Z.leb MAX_ATTEMPTS].

Lemma step_accounting (op : Op) (s : State) :
  totalCheckIns (userDatabase (step op s)) - welcomes (toasts (step op s)) =
  totalCheckIns (userDatabase s) - welcomes (toasts s).
Proof.
  destruct s as [vs sc img n db ts].
  destruct op as [granted| | | |image|r1 r2 iso]; cbn [step].
  - destruct granted; cbn -[welcomes totalCheckIns]; rewrite ?welcomes_app; cbn; lia.
  - destruct vs; cbn -[welcomes totalCheckIns]; rewrite ?welcomes_app; cbn; lia.
  - destruct vs, sc; cbn -[welcomes totalCheckIns]; rewrite ?welcomes_app; cbn; lia.
  - destruct sc; cbn -[welcomes totalCheckIns]; rewrite ?welcomes_app; cbn; lia.
  - destruct sc; cbn -[welcomes totalCheckIns]; rewrite ?welcomes_app; cbn; lia.
  - unfold checkAttendance, checkAttendanceBegin, checkAttendanceResume, mbind, get,
      gets, showToast, modify, lift, deref.
    quiet. destruct img as [image|]; quiet; [|rewrite welcomes_app; cbn; lia].
    destruct (Qle_bool (successRate (n + 1)) r1); quiet.
    + destruct (MAX_ATTEMPTS <=? n + 1); quiet; rewrite !welcomes_app; cbn; lia.
    + destruct (index db (Qfloor (r2 * inject_Z (Z.of_nat (List.length db)))))
        as [u|] eqn:Hu; quiet.
      * rewrite (checkIn_total db _ iso u (index_nth _ _ _ Hu)).
        rewrite !welcomes_app. cbn. lia.
      * rewrite welcomes_app. cbn. lia.
Qed.

(** X29: every welcome is one check-in: along any run of the page, the
    check-ins counted in [userDatabase] grow by exactly the number of
    welcome toasts shown, whatever the draws of [Math.random()] are. *)
Theorem check_ins_match_welcomes (ops : list Op) (s : State) :
  totalCheckIns (userDatabase (run ops s)) - totalCheckIns (userDatabase s) =
  welcomes (toasts (run ops s)) - welcomes (toasts s).
Proof.
  enough (H : totalCheckIns (userDatabase (run ops s)) - welcomes (toasts (run ops s)) =
              totalCheckIns (userDatabase s) - welcomes (toasts s)) by lia.
  unfold run. revert s. induction ops as [|op ops IH]; intros s; cbn; [reflexivity|].
  rewrite IH. apply step_accounting.
Qed.

(** The same when calls of [checkAttendance] overlap: the check-in and its
    welcome are made in one stretch of the resumed call. *)
Lemma react_accounting (ev : Event) (p : Page) :
  totalCheckIns (userDatabase (globals (react ev p)))
    - welcomes (toasts (globals (react ev p))) =
  totalCheckIns (userDatabase (globals p)) - welcomes (toasts (globals p)).
Proof.
  destruct p as [s k]. destruct ev as [op| |r1 r2 iso]; cbn [react globals processing].
  - apply step_accounting.
  - destruct s as [vs sc img n db ts].
    unfold checkAttendanceBegin, mbind, get, gets, showToast, modify, ret.
    quiet. destruct img as [image|]; quiet; rewrite welcomes_app; cbn; lia.
  - destruct k as [|k]; [reflexivity|]. cbn [globals]. destruct s as [vs sc img n db ts].
    unfold checkAttendanceResume, mbind, get, gets, showToast, modify, lift, deref.
    quiet. destruct (Qle_bool (successRate n) r1); quiet.
    + destruct (MAX_ATTEMPTS <=? n); quiet; rewrite !welcomes_app; cbn; lia.
    + destruct (index db (Qfloor (r2 * inject_Z (Z.of_nat (List.length db)))))
        as [u|] eqn:Hu; quiet.
      * rewrite (checkIn_total db _ iso u (index_nth _ _ _ Hu)).
        rewrite !welcomes_app. cbn. lia.
      * lia.
Qed.

Lemma play_accounting (evs : list Event) (p : Page) :
  totalCheckIns (userDatabase (globals (play evs p)))
    - welcomes (toasts (globals (play evs p))) =
  totalCheckIns (userDatabase (globals p)) - welcomes (toasts (globals p)).
Proof.
  unfold play. revert p. induction evs as [|ev evs IH]; intros p; cbn; [reflexivity|].
  rewrite IH. apply react_accounting.
Qed.

(** A check-in happens: two of them for two lucky draws. *)
Example two_check_ins :
  let ops := [StartCamera true; CaptureImage; CountdownElapsed "jpeg";
              CheckAttendance 0.1 0.3 "09:00";
              CaptureImage; CountdownElapsed "jpeg";
              CheckAttendance 0.9 0.3 "09:01"; CheckAttendance 0.1 0.3 "09:02"] in
  totalCheckIns (userDatabase (run ops initial)) = 2 /\
  map attendanceCount (userDatabase (run ops initial)) = [0; 2; 0; 0].
Proof. vm_compute. split; reflexivity. Qed.

(** X30: with the camera on and no countdown running, [captureImage]
    followed by the end of the countdown stores the image, resets the
    attempts and ends the scan; if the scan is cancelled in between, the
    end of the countdown captures nothing.  Without the camera nothing is
    started: only the request to start it is shown. *)
Theorem capture_flow (image : string) (s : State) :
  isScanning s = false ->
  (videoStream s = true ->
   run [CaptureImage; CountdownElapsed image] s =
     mkState true false (Some image) 0 (userDatabase s) (toasts s ++ [ImageCaptured]) /\
   run [CaptureImage; CancelScanning; CountdownElapsed image] s =
     mkState true false (capturedImage s) 0 (userDatabase s)
       (toasts s ++ [ScanningCancelled])) /\
  (videoStream s = false ->
   run [CaptureImage; CountdownElapsed image] s =
     mkState false false (capturedImage s) (recognitionAttempts s) (userDatabase s)
       (toasts s ++ [PleaseStartCamera])).
Proof.
  destruct s as [vs sc img n db ts]. cbn. intros ->. split; intros ->.
  - split; reflexivity.
  - reflexivity.
Qed.

Lemma capture_flow_witness :
  run [CaptureImage; CountdownElapsed "jpeg"] (snd (startCamera true initial)) =
  mkState true false (Some "jpeg"%string) 0 (userDatabase initial)
    [CameraStarted; ImageCaptured].
Proof.
  exact (proj1 (proj1 (capture_flow "jpeg" (snd (startCamera true initial)) eq_refl)
                  eq_refl)).
Defined.

End ScriptMore.
